(** * Exchange rates report generator: cache reconciliation and streaming analytics

    A shallow embedding of the Python services of the report generator
    ([app/services/*.py]) and of the argument checks of [app/main.py], and the
    properties of its gap calculator, range chunker, remote fetcher, store
    merge, queries, analytics engine and report writers.

    Conventions of the embedding:
    - a [datetime.date] is its proleptic Gregorian ordinal ([date.toordinal()]),
      an integer; a [timedelta] is a number of days;
    - a Python float is a [pyfloat]: the IEEE special values and, for finite
      values, the rational it stands for; a subtraction rounds its exact
      result to the nearest binary64 number, ties to even, and overflows to
      an infinity (the sign of a zero is not modelled);
    - a pandas [DataFrame] is the list of its rows, an iterator of frames is a
      list of such lists;
    - a Python call that may raise is a value of [outcome];
    - the table is the finite map of its primary keys to the rates, a query is
      the list of the rows it selects, in its order;
    - a file that is written piece by piece is the list of its pieces. *)

From stdpp Require Import gmap strings list sorting.
From Stdlib Require Import QArith Qpower Qround Lqa ZArith Lia Ascii.
From Stdlib Require OrderedTypeEx SpecFloat.

Local Open Scope Z_scope.

(** ** Python values shared by the services *)

(** Exceptions that the modelled code raises or meets.  The constructors from
    [ReadTimeout] to [RequestException_] are instances of classes of
    [requests.exceptions], the two after them of classes of [sqlalchemy.exc];
    the ones before are builtin. *)
Inductive pyexc : Type :=
  | TypeError
  | IndexError
  | KeyError
  | ValueError
  | SystemExit (msg : string)
  | ReadTimeout
  | ConnectTimeout
  | ConnectionError_
  | HTTPError (status_code : Z)
  | TooManyRedirects
  | JSONDecodeError
  | RequestException_
  | OperationalError
  | IntegrityError.

(** The result of running a Python call. *)
Inductive outcome (A : Type) : Type :=
  | Returns (a : A)
  | Raises (e : pyexc).
Arguments Returns {A} a.
Arguments Raises {A} e.

#[global] Instance outcome_ret : MRet outcome := @Returns.
#[global] Instance outcome_bind : MBind outcome := fun A B f m =>
  match m with
  | Returns a => f a
  | Raises e => Raises e
  end.

(** [for x in l: body] with a body that may raise, threading the loop state. *)
Fixpoint for_each {A S : Type} (body : S -> A -> outcome S) (l : list A) (s : S)
  : outcome S :=
  match l with
  | [] => Returns s
  | x :: l' => s' ← body s x; for_each body l' s'
  end.

(** Python floats: [float('nan')], [float('-inf')], finite values, [float('inf')]. *)
Inductive pyfloat : Type :=
  | NaN
  | NInf
  | Fin (q : Q)
  | PInf.

Definition is_nan (a : pyfloat) : bool :=
  match a with NaN => true | _ => false end.

(** [a < b] on floats: every comparison with a NaN is false. *)
Definition flt (a b : pyfloat) : bool :=
  match a, b with
  | NaN, _ | _, NaN => false
  | NInf, NInf => false
  | NInf, _ => true
  | Fin _, NInf => false
  | Fin x, Fin y => QMicromega.Qlt_bool x y
  | Fin _, PInf => true
  | PInf, _ => false
  end.

(** [a <= b] on floats. *)
Definition fle (a b : pyfloat) : bool :=
  match a, b with
  | NaN, _ | _, NaN => false
  | NInf, _ => true
  | Fin _, NInf => false
  | Fin x, Fin y => Qle_bool x y
  | Fin _, PInf => true
  | PInf, PInf => true
  | PInf, _ => false
  end.

(** The binary64 format: 53 bits of precision, [-1022] the exponent of the
    least normal number, overflow from [2 ^ 1024] on. *)
Definition precision : Z := 53.
Definition emin : Z := -1022.
Definition emax : Z := 1024.

(** Rounding to the nearest integer, ties to even. *)
Definition round_half_even (x : Q) : Z :=
  let f := Qfloor x in
  match Qcompare (x - inject_Z f) (1 # 2) with
  | Lt => f
  | Gt => f + 1
  | Eq => if Z.even f then f else f + 1
  end.

(** The exponent of the binade of a positive [q]: [floor (log2 q)], and
    [emin] for the subnormal numbers. *)
Definition binade (q : Q) : Z :=
  Z.log2 (Z.max 1 (Qfloor (q * 2 ^ (- emin)))) + emin.

(** A positive real rounded to the nearest binary64 number, ties to even:
    to the nearest multiple of the unit in the last place of its binade, and
    to infinity from [2 ^ emax] on. *)
Definition round_positive (q : Q) : pyfloat :=
  let ulp := (2 ^ (binade q - (precision - 1)))%Q in
  let v := (inject_Z (round_half_even (q / ulp)) * ulp)%Q in
  if Qle_bool (2 ^ emax) v then PInf else Fin (Qred v).

(** [-a] on floats. *)
Definition fneg (a : pyfloat) : pyfloat :=
  match a with
  | NaN => NaN
  | NInf => PInf
  | Fin q => Fin (Qred (- q))
  | PInf => NInf
  end.

(** The binary64 number the exact result [q] of an operation is rounded to. *)
Definition round_to_double (q : Q) : pyfloat :=
  match Qcompare q 0 with
  | Eq => Fin 0
  | Gt => round_positive q
  | Lt => fneg (round_positive (- q))
  end.

(** [a - b] on floats. *)
Definition fsub (a b : pyfloat) : pyfloat :=
  match a, b with
  | NaN, _ | _, NaN => NaN
  | Fin x, Fin y => round_to_double (x - y)
  | PInf, PInf | NInf, NInf => NaN
  | PInf, _ => PInf
  | NInf, _ => NInf
  | Fin _, PInf => NInf
  | Fin _, NInf => PInf
  end.

(** The builtins [min(a, b)] and [max(a, b)]: the first argument is kept
    unless the second is strictly smaller (greater). *)
Definition py_min (a b : pyfloat) : pyfloat := if flt b a then b else a.
Definition py_max (a b : pyfloat) : pyfloat := if flt a b then b else a.

(** Truth value of a number: zero is false, everything else (the infinities
    and NaN too) is true. *)
Definition float_truthy (v : pyfloat) : bool :=
  match v with
  | Fin q => negb (Qeq_bool q 0)
  | _ => true
  end.

(** A label as pandas hands it out: [None], a string ['USD'] or the 1-tuple
    [('USD',)]. *)
Inductive label : Type :=
  | LNone
  | LStr (s : string)
  | LTuple (s : string).

(** [a == b] on labels; a string and a tuple are never equal. *)
Definition label_eqb (a b : label) : bool :=
  match a, b with
  | LNone, LNone => true
  | LStr s, LStr t => String.eqb s t
  | LTuple s, LTuple t => String.eqb s t
  | _, _ => false
  end.

(** Truth value of a label: [None], [''] are false. *)
Definition label_truthy (a : label) : bool :=
  match a with
  | LNone => false
  | LStr s => negb (String.eqb s "")
  | LTuple _ => true
  end.

(** [a[0]]: the member of a 1-tuple, the first character of a string. *)
Definition label_item0 (a : label) : outcome string :=
  match a with
  | LNone => Raises TypeError
  | LStr EmptyString => Raises IndexError
  | LStr (String c _) => Returns (String c EmptyString)
  | LTuple s => Returns s
  end.

(** [services/variables.py]: [curr_map = namedtuple('currency_map',
    ['curr_code', 'value'])], for a value of type [V]. *)
Record curr_map (V : Type) : Type := mk_curr_map { curr_code : label; value : V }.
Arguments mk_curr_map {V} curr_code value.
Arguments curr_code {V} c.
Arguments value {V} c.

(** [date(y, m, d).toordinal()]: day 1 is 0001-01-01. *)
Definition is_leap (y : Z) : bool :=
  (y mod 4 =? 0) && (negb (y mod 100 =? 0) || (y mod 400 =? 0)).

Definition days_before_year (y : Z) : Z :=
  let y1 := y - 1 in y1 * 365 + y1 / 4 - y1 / 100 + y1 / 400.

Definition days_before_month (y m : Z) : Z :=
  nth (Z.to_nat (m - 1)) [0; 31; 59; 90; 120; 151; 181; 212; 243; 273; 304; 334] 0
  + (if (2 <? m) && is_leap y then 1 else 0).

Definition date_ordinal (y m d : Z) : Z :=
  days_before_year y + days_before_month y m + d.

(** A closed date range [(start_date, end_date)], as the services pass it. *)
Definition interval : Type := Z * Z.

(** ** [database_models/exchange_rates.py] *)

(** A row of the table [exchange_rates]; its primary key is
    [(date, currency_code)]. *)
Record ExchangeRates : Type := mk_row {
  date : Z;
  currency_code : string;
  currency_rate : pyfloat
}.

(** ** The NBP API as the services see it *)

(** A response body: the rates of one currency over a range of days
    ([{'code': c, 'rates': [{'effectiveDate': d, 'mid': m}, ...]}]) or the
    table of all currencies of one day
    ([{'effectiveDate': d, 'rates': [{'code': c, 'mid': m}, ...]}]). *)
Inductive response_json : Type :=
  | CurrencyRates (code : string) (rates : list (Z * pyfloat))
  | TableRates (effectiveDate : Z) (rates : list (string * pyfloat)).

(** What [response.json()] decodes to. *)
Inductive json_body : Type :=
  | JDict (d : response_json)
  | JList (l : list response_json).

(** A [requests.Response]: its status and its body ([None] when the body is
    not JSON). *)
Record http_response : Type := mk_response {
  status_code_of : Z;
  body : option json_body
}.

(** The URI of one request: the endpoint ([rates/A/<code>] for [Some code],
    [tables/A] for [None]) and the two dates. *)
Record nbp_uri : Type := mk_uri {
  uri_currency : option string;
  uri_start_date : Z;
  uri_end_date : Z
}.

(** The classes named in the [except] clauses of the fetcher. *)
Inductive exc_class : Type :=
  | cTimeout
  | cConnectionError
  | cHTTPError
  | cRequestException.

(** [isinstance(e, c)], along the class hierarchy of [requests.exceptions]. *)
Definition isinstance (e : pyexc) (c : exc_class) : bool :=
  match c, e with
  | cTimeout, (ReadTimeout | ConnectTimeout) => true
  | cConnectionError, (ConnectionError_ | ConnectTimeout) => true
  | cHTTPError, HTTPError _ => true
  | cRequestException,
    (ReadTimeout | ConnectTimeout | ConnectionError_ | HTTPError _
     | TooManyRedirects | JSONDecodeError | RequestException_) => true
  | _, _ => false
  end.

(** ** [services/variables.py]: the currencies of table A *)

Definition AVAILABLE_CURRENCIES : list string :=
  ["THB"; "USD"; "AUD"; "HKD"; "CAD"; "NZD"; "SGD"; "EUR"; "HUF";
   "CHF"; "GBP"; "UAH"; "JPY"; "CZK"; "DKK"; "ISK"; "NOK"; "SEK";
   "RON"; "BGN"; "TRY"; "ILS"; "CLP"; "PHP"; "MXN"; "ZAR"; "BRL";
   "MYR"; "IDR"; "INR"; "KRW"; "CNY"; "XDR"]%string.

(** ** [services/database_communication_service.py] *)

Module database_communication_service.

(** The table, keyed by its primary key. *)
Abbreviation store := (gmap (Z * string) pyfloat).

Definition primary_key (r : ExchangeRates) : Z * string := (date r, currency_code r).

(** One row of [INSERT ... ON CONFLICT DO NOTHING]. *)
Definition insert_row (db : store) (r : ExchangeRates) : store :=
  match db !! primary_key r with
  | Some _ => db
  | None => <[primary_key r := currency_rate r]> db
  end.

(** The bound parameters that one statement may hold: the default of SQLite
    from version 3.32 on. *)
Definition SQLITE_MAX_VARIABLE_NUMBER : Z := 32766.

(** [_DatabaseOp.insert]: one statement [INSERT ... VALUES ... ON CONFLICT DO
    NOTHING] with three bound parameters for each row of [input_data], then
    the commit.
    - [values([])] gives a statement that SQLite does not parse, and a
      statement with too many parameters is refused: [OperationalError];
    - a NaN is bound as NULL and [currency_rate] is [NOT NULL], which
      [ON CONFLICT DO NOTHING] does not cover, whether the key of the row is
      in the table or not: [IntegrityError], and no row of the statement is
      kept;
    - otherwise the rows are inserted in order. *)
Definition insert (input_data : list ExchangeRates) (db : store) : outcome store :=
  match input_data with
  | [] => Raises OperationalError
  | _ :: _ =>
      if SQLITE_MAX_VARIABLE_NUMBER <? 3 * Z.of_nat (length input_data)
      then Raises OperationalError
      else if existsb (fun r => is_nan (currency_rate r)) input_data
      then Raises IntegrityError
      else Returns (fold_left insert_row input_data db)
  end.

Definition save_data_into_database (input_data : list ExchangeRates) (db : store)
  : outcome store :=
  insert input_data db.

(** The frames of [pandas.read_sql(..., chunksize=chunksize)], which [_select]
    returns: [fetchmany(chunksize)] until no row is left. *)
Fixpoint fetchmany_frames {A : Type} (fuel chunksize : nat) (rows : list A)
  : list (list A) :=
  match fuel, rows with
  | S fuel, _ :: _ =>
      take chunksize rows :: fetchmany_frames fuel chunksize (drop chunksize rows)
  | _, _ => []
  end.

(** [_DatabaseOp._select] on the rows a query selects: frames of up to 100
    rows, and one empty frame when the query selects nothing. *)
Definition _select {A : Type} (rows : list A) : list (list A) :=
  match rows with
  | [] => [[]]
  | _ :: _ => fetchmany_frames (length rows) 100 rows
  end.

(** *** The queries *)

(** The rows of the table. *)
Definition table_rows (db : store) : list ExchangeRates :=
  map (fun kv => mk_row kv.1.1 kv.1.2 kv.2) (map_to_list db).

(** [.where(date.between(start_date, end_date))] *)
Definition date_between (start_date end_date : Z) (r : ExchangeRates) : Prop :=
  start_date <= date r <= end_date.

(** [.filter(currency_code.in_(currency_codes))] *)
Definition code_in (currency_codes : list string) (r : ExchangeRates) : Prop :=
  currency_code r ∈ currency_codes.

(** [.order_by(currency_code, date)]: [r1] is not after [r2]. *)
Definition by_code_and_date (r1 r2 : ExchangeRates) : Prop :=
  match String.compare (currency_code r1) (currency_code r2) with
  | Lt => True
  | Eq => date r1 <= date r2
  | Gt => False
  end.

#[global] Instance date_between_dec start_date end_date r :
  Decision (date_between start_date end_date r) :=
  decide (start_date <= date r <= end_date).

#[global] Instance code_in_dec currency_codes r : Decision (code_in currency_codes r) :=
  decide (currency_code r ∈ currency_codes).

#[global] Instance by_code_and_date_dec r1 r2 : Decision (by_code_and_date r1 r2) :=
  match String.compare (currency_code r1) (currency_code r2) as c
        return Decision (match c with
                         | Lt => True
                         | Eq => date r1 <= date r2
                         | Gt => False
                         end)
  with
  | Lt => left I
  | Eq => decide (date r1 <= date r2)
  | Gt => right (fun H => H)
  end.

(** [.group_by(date).order_by(date).having(count(currency_code) >= n)] over
    the rows [rows]: the dates of the groups that are kept. *)
Definition dates_having_count (n : nat) (rows : list ExchangeRates) : list Z :=
  filter (fun d => (n <= length (filter (fun r => date r = d) rows))%nat)
         (merge_sort Z.le (remove_dups (map date rows))).

Definition select_all_data_between_dates (db : store) (start_date end_date : Z)
  : list (list ExchangeRates) :=
  _select (merge_sort by_code_and_date
             (filter (date_between start_date end_date) (table_rows db))).

Definition select_specific_currency_data_between_dates (db : store)
    (start_date end_date : Z) (currency_codes : list string)
  : list (list ExchangeRates) :=
  _select (merge_sort by_code_and_date
             (filter (code_in currency_codes)
                (filter (date_between start_date end_date) (table_rows db)))).

Definition select_distinct_dates_for_all_between_dates (db : store)
    (start_date end_date : Z) : list (list Z) :=
  _select (dates_having_count (length AVAILABLE_CURRENCIES)
             (filter (date_between start_date end_date) (table_rows db))).

Definition select_distinct_dates_for_specific_currency_between_dates (db : store)
    (start_date end_date : Z) (currency_codes : list string) : list (list Z) :=
  _select (dates_having_count (length currency_codes)
             (filter (code_in currency_codes)
                (filter (date_between start_date end_date) (table_rows db)))).

(** [if currency_codes:] is false for [None] and for the empty tuple. *)
Definition get_exchange_rates_data_from_database (db : store)
    (start_date end_date : Z) (currency_codes : option (list string))
  : list (list ExchangeRates) :=
  match currency_codes with
  | Some ((_ :: _) as codes) =>
      select_specific_currency_data_between_dates db start_date end_date codes
  | _ => select_all_data_between_dates db start_date end_date
  end.

Definition get_dates_with_records (db : store) (start_date end_date : Z)
    (currency_codes : option (list string)) : list (list Z) :=
  match currency_codes with
  | Some ((_ :: _) as codes) =>
      select_distinct_dates_for_specific_currency_between_dates
        db start_date end_date codes
  | _ => select_distinct_dates_for_all_between_dates db start_date end_date
  end.

End database_communication_service.

(** ** [services/api_communication_service.py] *)

Module api_communication_service.

Definition max_len : Z := 93.

(** [ceil(a / b)] for day counts. *)
Definition ceil_div (a b : Z) : Z := - ((- a) / b).

(** The date ranges [split_into_chunks_and_send_requests] sends a request
    for, out of one range of [dates_ranges]. *)
Definition date_chunks (start_date end_date : Z) : list interval :=
  if end_date - start_date <=? max_len then [(start_date, end_date)]
  else
    let date_chunks_num := ceil_div (end_date - start_date) max_len in
    map (fun i =>
           let chunk_start_date := start_date + max_len * i in
           let chunk_end_date := start_date + (max_len * (i + 1) - 1) in
           let chunk_end_date :=
             if chunk_end_date <? end_date then chunk_end_date else end_date in
           (chunk_start_date, chunk_end_date))
        (seqZ 0 date_chunks_num).

(** [response.raise_for_status()] *)
Definition raise_for_status (r : http_response) : outcome unit :=
  if (400 <=? status_code_of r) && (status_code_of r <? 600)
  then Raises (HTTPError (status_code_of r))
  else Returns tt.

(** [response.json()] *)
Definition json (r : http_response) : outcome json_body :=
  match body r with
  | Some j => Returns j
  | None => Raises JSONDecodeError
  end.

Section Requests.

(** [requests.get(uri, headers=...)] *)
Variable requests_get : nbp_uri -> outcome http_response.

(** The [try] block of [_send_request_to_nbp_api]. *)
Definition try_block (uri : nbp_uri) : outcome (list response_json) :=
  response ← requests_get uri;
  _ ← raise_for_status response;
  response_json ← json response;
  match response_json with
  | JDict d => Returns [d]
  | JList l => Returns l
  end.

(** The [except] clauses in their order; each of them logs and falls through
    to [return []]. *)
Definition _send_request_to_nbp_api (uri : nbp_uri) : outcome (list response_json) :=
  match try_block uri with
  | Returns r => Returns r
  | Raises e =>
      if isinstance e cTimeout then Returns []
      else if isinstance e cConnectionError then Returns []
      else if isinstance e cHTTPError then Returns []
      else if isinstance e cRequestException then Returns []
      else Raises e
  end.

(** The requests are sent while the chain is built, range after range and
    chunk after chunk. *)
Definition split_into_chunks_and_send_requests (dates_ranges : list interval)
    (currency : option string) : outcome (list response_json) :=
  for_each (fun _response '(start_date, end_date) =>
    for_each (fun _response '(chunk_start_date, chunk_end_date) =>
        r ← _send_request_to_nbp_api
              (mk_uri currency chunk_start_date chunk_end_date);
        Returns (_response ++ r))
      (date_chunks start_date end_date) _response)
    dates_ranges [].

Definition request_data_from_nbp_database (dates_ranges : list interval)
    (currency_codes : option (list string)) : outcome (list response_json) :=
  match currency_codes with
  | Some ((_ :: _) as codes) =>
      for_each (fun response currency_code =>
          r ← split_into_chunks_and_send_requests dates_ranges (Some currency_code);
          Returns (response ++ r))
        codes []
  | _ => split_into_chunks_and_send_requests dates_ranges None
  end.

End Requests.

End api_communication_service.

(** ** [services/data_collection_service.py] *)

Module data_collection_service.
Import database_communication_service api_communication_service.

(** The body of [for date in data_chunk['date']]; the state is
    [(missing_date_intervals, prev_date)]. *)
Definition scan_date (start_date : Z) (st : list interval * option Z) (date : Z)
  : list interval * option Z :=
  let '(missing_date_intervals, prev_date) := st in
  let missing_date_intervals :=
    match prev_date with
    | Some prev_date =>
        if prev_date <? date - 1
        then missing_date_intervals ++ [(prev_date + 1, date - 1)]
        else missing_date_intervals
    | None =>
        if start_date <? date
        then missing_date_intervals ++ [(start_date, date - 1)]
        else missing_date_intervals
    end in
  (missing_date_intervals, Some date).

(** The loop over the chunks, from the state [st] on, and the code after it.
    [prev_date < end_date] with [prev_date = None] is a [TypeError]. *)
Fixpoint scan_chunks (start_date end_date : Z) (dates_with_records_iter : list (list Z))
    (st : list interval * option Z) : outcome (list interval) :=
  match dates_with_records_iter with
  | data_chunk :: rest =>
      match data_chunk, fst st with
      | [], [] => Returns [(start_date, end_date)]
      | _, _ =>
          scan_chunks start_date end_date rest
            (fold_left (scan_date start_date) data_chunk st)
      end
  | [] =>
      match snd st with
      | None => Raises TypeError
      | Some prev_date =>
          if prev_date <? end_date
          then Returns (fst st ++ [(prev_date + 1, end_date)])
          else Returns (fst st)
      end
  end.

Definition _calculate_missing_date_intervals (start_date end_date : Z)
    (dates_with_records_iter : list (list Z)) : outcome (list interval) :=
  scan_chunks start_date end_date dates_with_records_iter ([], None).

(** [response_json.get('code', None)]. *)
Definition get_code (response_json : response_json) : option string :=
  match response_json with
  | CurrencyRates code _ => Some code
  | TableRates _ _ => None
  end.

(** The truth value of a string or [None]. *)
Definition str_truthy (s : option string) : bool :=
  match s with
  | Some (String _ _) => true
  | Some EmptyString | None => false
  end.

(** [response_json['code']] is a [KeyError] on the table of a day. *)
Definition _reformat_json_for_single_currency_exchange_rates
    (response_json : response_json) : outcome (list ExchangeRates) :=
  match response_json with
  | CurrencyRates code rates =>
      Returns (map (fun '(effectiveDate, mid) => mk_row effectiveDate code mid) rates)
  | TableRates _ _ => Raises KeyError
  end.

(** [response_json['effectiveDate']] is a [KeyError] on the rates of one
    currency. *)
Definition _reformat_json_for_all_currencies_exchange_rates
    (response_json : response_json) : outcome (list ExchangeRates) :=
  match response_json with
  | TableRates effectiveDate rates =>
      Returns (map (fun '(code, mid) => mk_row effectiveDate code mid) rates)
  | CurrencyRates _ _ => Raises KeyError
  end.

Definition _align_json_data_with_database_model (response_json : response_json)
  : outcome (list ExchangeRates) :=
  if str_truthy (get_code response_json)
  then _reformat_json_for_single_currency_exchange_rates response_json
  else _reformat_json_for_all_currencies_exchange_rates response_json.

(** The body of [for response in response_it]; the state is
    [(data_collected, table)]. *)
Definition collect_step (st : bool * store) (response : response_json)
  : outcome (bool * store) :=
  let '(_, db) := st in
  input_data ← _align_json_data_with_database_model response;
  db ← save_data_into_database input_data db;
  Returns (true, db).

Definition no_data_msg : string :=
  "Data for the requested time range is not available on the NBP server".

Section Collaborators.

(** [requests.get] and the table's coverage query
    ([database_communication_service.get_dates_with_records], which reads the
    dates through [pandas.read_sql(..., chunksize=100)]). *)
Variable requests_get : nbp_uri -> outcome http_response.
Variable get_dates_with_records : store -> Z -> Z -> option (list string) -> list (list Z).

(** Returns [data_collected] and the table after the inserts. *)
Definition _collect_missing_data_from_nbp_api (dates_ranges : list interval)
    (currency_codes : option (list string)) (db : store) : outcome (bool * store) :=
  response_it ← request_data_from_nbp_database requests_get dates_ranges currency_codes;
  for_each collect_step response_it (false, db).

(** Returns the table as the call leaves it. *)
Definition gather_data_for_date_range (start_date end_date : Z)
    (currency_codes : option (list string)) (db : store) : outcome store :=
  let dates_with_records_iter :=
    get_dates_with_records db start_date end_date currency_codes in
  missing_dates_ranges ←
    _calculate_missing_date_intervals start_date end_date dates_with_records_iter;
  match missing_dates_ranges with
  | [] => Returns db
  | _ :: _ =>
      '(is_data_collected, db') ←
        _collect_missing_data_from_nbp_api missing_dates_ranges currency_codes db;
      if negb is_data_collected
         && bool_decide (missing_dates_ranges = [(start_date, end_date)])
      then Raises (SystemExit no_data_msg)
      else Returns db'
  end.

End Collaborators.

End data_collection_service.

(** ** [services/report_generator_service.py] *)

Module report_generator_service.

(** A [DataFrame] of the table's rows. *)
Abbreviation frame := (list ExchangeRates).

(** The body of [for rate in pd_series]; the state is
    [(inc_min, dec_max, max_increase, max_decrease)]. *)
Definition find_step (st : pyfloat * pyfloat * pyfloat * pyfloat) (rate : pyfloat)
  : pyfloat * pyfloat * pyfloat * pyfloat :=
  let '(inc_min, dec_max, max_increase, max_decrease) := st in
  let inc_min := py_min inc_min rate in
  let max_increase := py_max max_increase (fsub rate inc_min) in
  let dec_max := py_max dec_max rate in
  let max_decrease := py_max max_decrease (fsub dec_max rate) in
  (inc_min, dec_max, max_increase, max_decrease).

Definition _find_largest_increase_and_decrease (pd_series : list pyfloat)
  : pyfloat * pyfloat :=
  let '(_, _, max_increase, max_decrease) :=
    fold_left find_step pd_series (PInf, NInf, Fin 0, Fin 0) in
  (max_increase, max_decrease).

(** The keys of [df.groupby(...)]: each once, in ascending order. *)
Fixpoint insert_key (k : string) (ks : list string) : list string :=
  match ks with
  | [] => [k]
  | k' :: ks' =>
      match String.compare k k' with
      | Lt => k :: ks
      | Eq => ks
      | Gt => k' :: insert_key k ks'
      end
  end.

Definition group_keys (df : frame) : list string :=
  fold_right insert_key [] (map currency_code df).

(** [grouped.get_group((k,))]: the rows of the group, in the frame's order. *)
Definition get_group (df : frame) (k : string) : frame :=
  List.filter (fun r => String.eqb (currency_code r) k) df.

(** [df_chunk.groupby([df_chunk['currency_code']])] *)
Definition groupby (df_chunk : frame) : list (string * frame) :=
  map (fun k => (k, get_group df_chunk k)) (group_keys df_chunk).

(** [pd.concat([last_chunk.value, df])]; a [None] in the list is dropped. *)
Definition concat_frames (carried : option frame) (df : frame) : frame :=
  match carried with
  | Some rows => rows ++ df
  | None => df
  end.

(** The two running extrema, [curr_max_inc] and [curr_max_dec]. *)
Definition extrema : Type := curr_map pyfloat * curr_map pyfloat.

Section GroupLabels.

(** The label under which iterating a groupby hands out the group of a
    currency.  The grouping is by a one-element list, for which pandas yields
    the 1-tuple [(code,)] (the report writers take [curr_code[0]]), while
    [last_row.name] is the bare index label (the source wraps it again for
    [get_group]). *)
Variable iter_key : string -> label.

(** The body of [for currency_code, df in grouped_chunks]. *)
Definition group_step (last_chunk : curr_map (option frame)) (st : extrema)
    (g : string * frame) : extrema :=
  let '(curr_max_inc, curr_max_dec) := st in
  let currency_code := iter_key (fst g) in
  let df :=
    if label_eqb currency_code (curr_code last_chunk)
    then concat_frames (value last_chunk) (snd g)
    else snd g in
  let '(max_inc, max_dec) :=
    _find_largest_increase_and_decrease (map currency_rate df) in
  let curr_max_inc :=
    if flt (value curr_max_inc) max_inc
    then mk_curr_map currency_code max_inc else curr_max_inc in
  let curr_max_dec :=
    if flt (value curr_max_dec) max_dec
    then mk_curr_map currency_code max_dec else curr_max_dec in
  (curr_max_inc, curr_max_dec).

(** The body of [for df_chunk in df_iter]; [.iloc[-1]] of an empty frame is
    an [IndexError]. *)
Definition chunk_step (st : extrema * curr_map (option frame)) (df_chunk : frame)
  : outcome (extrema * curr_map (option frame)) :=
  let '(ext, last_chunk) := st in
  let grouped_chunks := groupby df_chunk in
  let ext := fold_left (group_step last_chunk) grouped_chunks ext in
  match last grouped_chunks with
  | None => Raises IndexError
  | Some (last_row_name, rows) =>
      Returns (ext, mk_curr_map (LStr last_row_name) (Some rows))
  end.

Definition largest_increase_and_decrease_with (df_iter : list frame) : outcome extrema :=
  st ← for_each chunk_step df_iter
         ((mk_curr_map LNone NInf, mk_curr_map LNone NInf), mk_curr_map LNone None);
  Returns (fst st).

End GroupLabels.

(** The function of the source, with the labels pandas yields for it. *)
Definition _get_largest_exchange_rate_increase_and_decrease (df_iter : list frame)
  : outcome extrema :=
  largest_increase_and_decrease_with LTuple df_iter.

(** A scalar as it is written to a report. *)
Inductive scalar : Type :=
  | SNone
  | SNum (v : pyfloat)
  | SStr (s : string).

(** The dictionary [analytical_data], in insertion order. *)
Definition analytical_data_of (e : extrema) : list (string * curr_map pyfloat) :=
  [("max_recorded_increase"%string, fst e); ("max_recorded_decrease"%string, snd e)].

(** The entry of one [change_type] in the JSON report: the list of its
    key/value pairs. *)
Definition json_entry (change_type : string) (c : curr_map pyfloat)
  : outcome (list (string * scalar)) :=
  if float_truthy (value c) && label_truthy (curr_code c)
  then
    code ← label_item0 (curr_code c);
    Returns [(change_type, SNum (value c)); ("currency_code"%string, SStr code)]
  else Returns [(change_type, SNone)].

(** The list [json_report] that is dumped to the file. *)
Fixpoint _generate_json_report_with_analytical_data
    (analytical_data : list (string * curr_map pyfloat))
  : outcome (list (list (string * scalar))) :=
  match analytical_data with
  | [] => Returns []
  | (change_type, c) :: rest =>
      currency_report ← json_entry change_type c;
      json_report ← _generate_json_report_with_analytical_data rest;
      Returns (currency_report :: json_report)
  end.

(** A line of the CSV report, [f'{name}, {value}'], or an empty line. *)
Inductive csv_line : Type :=
  | Line (name : string) (v : scalar)
  | Blank.

(** The lines written for one [change_type]. *)
Definition csv_entry (change_type : string) (c : curr_map pyfloat)
  : outcome (list csv_line) :=
  if float_truthy (value c) && label_truthy (curr_code c)
  then
    code ← label_item0 (curr_code c);
    Returns [Line change_type (SNum (value c));
             Line "currency_code" (SStr code); Blank]
  else Returns [Line change_type SNone].

(** The lines of the CSV file. *)
Fixpoint _generate_csv_report_with_analytical_data
    (analytical_data : list (string * curr_map pyfloat)) : outcome (list csv_line) :=
  match analytical_data with
  | [] => Returns []
  | (change_type, c) :: rest =>
      lines ← csv_entry change_type c;
      csv_report ← _generate_csv_report_with_analytical_data rest;
      Returns (lines ++ csv_report)
  end.

(** *** The historical reports *)

(** One [currency_report] of the historical JSON report: the values under
    ['currency_code'] and ['rates'], a rate being the pair of the values
    under ['date'] and ['rate']. *)
Record currency_report : Type := mk_currency_report {
  report_code : string;
  report_rates : list (Z * pyfloat)
}.

(** What is written to the historical CSV file: ['\n\n'], the line of a
    currency code, the line ['Date,Exchange rate'] and a line of [to_csv]. *)
Inductive csv_write : Type :=
  | BlankLines
  | CodeLine (code : string)
  | ColumnsLine
  | RateLine (date : Z) (rate : pyfloat).

Section HistoricalLabels.

Variable iter_key : string -> label.

(** The body of [for currency_code, df in df_chunk.groupby(...)] of the JSON
    writer; the state is [(json_report, first_iter)]. *)
Definition historical_json_group_step (st : list currency_report * bool)
    (g : string * frame) : outcome (list currency_report * bool) :=
  let '(json_report, first_iter) := st in
  let currency_code := iter_key (fst g) in
  let currency_exchange_rates_list :=
    map (fun r => (date r, currency_rate r)) (snd g) in
  let extended :=
    if first_iter then
      match last json_report with
      | Some last_report =>
          if label_eqb currency_code (LStr (report_code last_report))
          then Some (removelast json_report
                     ++ [mk_currency_report (report_code last_report)
                           (report_rates last_report ++ currency_exchange_rates_list)])
          else None
      | None => None
      end
    else None in
  match extended with
  | Some json_report => Returns (json_report, false)
  | None =>
      code ← label_item0 currency_code;
      Returns (json_report ++ [mk_currency_report code currency_exchange_rates_list],
               false)
  end.

(** The list [json_report] that is dumped to the file. *)
Definition historical_json_report_with (df_iter : list frame)
  : outcome (list currency_report) :=
  for_each (fun json_report df_chunk =>
              st ← for_each historical_json_group_step (groupby df_chunk)
                     (json_report, true);
              Returns (fst st))
           df_iter [].

(** The body of the group loop of the CSV writer; the state is the file
    ([None] while it does not exist) and [last_currency_code]. *)
Definition historical_csv_group_step (st : option (list csv_write) * label)
    (g : string * frame) : outcome (option (list csv_write) * label) :=
  let '(csv_report, last_currency_code) := st in
  let currency_code := iter_key (fst g) in
  let currency_exchange_rates :=
    map (fun r => RateLine (date r) (currency_rate r)) (snd g) in
  header ←
    (if negb (label_eqb currency_code last_currency_code)
     then
       code ← label_item0 currency_code;
       Returns ((if label_truthy last_currency_code then [BlankLines] else [])
                ++ [CodeLine code; ColumnsLine])
     else Returns []);
  Returns (Some (default [] csv_report ++ header ++ currency_exchange_rates),
           currency_code).

(** The file at [report_path] after the call, from the file [csv_report]
    before it: every write appends. *)
Definition historical_csv_report_with (df_iter : list frame)
    (csv_report : option (list csv_write)) : outcome (option (list csv_write)) :=
  st ← for_each (fun st df_chunk =>
                   for_each historical_csv_group_step (groupby df_chunk) st)
                df_iter (csv_report, LStr "");
  Returns (fst st).

End HistoricalLabels.

Definition _generate_json_report_with_historical_data (df_iter : list frame)
  : outcome (list currency_report) :=
  historical_json_report_with LTuple df_iter.

Definition _generate_csv_report_with_historical_data (df_iter : list frame)
    (csv_report : option (list csv_write)) : outcome (option (list csv_write)) :=
  historical_csv_report_with LTuple df_iter csv_report.

(** *** [generate_report] *)

Import database_communication_service.

(** What the file of a report holds. *)
Inductive report_file : Type :=
  | HistoricalJson (json_report : list currency_report)
  | HistoricalCsv (csv_report : list csv_write)
  | AnalyticalJson (json_report : list (list (string * scalar)))
  | AnalyticalCsv (csv_report : list csv_line).

(** [generate_report] for a [report_path] at which no file exists yet, as
    [main] leaves it; [extension] is [Path(report_path).suffix].  Returns the
    file at [report_path] after the call, [None] when there is none;
    [SystemExit "1"] is the exit with status 1. *)
Definition generate_report (report_type : string) (start_date end_date : Z)
    (currency_codes : option (list string)) (extension : string) (db : store)
  : outcome (option report_file) :=
  let df_iter :=
    get_exchange_rates_data_from_database db start_date end_date currency_codes in
  if String.eqb report_type "h" || String.eqb report_type "historical" then
    if String.eqb extension ".json" then
      json_report ← _generate_json_report_with_historical_data df_iter;
      Returns (Some (HistoricalJson json_report))
    else if String.eqb extension ".csv" then
      csv_report ← _generate_csv_report_with_historical_data df_iter None;
      Returns (option_map HistoricalCsv csv_report)
    else Raises (SystemExit "1")
  else if String.eqb report_type "a" || String.eqb report_type "analytical" then
    analytical_data ← _get_largest_exchange_rate_increase_and_decrease df_iter;
    if String.eqb extension ".json" then
      json_report ← _generate_json_report_with_analytical_data
                      (analytical_data_of analytical_data);
      Returns (Some (AnalyticalJson json_report))
    else if String.eqb extension ".csv" then
      csv_report ← _generate_csv_report_with_analytical_data
                     (analytical_data_of analytical_data);
      Returns (Some (AnalyticalCsv csv_report))
    else Raises (SystemExit "1")
  else Raises (SystemExit "1").

End report_generator_service.

(** ** [main.py] *)

Module main.


Section Dates.

(** [datetime.strptime(arg, '%Y-%m-%d').date()], which raises [ValueError]
    for a string that is not a date, and [datetime.now().date()]. *)
Variable strptime : string -> outcome Z.
Variable today : Z.




End Dates.





End main.

Import database_communication_service api_communication_service.
Import data_collection_service report_generator_service.

(** * Specification vocabulary *)

(** ** Extrema of a rate sequence *)

(** The multiple of the unit in the last place that [round_positive] picks. *)
Definition rounded_value (q : Q) : Q :=
  (inject_Z (round_half_even (q / 2 ^ (binade q - (precision - 1))))
   * 2 ^ (binade q - (precision - 1)))%Q.

(** A finite float is kept as a reduced fraction. *)
Definition canonical (a : pyfloat) : Prop :=
  match a with Fin q => Qred q = q | _ => True end.

(** [a == b] on floats. *)
Definition float_eq (a b : pyfloat) : Prop := fle a b = true /\ fle b a = true.

(** [v] is the largest of [0] and the rises [rates[j] - rates[i]], [i <= j],
    each of them the difference of the two floats. *)
Definition largest_rise (rates : list Q) (v : pyfloat) : Prop :=
  fle (Fin 0) v = true
  /\ (forall i j x y, (i <= j)%nat -> rates !! i = Some x -> rates !! j = Some y ->
       fle (fsub (Fin y) (Fin x)) v = true)
  /\ (v = Fin 0 \/ exists i j x y,
        (i <= j)%nat /\ rates !! i = Some x /\ rates !! j = Some y
        /\ v = fsub (Fin y) (Fin x)).

(** [v] is the largest of [0] and the falls [rates[i] - rates[j]], [i <= j]. *)
Definition largest_fall (rates : list Q) (v : pyfloat) : Prop :=
  fle (Fin 0) v = true
  /\ (forall i j x y, (i <= j)%nat -> rates !! i = Some x -> rates !! j = Some y ->
       fle (fsub (Fin x) (Fin y)) v = true)
  /\ (v = Fin 0 \/ exists i j x y,
        (i <= j)%nat /\ rates !! i = Some x /\ rates !! j = Some y
        /\ v = fsub (Fin x) (Fin y)).

(** A binary64 number of the Standard Library's specification of the
    format, as a float of the embedding. *)
Definition of_spec_float (f : SpecFloat.spec_float) : pyfloat :=
  match f with
  | SpecFloat.S754_zero _ => Fin 0
  | SpecFloat.S754_infinity false => PInf
  | SpecFloat.S754_infinity true => NInf
  | SpecFloat.S754_nan => NaN
  | SpecFloat.S754_finite s m e =>
      Fin (Qred ((if s then -1 else 1) * inject_Z (Z.pos m) * 2 ^ e))
  end.

(** Pairs of binary64 numbers: 0.7 and 0.1, 0.3 and 0.1, 1e308 and -1e308,
    -1e308 and 1e308, 0.1 and 0.1. *)
Definition float_samples : list (SpecFloat.spec_float * SpecFloat.spec_float) :=
  [(SpecFloat.S754_finite false 6305039478318694 (-53),
    SpecFloat.S754_finite false 7205759403792794 (-56));
   (SpecFloat.S754_finite false 5404319552844595 (-54),
    SpecFloat.S754_finite false 7205759403792794 (-56));
   (SpecFloat.S754_finite false 5010420900022432 971,
    SpecFloat.S754_finite true 5010420900022432 971);
   (SpecFloat.S754_finite true 5010420900022432 971,
    SpecFloat.S754_finite false 5010420900022432 971);
   (SpecFloat.S754_finite false 7205759403792794 (-56),
    SpecFloat.S754_finite false 7205759403792794 (-56))].

(** The initial global extremum, [curr_map(None, float('-inf'))]. *)
Definition no_data : curr_map pyfloat := mk_curr_map LNone NInf.

(** A global extremum that names a currency and is at least [0]. *)
Definition settled (c : curr_map pyfloat) : Prop :=
  curr_code c <> LNone /\ fle (Fin 0) (value c) = true.

(** ** Date ranges *)

(** The date [d] lies in the closed range [g]. *)
Definition in_interval (d : Z) (g : interval) : Prop := g.1 <= d <= g.2.

(** Ranges in ascending order, none empty, no two sharing a date. *)
Definition ascending_disjoint (gaps : list interval) : Prop :=
  Forall (fun g => g.1 <= g.2) gaps
  /\ StronglySorted (fun a b : interval => a.2 < b.1) gaps.

(** [gaps] are exactly the dates of [start_date .. end_date] that [covered]
    leaves out. *)
Definition exact_gaps (start_date end_date : Z) (covered : list Z)
    (gaps : list interval) : Prop :=
  ascending_disjoint gaps
  /\ (forall d, d ∈ covered -> ~ Exists (in_interval d) gaps)
  /\ (forall d, start_date <= d <= end_date <->
                d ∈ covered \/ Exists (in_interval d) gaps).

(** The gap calculator returns the exact gaps of a coverage stream. *)
Definition returns_exact_gaps (start_date end_date : Z)
    (dates_with_records_iter : list (list Z)) : Prop :=
  exists gaps,
    _calculate_missing_date_intervals start_date end_date dates_with_records_iter
      = Returns gaps
    /\ exact_gaps start_date end_date (concat dates_with_records_iter) gaps.

(** ** Failures of a request *)

(** The failures the fetcher is said to absorb: a timeout, a refused
    connection, and the answer 404 for a range without data. *)
Definition transient_or_no_data (e : pyexc) : bool :=
  isinstance e cTimeout || isinstance e cConnectionError
  || match e with HTTPError 404 => true | _ => false end.

(** Absorb those, propagate every other failure. *)
Definition propagates_other_failures
    (requests_get : nbp_uri -> outcome http_response) (uri : nbp_uri) : Prop :=
  forall e, try_block requests_get uri = Raises e ->
    if transient_or_no_data e
    then _send_request_to_nbp_api requests_get uri = Returns []
    else _send_request_to_nbp_api requests_get uri = Raises e.

(** ** Scenarios *)

(** A day of January 2025, as an ordinal. *)
Definition jan (d : Z) : Z := date_ordinal 2025 1 d.

(** One currency on three days, one row per chunk. *)
Definition usd_day1 : frame := [mk_row (jan 1) "USD" (Fin 1)].
Definition usd_day2 : frame := [mk_row (jan 2) "USD" (Fin 5)].
Definition usd_day3 : frame := [mk_row (jan 3) "USD" (Fin 10)].

(** A series of ten days, split after the fifth. *)
Definition usd_days_1_to_5 : frame :=
  [mk_row (jan 1) "USD" (Fin 1); mk_row (jan 2) "USD" (Fin 2);
   mk_row (jan 3) "USD" (Fin 3); mk_row (jan 4) "USD" (Fin 4);
   mk_row (jan 5) "USD" (Fin 5)].
Definition usd_days_6_to_10 : frame :=
  [mk_row (jan 6) "USD" (Fin 6); mk_row (jan 7) "USD" (Fin 7);
   mk_row (jan 8) "USD" (Fin 8); mk_row (jan 9) "USD" (Fin 9);
   mk_row (jan 10) "USD" (Fin 10)].

(** A rate that stays the same over three days. *)
Definition usd_constant : frame :=
  [mk_row (jan 1) "USD" (Fin 4); mk_row (jan 2) "USD" (Fin 4);
   mk_row (jan 3) "USD" (Fin 4)].

(** [n] consecutive daily rows of one currency from [first_day] on, the rate
    rising by one a day from [first_rate]. *)
Definition usd_rows (first_day first_rate n : Z) : frame :=
  map (fun i => mk_row (first_day + i) "USD" (Fin (inject_Z (first_rate + i))))
      (seqZ 0 n).

(** 300 days of one currency as [pandas.read_sql(..., chunksize=100)] hands
    them out, and as one frame. *)
Definition usd_300_days_chunked : list frame :=
  [usd_rows (jan 1) 1 100; usd_rows (jan 1 + 100) 101 100;
   usd_rows (jan 1 + 200) 201 100].
Definition usd_300_days_unsplit : list frame := [usd_rows (jan 1) 1 300].

(** A server that answers 500 with a body that is not JSON. *)
Definition server_error : nbp_uri -> outcome http_response :=
  fun _ => Returns (mk_response 500 None).

(** A server that answers 200 with a body that is not JSON. *)
Definition garbled_body : nbp_uri -> outcome http_response :=
  fun _ => Returns (mk_response 200 None).

(** A request for the rates of one currency. *)
Definition usd_request : nbp_uri := mk_uri (Some "USD"%string) (jan 1) (jan 3).

(** ** Loop invariants *)

(** [m] is a member of [l] and its least one. *)
Definition is_min (l : list Q) (m : Q) : Prop :=
  (exists i, l !! i = Some m) /\ forall j x, l !! j = Some x -> (m <= x)%Q.

(** [m] is a member of [l] and its greatest one. *)
Definition is_max (l : list Q) (m : Q) : Prop :=
  (exists i, l !! i = Some m) /\ forall j x, l !! j = Some x -> (x <= m)%Q.

(** What the loop state holds once the rates [pre] are consumed. *)
Definition tracks (pre : list Q) (st : pyfloat * pyfloat * pyfloat * pyfloat) : Prop :=
  ((pre = [] /\ st.1.1.1 = PInf) \/ (exists m, st.1.1.1 = Fin m /\ is_min pre m))
  /\ ((pre = [] /\ st.1.1.2 = NInf) \/ (exists m, st.1.1.2 = Fin m /\ is_max pre m))
  /\ largest_rise pre st.1.2
  /\ largest_fall pre st.2.

(** The loop state [(gaps, prev_date = p)] after the covered dates [pre]. *)
Definition covers_up_to (start_date : Z) (pre : list Z) (gaps : list interval)
    (p : Z) : Prop :=
  Forall (fun g : interval => start_date <= g.1 <= g.2 /\ g.2 < p) gaps
  /\ StronglySorted (fun a b : interval => a.2 < b.1) gaps
  /\ (forall d, Exists (in_interval d) gaps <-> start_date <= d <= p /\ d ∉ pre)
  /\ p ∈ pre
  /\ (forall x, x ∈ pre -> start_date <= x <= p).

(** * Further vocabulary *)

(** ** The requests of a fetch *)

(** The URIs asked of one endpoint: for each range of [dates_ranges] in
    order, its chunks in order. *)
Definition endpoint_uris (dates_ranges : list interval) (currency : option string)
  : list nbp_uri :=
  flat_map (fun '(start_date, end_date) =>
              map (fun '(chunk_start_date, chunk_end_date) =>
                     mk_uri currency chunk_start_date chunk_end_date)
                  (date_chunks start_date end_date))
           dates_ranges.

(** The URIs of a whole fetch: currency after currency, or the tables
    endpoint when no currency is given. *)
Definition request_uris (dates_ranges : list interval)
    (currency_codes : option (list string)) : list nbp_uri :=
  match currency_codes with
  | Some ((_ :: _) as codes) =>
      flat_map (fun currency_code => endpoint_uris dates_ranges (Some currency_code)) codes
  | _ => endpoint_uris dates_ranges None
  end.

(** The responses to the requests [l], asked in order through [f] and
    chained; the first failure ends it. *)
Fixpoint chain_all {A B : Type} (f : A -> outcome (list B)) (l : list A)
  : outcome (list B) :=
  match l with
  | [] => Returns []
  | x :: l' => r ← f x; rs ← chain_all f l'; Returns (r ++ rs)
  end.

(** No request is answered with data: each one fails inside the
    [RequestException] hierarchy or comes back with an HTTP error status. *)
Definition outage (requests_get : nbp_uri -> outcome http_response) : Prop :=
  forall uri,
    (exists e, requests_get uri = Raises e /\ isinstance e cRequestException = true)
    \/ (exists response, requests_get uri = Returns response
                         /\ 400 <= status_code_of response < 600).

(** ** Groups of a stream of frames *)

(** The order of the keys of a groupby: [a < b] on strings. *)
Definition code_lt (a b : string) : Prop := String.compare a b = Lt.

(** The largest increase and the largest decrease within one group, as the
    analytics compute them. *)
Definition group_rise (g : string * frame) : pyfloat :=
  (_find_largest_increase_and_decrease (map currency_rate g.2)).1.
Definition group_fall (g : string * frame) : pyfloat :=
  (_find_largest_increase_and_decrease (map currency_rate g.2)).2.

(** [g] is the first group of [groups] whose value [val] is the greatest:
    the groups before it have a strictly smaller value, none has a greater
    one. *)
Definition first_best (val : string * frame -> pyfloat) (groups : list (string * frame))
    (g : string * frame) : Prop :=
  exists before after,
    groups = before ++ g :: after
    /\ Forall (fun g' => flt (val g') (val g) = true) before
    /\ Forall (fun g' => fle (val g') (val g) = true) groups.

(** The rows of a frame are in the order of their currency codes. *)
Definition grouped_by_code (df : frame) : Prop :=
  StronglySorted (fun r1 r2 : ExchangeRates =>
                    currency_code r1 = currency_code r2
                    \/ code_lt (currency_code r1) (currency_code r2)) df.

(** Every code of a frame of the stream comes before every code of a later
    frame: no currency is cut by a frame boundary. *)
Definition frames_separated (df_iter : list frame) : Prop :=
  forall i j (ci cj : frame) r r',
    (i < j)%nat -> df_iter !! i = Some ci -> df_iter !! j = Some cj ->
    r ∈ ci -> r' ∈ cj -> code_lt (currency_code r) (currency_code r').

(** Two currencies over two days, as two frames cut between the currencies. *)
Definition eur_then_usd : list frame :=
  [[mk_row (jan 1) "EUR" (Fin 4); mk_row (jan 2) "EUR" (Fin 4.5)];
   [mk_row (jan 1) "USD" (Fin 3); mk_row (jan 2) "USD" (Fin 2)]].

(** ** The historical reports *)

(** The entry the JSON writer makes of one group. *)
Definition group_report (g : string * frame) : currency_report :=
  mk_currency_report g.1 (map (fun r => (date r, currency_rate r)) g.2).

(** The rows of the table an entry of the JSON report stands for. *)
Definition report_rows (e : currency_report) : frame :=
  map (fun '(d, rate) => mk_row d (report_code e) rate) (report_rates e).

(** What the CSV writer appends for one row when it is handed the rows one
    by one: the heading of its currency where the currency changes, and its
    line. *)
Definition csv_row_step (st : option (list csv_write) * label) (r : ExchangeRates)
  : option (list csv_write) * label :=
  let '(csv_report, last_currency_code) := st in
  let heading :=
    if label_eqb (LTuple (currency_code r)) last_currency_code then []
    else (if label_truthy last_currency_code then [BlankLines] else [])
         ++ [CodeLine (currency_code r); ColumnsLine] in
  (Some (default [] csv_report ++ heading
         ++ [RateLine (date r) (currency_rate r)]),
   LTuple (currency_code r)).

(** Two currencies over two days in frames of three rows: the second frame
    starts within the rows of the second currency. *)
Definition eur_usd_cut : list frame :=
  [[mk_row (jan 1) "EUR" (Fin 4); mk_row (jan 2) "EUR" (Fin 4.5);
    mk_row (jan 1) "USD" (Fin 3)];
   [mk_row (jan 2) "USD" (Fin 2)]].

(** ** The queries on the table *)

(** The rows a coverage query groups by date, and the number of rows it asks
    of a date. *)
Definition coverage_rows (db : store) (start_date end_date : Z)
    (currency_codes : option (list string)) : list ExchangeRates :=
  match currency_codes with
  | Some ((_ :: _) as codes) =>
      filter (code_in codes) (filter (date_between start_date end_date) (table_rows db))
  | _ => filter (date_between start_date end_date) (table_rows db)
  end.

Definition coverage_count (currency_codes : option (list string)) : nat :=
  match currency_codes with
  | Some ((_ :: _) as codes) => length codes
  | _ => length AVAILABLE_CURRENCIES
  end.

(** The table with the rates of one currency on 2025-01-02 and 2025-01-03. *)
Definition usd_jan_2_to_3 : store :=
  fold_left insert_row [mk_row (jan 2) "USD" (Fin 4); mk_row (jan 3) "USD" (Fin 5)] ∅.

(** A batch that the insert statement takes: it has a row, its parameters fit
    in one statement, and no rate is a NaN. *)
Definition accepted (input_data : list ExchangeRates) : Prop :=
  input_data <> []
  /\ 3 * Z.of_nat (length input_data) <= SQLITE_MAX_VARIABLE_NUMBER
  /\ Forall (fun r => currency_rate r <> NaN) input_data.

(** A response whose rows make such a batch. *)
Definition storable (response : response_json) : Prop :=
  exists input_data,
    _align_json_data_with_database_model response = Returns input_data
    /\ accepted input_data.

(** The codes a data query selects. *)
Definition code_selected (currency_codes : option (list string)) (c : string) : Prop :=
  match currency_codes with
  | Some ((_ :: _) as codes) => c ∈ codes
  | _ => True
  end.

(** ** Report types and formats *)

Definition historical (report_type : string) : Prop :=
  report_type = "h"%string \/ report_type = "historical"%string.

Definition analytical (report_type : string) : Prop :=
  report_type = "a"%string \/ report_type = "analytical"%string.

Definition supported_extension (extension : string) : Prop :=
  extension = ".json"%string \/ extension = ".csv"%string.


(** * Properties *)

(** ** Comparisons of floats *)

Lemma flt_Fin (x y : Q) : flt (Fin x) (Fin y) = true <-> (x < y)%Q.
Proof. apply QMicromega.Qlt_bool_iff. Qed.

Lemma flt_Fin_false (x y : Q) : flt (Fin x) (Fin y) = false <-> (y <= x)%Q.
Proof.
  rewrite <- not_true_iff_false, flt_Fin. split; [apply Qnot_lt_le | apply Qle_not_lt].
Qed.

Lemma fle_Fin (x y : Q) : fle (Fin x) (Fin y) = true <-> (x <= y)%Q.
Proof. apply Qle_bool_iff. Qed.

(** [max(a, b)] is at least whatever [a] was at least. *)
Lemma py_max_lower_bound (z a b : pyfloat) :
  fle z a = true -> fle z (py_max a b) = true.
Proof.
  unfold py_max. destruct (flt a b) eqn:Hlt; [|done].
  destruct z, a, b; simpl in *; try done.
  intros Hza. apply Qle_bool_iff in Hza. apply QMicromega.Qlt_bool_iff in Hlt.
  apply Qle_bool_iff. lra.
Qed.

Lemma fle_refl_nonneg v : fle (Fin 0) v = true -> fle v v = true.
Proof. destruct v; simpl; try done. intros _. apply Qle_bool_iff. lra. Qed.

Lemma flt_false_fle a b :
  fle (Fin 0) a = true -> fle (Fin 0) b = true -> flt a b = false -> fle b a = true.
Proof.
  destruct a, b; simpl; try done. intros _ _ H.
  apply Qle_bool_iff. by apply (flt_Fin_false q q0).
Qed.

Lemma fle_flt_trans a b c :
  fle a b = true -> flt b c = true -> flt a c = true.
Proof.
  destruct a, b, c; simpl; try done. intros H1 H2.
  apply Qle_bool_iff in H1. apply QMicromega.Qlt_bool_iff in H2.
  apply QMicromega.Qlt_bool_iff. lra.
Qed.

Lemma flt_fle a b : flt a b = true -> fle a b = true.
Proof.
  destruct a, b; simpl; try done. intros H. apply QMicromega.Qlt_bool_iff in H.
  apply Qle_bool_iff. lra.
Qed.

Lemma fle_trans a b c : fle a b = true -> fle b c = true -> fle a c = true.
Proof.
  destruct a, b, c; simpl; try done. intros H1 H2.
  apply Qle_bool_iff in H1, H2. apply Qle_bool_iff. lra.
Qed.

(** ** Rounding to binary64 *)

Section Rounding.

Local Open Scope Q_scope.

Lemma pow2_pos (e : Z) : 0 < 2 ^ e.
Proof. by apply Qpower_0_lt. Qed.

Lemma pow2_plus (a b : Z) : 2 ^ (a + b) == 2 ^ a * 2 ^ b.
Proof. by apply Qpower_plus. Qed.

Lemma pow2_le (a b : Z) : (a <= b)%Z -> 2 ^ a <= 2 ^ b.
Proof. intros H. by apply Qpower_le_compat_l. Qed.

Lemma pow2_Z (n : Z) : (0 <= n)%Z -> inject_Z (2 ^ n) == 2 ^ n.
Proof. intros H. by rewrite Zpower_Qpower. Qed.

Lemma Qfloor_bounds (x : Q) : inject_Z (Qfloor x) <= x < inject_Z (Qfloor x) + 1.
Proof.
  split; [apply Qfloor_le|].
  pose proof (Qlt_floor x) as H. rewrite inject_Z_plus in H. exact H.
Qed.

Lemma round_half_even_bounds (x : Q) :
  (Qfloor x <= round_half_even x <= Qfloor x + 1)%Z.
Proof.
  unfold round_half_even. destruct (Qcompare _ _); [destruct (Z.even _)| |]; lia.
Qed.

Lemma round_half_even_Z (z : Z) : round_half_even (inject_Z z) = z.
Proof.
  unfold round_half_even. rewrite Qfloor_Z.
  assert (Qcompare (inject_Z z - inject_Z z) (1 # 2) = Lt) as ->; [|done].
  rewrite <- Qlt_alt. lra.
Qed.

Lemma round_half_even_mono (x y : Q) :
  x <= y -> (round_half_even x <= round_half_even y)%Z.
Proof.
  intros Hxy. pose proof (Qfloor_resp_le _ _ Hxy) as Hf.
  destruct (Z.eq_dec (Qfloor x) (Qfloor y)) as [E|NE].
  - unfold round_half_even. rewrite <- E.
    destruct (Qcompare_spec (x - inject_Z (Qfloor x)) (1 # 2)) as [Hx|Hx|Hx];
      destruct (Qcompare_spec (y - inject_Z (Qfloor x)) (1 # 2)) as [Hy|Hy|Hy];
      try destruct (Z.even (Qfloor x)); try lia; lra.
  - pose proof (round_half_even_bounds x). pose proof (round_half_even_bounds y). lia.
Qed.

Lemma round_half_even_comp (x y : Q) : x == y -> round_half_even x = round_half_even y.
Proof.
  intros E. apply Z.le_antisymm; apply round_half_even_mono; lra.
Qed.

(** The binade of a positive number holds it, but for the subnormal numbers. *)
Lemma binade_ge (q : Q) : (emin <= binade q)%Z.
Proof. unfold binade. pose proof (Z.log2_nonneg (Z.max 1 (Qfloor (q * 2 ^ (- emin))))). lia. Qed.

Lemma binade_upper (q : Q) : q < 2 ^ (binade q + 1).
Proof.
  unfold binade. set (m := Z.max 1 (Qfloor (q * 2 ^ (- emin)))).
  assert (Hm : (0 < m)%Z) by lia.
  destruct (Z.log2_spec m Hm) as [_ Hup].
  pose proof (Z.log2_nonneg m) as Hl.
  replace (Z.log2 m + emin + 1)%Z with (Z.succ (Z.log2 m) + emin)%Z by lia.
  rewrite pow2_plus, <- pow2_Z by lia.
  destruct (Qfloor_bounds (q * 2 ^ (- emin))) as [_ Hq].
  assert (Hle : inject_Z (Qfloor (q * 2 ^ (- emin))) + 1 <= inject_Z (2 ^ Z.succ (Z.log2 m))).
  { rewrite <- (inject_Z_plus _ 1). rewrite <- Zle_Qle. lia. }
  assert (Hinv : 2 ^ (- emin) * 2 ^ emin == 1).
  { rewrite <- pow2_plus. by replace (- emin + emin)%Z with 0%Z by lia. }
  pose proof (pow2_pos emin) as Hp. pose proof (pow2_pos (- emin)) as Hp'.
  set (A := 2 ^ emin) in *. set (B := 2 ^ (- emin)) in *.
  set (F := inject_Z (Qfloor (q * B))) in *. set (G := inject_Z (2 ^ Z.succ (Z.log2 m))) in *.
  assert (q * B < G) by lra.
  assert (q * B * A < G * A) by (apply Qmult_lt_compat_r; lra).
  assert (q * B * A == q) by (rewrite <- Qmult_assoc, Hinv; lra).
  lra.
Qed.

Lemma binade_lower (q : Q) : (emin < binade q)%Z -> 2 ^ binade q <= q.
Proof.
  unfold binade. set (m := Z.max 1 (Qfloor (q * 2 ^ (- emin)))).
  intros Hl. assert (Hlog : (0 < Z.log2 m)%Z) by lia.
  assert (Hm : (1 < m)%Z).
  { destruct (Z.le_gt_cases m 1) as [H|H]; [|done].
    assert (m = 1%Z) as E by lia. rewrite E in Hlog. simpl in Hlog. lia. }
  assert (Hfloor : m = Qfloor (q * 2 ^ (- emin))) by lia.
  destruct (Z.log2_spec m ltac:(lia)) as [Hlo _].
  rewrite pow2_plus, <- pow2_Z by lia.
  destruct (Qfloor_bounds (q * 2 ^ (- emin))) as [Hq _]. rewrite <- Hfloor in Hq.
  assert (Hle : inject_Z (2 ^ Z.log2 m) <= inject_Z m) by (by rewrite <- Zle_Qle).
  assert (Hinv : 2 ^ (- emin) * 2 ^ emin == 1).
  { rewrite <- pow2_plus. by replace (- emin + emin)%Z with 0%Z by lia. }
  pose proof (pow2_pos emin) as Hp. pose proof (pow2_pos (- emin)) as Hp'.
  set (A := 2 ^ emin) in *. set (B := 2 ^ (- emin)) in *.
  set (G := inject_Z (2 ^ Z.log2 m)) in *.
  assert (G <= q * B) by lra.
  assert (G * A <= q * B * A) by (apply Qmult_le_compat_r; lra).
  assert (q * B * A == q) by (rewrite <- Qmult_assoc, Hinv; lra).
  lra.
Qed.

Lemma binade_mono (q1 q2 : Q) : q1 <= q2 -> (binade q1 <= binade q2)%Z.
Proof.
  intros H. unfold binade.
  assert (Qfloor (q1 * 2 ^ (- emin)) <= Qfloor (q2 * 2 ^ (- emin)))%Z.
  { apply Qfloor_resp_le. apply Qmult_le_compat_r; [done|]. apply Qlt_le_weak, pow2_pos. }
  pose proof (Z.log2_le_mono (Z.max 1 (Qfloor (q1 * 2 ^ (- emin))))
                (Z.max 1 (Qfloor (q2 * 2 ^ (- emin)))) ltac:(lia)). lia.
Qed.

(** The value [round_positive] rounds to, before the overflow test. *)
Lemma round_positive_eq (q : Q) :
  round_positive q
  = if Qle_bool (2 ^ emax) (rounded_value q) then PInf else Fin (Qred (rounded_value q)).
Proof. reflexivity. Qed.

Lemma rounded_value_nonneg (q : Q) : 0 <= q -> 0 <= rounded_value q.
Proof.
  intros Hq. unfold rounded_value.
  pose proof (pow2_pos (binade q - (precision - 1))) as Hu.
  set (u := 2 ^ (binade q - (precision - 1))) in *.
  assert (0 <= q / u) by (apply Qle_shift_div_l; lra).
  assert (0 <= round_half_even (q / u))%Z.
  { pose proof (round_half_even_mono 0 (q / u) ltac:(done)) as H'.
    change 0 with (inject_Z 0) in H'. by rewrite round_half_even_Z in H'. }
  assert (0 <= inject_Z (round_half_even (q / u))).
  { change 0 with (inject_Z 0). by rewrite <- Zle_Qle. }
  apply Qmult_le_0_compat; lra.
Qed.

Lemma rounded_value_mono (q1 q2 : Q) :
  q1 <= q2 -> rounded_value q1 <= rounded_value q2.
Proof.
  intros Hle. pose proof (binade_mono q1 q2 Hle) as He.
  unfold rounded_value.
  pose proof (pow2_pos (binade q1 - (precision - 1))) as Hu1.
  pose proof (pow2_pos (binade q2 - (precision - 1))) as Hu2.
  destruct (Z.eq_dec (binade q1) (binade q2)) as [E|NE].
  - rewrite E in *. set (u := 2 ^ (binade q2 - (precision - 1))) in *.
    assert (Hdiv : q1 / u <= q2 / u).
    { unfold Qdiv. apply Qmult_le_compat_r; [done|]. apply Qlt_le_weak, Qinv_lt_0_compat, Hu2. }
    pose proof (round_half_even_mono _ _ Hdiv) as Hn. rewrite Zle_Qle in Hn.
    apply Qmult_le_compat_r; lra.
  - assert (Hlt : (binade q1 < binade q2)%Z) by lia.
    pose proof (binade_ge q1) as Hmin.
    pose proof (binade_upper q1) as Hup.
    pose proof (binade_lower q2 ltac:(lia)) as Hlo.
    pose proof (pow2_le (binade q1 + 1) (binade q2) ltac:(lia)) as Hpow.
    assert (E1 : 2 ^ (binade q1 + 1) == inject_Z (2 ^ precision) * 2 ^ (binade q1 - (precision - 1))).
    { rewrite pow2_Z by done. rewrite <- pow2_plus. by replace (precision + (binade q1 - (precision - 1)))%Z with (binade q1 + 1)%Z by lia. }
    assert (E2 : 2 ^ binade q2 == inject_Z (2 ^ (precision - 1)) * 2 ^ (binade q2 - (precision - 1))).
    { rewrite pow2_Z by done. rewrite <- pow2_plus. by replace (precision - 1 + (binade q2 - (precision - 1)))%Z with (binade q2) by lia. }
    set (u1 := 2 ^ (binade q1 - (precision - 1))) in *.
    set (u2 := 2 ^ (binade q2 - (precision - 1))) in *.
    assert (H1 : q1 / u1 <= inject_Z (2 ^ precision)) by (apply Qle_shift_div_r; lra).
    assert (H2 : inject_Z (2 ^ (precision - 1)) <= q2 / u2) by (apply Qle_shift_div_l; lra).
    apply round_half_even_mono in H1, H2. rewrite round_half_even_Z in H1, H2.
    rewrite Zle_Qle in H1, H2.
    assert (inject_Z (round_half_even (q1 / u1)) * u1 <= inject_Z (2 ^ precision) * u1)
      by (apply Qmult_le_compat_r; lra).
    assert (inject_Z (2 ^ (precision - 1)) * u2 <= inject_Z (round_half_even (q2 / u2)) * u2)
      by (apply Qmult_le_compat_r; lra).
    lra.
Qed.

Lemma fneg_antitone (a b : pyfloat) :
  fle a b = true -> fle (fneg b) (fneg a) = true.
Proof.
  destruct a, b; simpl; try done. rewrite !Qle_bool_iff, !Qred_correct. intros. lra.
Qed.

Lemma round_positive_mono (q1 q2 : Q) :
  q1 <= q2 -> fle (round_positive q1) (round_positive q2) = true.
Proof.
  intros Hle. pose proof (rounded_value_mono q1 q2 Hle) as Hv.
  rewrite !round_positive_eq.
  destruct (Qle_bool (2 ^ emax) (rounded_value q1)) eqn:H1;
    destruct (Qle_bool (2 ^ emax) (rounded_value q2)) eqn:H2; try done.
  - apply Qle_bool_iff in H1.
    assert (Qle_bool (2 ^ emax) (rounded_value q2) = true) by (apply Qle_bool_iff; lra).
    congruence.
  - simpl. apply Qle_bool_iff. by rewrite !Qred_correct.
Qed.

Lemma round_positive_nonneg (q : Q) :
  0 <= q -> fle (Fin 0) (round_positive q) = true.
Proof.
  intros Hq. rewrite round_positive_eq. destruct (Qle_bool _ _); [done|].
  simpl. apply Qle_bool_iff. rewrite Qred_correct. by apply rounded_value_nonneg.
Qed.

(** Rounding keeps the order. *)
Lemma round_to_double_mono (q1 q2 : Q) :
  q1 <= q2 -> fle (round_to_double q1) (round_to_double q2) = true.
Proof.
  intros Hle. unfold round_to_double.
  destruct (Qcompare_spec q1 0) as [H1|H1|H1], (Qcompare_spec q2 0) as [H2|H2|H2];
    try lra; try done.
  - apply round_positive_nonneg. lra.
  - change (Fin 0) with (fneg (Fin 0)).
    apply fneg_antitone, round_positive_nonneg. lra.
  - apply fneg_antitone, round_positive_mono. lra.
  - apply (fle_trans _ (Fin 0)).
    + change (Fin 0) with (fneg (Fin 0)).
      apply fneg_antitone, round_positive_nonneg. lra.
    + apply round_positive_nonneg. lra.
  - by apply round_positive_mono.
Qed.

Lemma round_to_double_zero (q : Q) : q == 0 -> round_to_double q = Fin 0.
Proof.
  intros E. unfold round_to_double. by destruct (Qcompare_spec q 0); try lra.
Qed.

Lemma round_to_double_nonneg (q : Q) : 0 <= q -> fle (Fin 0) (round_to_double q) = true.
Proof.
  intros H. rewrite <- (round_to_double_zero 0) by done. by apply round_to_double_mono.
Qed.

Lemma round_to_double_nonpos (q : Q) : q <= 0 -> fle (round_to_double q) (Fin 0) = true.
Proof.
  intros H. pose proof (round_to_double_mono q 0 H) as Hm.
  by rewrite (round_to_double_zero 0) in Hm.
Qed.

(** The difference of two finite floats is no NaN, and it keeps the order of
    the exact differences. *)
Lemma fsub_Fin_mono (x1 y1 x2 y2 : Q) :
  y1 - x1 <= y2 - x2 -> fle (fsub (Fin y1) (Fin x1)) (fsub (Fin y2) (Fin x2)) = true.
Proof. apply round_to_double_mono. Qed.

Lemma fsub_Fin_refl (x y : Q) : fle (fsub (Fin y) (Fin x)) (fsub (Fin y) (Fin x)) = true.
Proof. apply fsub_Fin_mono. lra. Qed.

End Rounding.

(** On the samples the subtraction is the one of the Standard Library's
    specification of binary64. *)
Lemma fsub_as_specified :
  Forall (fun '(a, b) =>
            fsub (of_spec_float a) (of_spec_float b)
            = of_spec_float (SpecFloat.SFsub precision emax a b))
         float_samples.
Proof. repeat constructor; vm_compute; reflexivity. Qed.

(** ** [_find_largest_increase_and_decrease] *)

(** Both running maxima stay at or above [0], whatever the floats. *)
Lemma find_step_nonneg st rate :
  fle (Fin 0) (st.1.2) = true -> fle (Fin 0) (st.2) = true ->
  fle (Fin 0) ((find_step st rate).1.2) = true
  /\ fle (Fin 0) ((find_step st rate).2) = true.
Proof.
  destruct st as [[[inc_min dec_max] mi] md]. cbn [find_step fst snd].
  intros Hi Hd. split; by apply py_max_lower_bound.
Qed.

Lemma find_fold_nonneg pd_series st :
  fle (Fin 0) (st.1.2) = true -> fle (Fin 0) (st.2) = true ->
  fle (Fin 0) ((fold_left find_step pd_series st).1.2) = true
  /\ fle (Fin 0) ((fold_left find_step pd_series st).2) = true.
Proof.
  revert st. induction pd_series as [|rate rest IH]; intros st Hi Hd; [done|].
  simpl. destruct (find_step_nonneg st rate Hi Hd). by apply IH.
Qed.

Lemma find_nonneg pd_series :
  fle (Fin 0) (_find_largest_increase_and_decrease pd_series).1 = true
  /\ fle (Fin 0) (_find_largest_increase_and_decrease pd_series).2 = true.
Proof.
  unfold _find_largest_increase_and_decrease.
  pose proof (find_fold_nonneg pd_series (PInf, NInf, Fin 0, Fin 0) eq_refl eq_refl) as H.
  by destruct (fold_left _ _ _) as [[[? ?] ?] ?].
Qed.

Lemma inc_min_step (pre : list Q) (inc_min : pyfloat) (y : Q) :
  (pre = [] /\ inc_min = PInf) \/ (exists m, inc_min = Fin m /\ is_min pre m) ->
  exists m', py_min inc_min (Fin y) = Fin m' /\ is_min (pre ++ [y]) m'.
Proof.
  intros [[-> ->] | (m & -> & [[i Hi] Hle])].
  - exists y. split; [done|]. split; [by exists 0%nat|].
    intros j x Hx. apply lookup_snoc_Some in Hx as [[Hj _] | [_ <-]]; [simpl in Hj; lia | lra].
  - unfold py_min. destruct (flt (Fin y) (Fin m)) eqn:Hlt.
    + apply flt_Fin in Hlt. exists y. split; [done|]. split.
      * exists (length pre). apply lookup_snoc_Some. by right.
      * intros j x Hx. apply lookup_snoc_Some in Hx as [[_ Hx] | [_ <-]]; [|lra].
        specialize (Hle _ _ Hx). lra.
    + apply flt_Fin_false in Hlt. exists m. split; [done|]. split.
      * exists i. apply lookup_snoc_Some. left. split; [|done]. by eapply lookup_lt_Some.
      * intros j x Hx. apply lookup_snoc_Some in Hx as [[_ Hx] | [_ <-]]; [|lra].
        by eapply Hle.
Qed.

Lemma dec_max_step (pre : list Q) (dec_max : pyfloat) (y : Q) :
  (pre = [] /\ dec_max = NInf) \/ (exists m, dec_max = Fin m /\ is_max pre m) ->
  exists m', py_max dec_max (Fin y) = Fin m' /\ is_max (pre ++ [y]) m'.
Proof.
  intros [[-> ->] | (m & -> & [[i Hi] Hle])].
  - exists y. split; [done|]. split; [by exists 0%nat|].
    intros j x Hx. apply lookup_snoc_Some in Hx as [[Hj _] | [_ <-]]; [simpl in Hj; lia | lra].
  - unfold py_max. destruct (flt (Fin m) (Fin y)) eqn:Hlt.
    + apply flt_Fin in Hlt. exists y. split; [done|]. split.
      * exists (length pre). apply lookup_snoc_Some. by right.
      * intros j x Hx. apply lookup_snoc_Some in Hx as [[_ Hx] | [_ <-]]; [|lra].
        specialize (Hle _ _ Hx). lra.
    + apply flt_Fin_false in Hlt. exists m. split; [done|]. split.
      * exists i. apply lookup_snoc_Some. left. split; [|done]. by eapply lookup_lt_Some.
      * intros j x Hx. apply lookup_snoc_Some in Hx as [[_ Hx] | [_ <-]]; [|lra].
        by eapply Hle.
Qed.

Lemma lookup_snoc_old {A} (l : list A) (y : A) i x :
  l !! i = Some x -> (l ++ [y]) !! i = Some x.
Proof.
  intros H. apply lookup_snoc_Some. left. split; [by eapply lookup_lt_Some | done].
Qed.

Lemma py_max_largest (a d : pyfloat) :
  fle a a = true -> fle d d = true ->
  fle a (py_max a d) = true /\ fle d (py_max a d) = true
  /\ (py_max a d = a \/ py_max a d = d).
Proof.
  intros Ha Hd. unfold py_max. destruct (flt a d) eqn:Hlt.
  - split; [by apply flt_fle|]. split; [done | by right].
  - split; [done|]. split; [|by left].
    destruct a, d; simpl in *; try done.
    apply Qle_bool_iff. by apply (flt_Fin_false q q0).
Qed.

Lemma max_increase_step (pre : list Q) (mi : pyfloat) (m' y : Q) :
  largest_rise pre mi -> is_min (pre ++ [y]) m' ->
  largest_rise (pre ++ [y]) (py_max mi (fsub (Fin y) (Fin m'))).
Proof.
  intros (H0 & Hub & Hatt) [[im Him] Hmin].
  destruct (py_max_largest mi (fsub (Fin y) (Fin m')))
    as (Hmi & Hd & Hwhich); [by apply fle_refl_nonneg | apply fsub_Fin_refl|].
  split; [by eapply fle_trans|]. split.
  - intros i j x z Hij Hx Hz.
    apply lookup_snoc_Some in Hz as [[Hj Hz] | [Hj <-]].
    + apply lookup_snoc_Some in Hx as [[_ Hx] | [Hi _]]; [|lia].
      eapply fle_trans; [exact (Hub _ _ _ _ Hij Hx Hz) | done].
    + eapply fle_trans; [|exact Hd]. apply fsub_Fin_mono.
      specialize (Hmin _ _ Hx). lra.
  - destruct Hwhich as [-> | ->].
    + destruct Hatt as [-> | (i & j & x & z & Hij & Hx & Hz & ->)]; [by left|].
      right. exists i, j, x, z. repeat split; auto using lookup_snoc_old.
    + right. exists im, (length pre), m', y. split; [|split; [done|split; [|done]]].
      * apply lookup_lt_Some in Him. rewrite length_app in Him. simpl in Him. lia.
      * apply lookup_snoc_Some. by right.
Qed.

Lemma max_decrease_step (pre : list Q) (md : pyfloat) (M' y : Q) :
  largest_fall pre md -> is_max (pre ++ [y]) M' ->
  largest_fall (pre ++ [y]) (py_max md (fsub (Fin M') (Fin y))).
Proof.
  intros (H0 & Hub & Hatt) [[im Him] Hmax].
  destruct (py_max_largest md (fsub (Fin M') (Fin y)))
    as (Hmd & Hd & Hwhich); [by apply fle_refl_nonneg | apply fsub_Fin_refl|].
  split; [by eapply fle_trans|]. split.
  - intros i j x z Hij Hx Hz.
    apply lookup_snoc_Some in Hz as [[Hj Hz] | [Hj <-]].
    + apply lookup_snoc_Some in Hx as [[_ Hx] | [Hi _]]; [|lia].
      eapply fle_trans; [exact (Hub _ _ _ _ Hij Hx Hz) | done].
    + eapply fle_trans; [|exact Hd]. apply fsub_Fin_mono.
      specialize (Hmax _ _ Hx). lra.
  - destruct Hwhich as [-> | ->].
    + destruct Hatt as [-> | (i & j & x & z & Hij & Hx & Hz & ->)]; [by left|].
      right. exists i, j, x, z. repeat split; auto using lookup_snoc_old.
    + right. exists im, (length pre), M', y. split; [|split; [done|split; [|done]]].
      * apply lookup_lt_Some in Him. rewrite length_app in Him. simpl in Him. lia.
      * apply lookup_snoc_Some. by right.
Qed.

Lemma tracks_step pre st y :
  tracks pre st -> tracks (pre ++ [y]) (find_step st (Fin y)).
Proof.
  destruct st as [[[inc_min dec_max] max_increase] max_decrease].
  intros (Hmin & Hmax & Hrise & Hfall).
  cbn [fst snd] in *. unfold find_step.
  destruct (inc_min_step pre inc_min y Hmin) as (m' & Em & Hm').
  destruct (dec_max_step pre dec_max y Hmax) as (M' & EM & HM').
  rewrite Em, EM. unfold tracks. cbn [fst snd]. split; [|split; [|split]].
  - right. exists m'. split; [done|]. apply Hm'.
  - right. exists M'. split; [done|]. apply HM'.
  - by apply max_increase_step.
  - by apply max_decrease_step.
Qed.

Lemma tracks_fold rest pre st :
  tracks pre st -> tracks (pre ++ rest) (fold_left find_step (map Fin rest) st).
Proof.
  revert pre st. induction rest as [|y rest IH]; intros pre st H; simpl.
  - by rewrite app_nil_r.
  - rewrite (cons_middle y pre rest), app_assoc. apply IH. by apply tracks_step.
Qed.

Lemma tracks_init : tracks [] (PInf, NInf, Fin 0, Fin 0).
Proof.
  repeat split; simpl; eauto;
    try (intros i j x y _ Hx; by rewrite lookup_nil in Hx).
Qed.

Lemma find_largest_spec (rates : list Q) :
  largest_rise rates (_find_largest_increase_and_decrease (map Fin rates)).1
  /\ largest_fall rates (_find_largest_increase_and_decrease (map Fin rates)).2.
Proof.
  pose proof (tracks_fold rates [] _ tracks_init) as H. simpl in H.
  unfold _find_largest_increase_and_decrease.
  destruct (fold_left _ _ _) as [[[a b] c] d].
  by destruct H as (_ & _ & Hrise & Hfall).
Qed.

Lemma find_single (rate : pyfloat) :
  _find_largest_increase_and_decrease [rate] = (Fin 0, Fin 0).
Proof.
  unfold _find_largest_increase_and_decrease. cbn [fold_left find_step].
  destruct rate as [| |r|]; try reflexivity.
  unfold py_min, py_max. cbn [flt fsub].
  by rewrite (round_to_double_zero (r - r)) by lra.
Qed.

(** C4: for a finite sequence of rates the function returns the largest of 0
    and the rises [rate_j - rate_i] over the index pairs [i <= j], and the
    largest of 0 and the falls [rate_i - rate_j] over the same pairs, the
    differences being those of the floats: rounded to binary64, and infinite
    on overflow; [-1.0, -2.0, 1.0, -3.0, 2.0] gives [(5.0, 4.0)], a constant
    sequence and a single rate give [(0, 0)]. *)
Theorem C4_find_largest_increase_and_decrease :
  (forall rates : list Q,
      largest_rise rates (_find_largest_increase_and_decrease (map Fin rates)).1
      /\ largest_fall rates (_find_largest_increase_and_decrease (map Fin rates)).2)
  /\ _find_largest_increase_and_decrease (map Fin [-1; -2; 1; -3; 2]%Q) = (Fin 5, Fin 4)
  /\ _find_largest_increase_and_decrease (map Fin [1; 1; 1; 1]%Q) = (Fin 0, Fin 0)
  /\ (forall rate : pyfloat, _find_largest_increase_and_decrease [rate] = (Fin 0, Fin 0)).
Proof.
  split; [exact find_largest_spec|].
  split; [by vm_compute|]. split; [by vm_compute|]. exact find_single.
Qed.

(** ** [_get_largest_exchange_rate_increase_and_decrease] *)

Section Settling.

Variable iter_key : string -> label.
Hypothesis iter_key_not_None : forall s, iter_key s <> LNone.

Lemma replace_settles (c : curr_map pyfloat) (k : string) (v : pyfloat) :
  c = no_data \/ settled c -> fle (Fin 0) v = true ->
  settled (if flt (value c) v then mk_curr_map (iter_key k) v else c).
Proof.
  intros Hc Hv. destruct (flt (value c) v) eqn:Hlt.
  - split; [apply iter_key_not_None | done].
  - destruct Hc as [-> | Hc]; [|done].
    destruct v; simpl in *; done.
Qed.

Lemma group_step_settles last_chunk (st : extrema) g :
  (st.1 = no_data \/ settled st.1) -> (st.2 = no_data \/ settled st.2) ->
  settled (group_step iter_key last_chunk st g).1
  /\ settled (group_step iter_key last_chunk st g).2.
Proof.
  destruct st as [inc dec]. cbn [fst snd]. intros Hinc Hdec. unfold group_step.
  match goal with |- context [_find_largest_increase_and_decrease ?l] =>
    pose proof (find_nonneg l) as [Hi Hd];
    destruct (_find_largest_increase_and_decrease l) as [max_inc max_dec] end.
  cbn [fst snd] in *. split; by apply replace_settles.
Qed.

Lemma group_fold_settles last_chunk groups (st : extrema) :
  groups <> [] ->
  (st.1 = no_data \/ settled st.1) -> (st.2 = no_data \/ settled st.2) ->
  settled (fold_left (group_step iter_key last_chunk) groups st).1
  /\ settled (fold_left (group_step iter_key last_chunk) groups st).2.
Proof.
  revert st. induction groups as [|g groups IH]; intros st Hne Hi Hd; [done|].
  simpl. destruct (group_step_settles last_chunk st g Hi Hd) as [Hi' Hd'].
  destruct groups as [|g' groups']; [done|].
  apply IH; [done | by right | by right].
Qed.

Lemma chunk_step_settles st df_chunk st' :
  (st.1.1 = no_data \/ settled st.1.1) -> (st.1.2 = no_data \/ settled st.1.2) ->
  chunk_step iter_key st df_chunk = Returns st' ->
  settled st'.1.1 /\ settled st'.1.2.
Proof.
  destruct st as [ext last_chunk]. cbn [fst snd]. intros Hi Hd. unfold chunk_step.
  destruct (last (groupby df_chunk)) as [[name rows]|] eqn:Hlast; [|done].
  intros [= <-]. cbn [fst snd]. apply group_fold_settles; [|done..].
  by intros E; rewrite E in Hlast.
Qed.

Lemma chunks_settle df_iter st st' :
  df_iter <> [] ->
  (st.1.1 = no_data \/ settled st.1.1) -> (st.1.2 = no_data \/ settled st.1.2) ->
  for_each (chunk_step iter_key) df_iter st = Returns st' ->
  settled st'.1.1 /\ settled st'.1.2.
Proof.
  revert st. induction df_iter as [|c rest IH]; intros st Hne Hi Hd; [done|].
  simpl. destruct (chunk_step iter_key st c) as [st1|e] eqn:Hc; [|done].
  destruct (chunk_step_settles st c st1 Hi Hd Hc) as [Hi1 Hd1]. simpl.
  destruct rest as [|c' rest']; [by intros [= <-]|].
  apply IH; [done | by right | by right].
Qed.

Lemma largest_settled df_iter r :
  df_iter <> [] ->
  largest_increase_and_decrease_with iter_key df_iter = Returns r ->
  settled r.1 /\ settled r.2.
Proof.
  intros Hne. unfold largest_increase_and_decrease_with.
  destruct (for_each _ _ _) as [st'|e] eqn:Hrun; [|done].
  simpl. intros [= <-].
  eapply chunks_settle; [done | | | exact Hrun]; by left.
Qed.

Lemma insert_key_not_nil k ks : insert_key k ks <> [].
Proof. destruct ks as [|k' ks]; simpl; [done|]. by destruct (String.compare k k'). Qed.

Lemma groupby_not_nil (df_chunk : frame) : df_chunk <> [] -> groupby df_chunk <> [].
Proof.
  destruct df_chunk as [|r df]; [done|]. intros _ E.
  apply map_eq_nil in E. by apply insert_key_not_nil in E.
Qed.

(** Chunks with rows are all consumed: no exception is raised. *)
Lemma chunks_consumed df_iter st :
  Forall (fun c : frame => c <> []) df_iter ->
  exists st', for_each (chunk_step iter_key) df_iter st = Returns st'.
Proof.
  intros Hrows. revert st. induction Hrows as [|c rest Hc _ IH]; intros st.
  - by exists st.
  - cbn [for_each].
    assert (exists st1, chunk_step iter_key st c = Returns st1) as [st1 ->].
    { unfold chunk_step. destruct st as [ext last_chunk].
      apply groupby_not_nil, last_is_Some in Hc as [[name rows] Hlast].
      rewrite Hlast. by eexists. }
    apply IH.
Qed.

Lemma largest_returns df_iter :
  Forall (fun c : frame => c <> []) df_iter ->
  exists r, largest_increase_and_decrease_with iter_key df_iter = Returns r.
Proof.
  intros Hrows. unfold largest_increase_and_decrease_with.
  destruct (chunks_consumed df_iter
              ((mk_curr_map LNone NInf, mk_curr_map LNone NInf), mk_curr_map LNone None)
              Hrows) as [st' ->].
  by eexists.
Qed.

End Settling.

(** C10: both values of [_find_largest_increase_and_decrease] are at least 0
    for every sequence of floats; every group examined therefore replaces the
    initial extremum [(None, -inf)], and a returned global extremum has the
    currency code [None] only for a stream without records; a stream whose
    chunks all hold rows returns extrema that name a currency. *)
Theorem C10_extrema_never_negative :
  (forall pd_series : list pyfloat,
      fle (Fin 0) (_find_largest_increase_and_decrease pd_series).1 = true
      /\ fle (Fin 0) (_find_largest_increase_and_decrease pd_series).2 = true)
  /\ (forall last_chunk g,
        settled (group_step LTuple last_chunk (no_data, no_data) g).1
        /\ settled (group_step LTuple last_chunk (no_data, no_data) g).2)
  /\ (forall df_iter r,
        _get_largest_exchange_rate_increase_and_decrease df_iter = Returns r ->
        curr_code r.1 = LNone \/ curr_code r.2 = LNone ->
        df_iter = [] /\ concat df_iter = [])
  /\ _get_largest_exchange_rate_increase_and_decrease [] = Returns (no_data, no_data)
  /\ (forall df_iter,
        df_iter <> [] -> Forall (fun c : frame => c <> []) df_iter ->
        exists r,
          _get_largest_exchange_rate_increase_and_decrease df_iter = Returns r
          /\ settled r.1 /\ settled r.2).
Proof.
  split; [exact find_nonneg|]. split; [|split; [|split; [reflexivity|]]].
  3:{ intros df_iter Hne Hrows.
      destruct (largest_returns LTuple df_iter Hrows) as [r Hr]. exists r.
      split; [done|]. by apply (largest_settled LTuple ltac:(done) df_iter r Hne). }
  - intros last_chunk g. apply group_step_settles; [done | by left | by left].
  - intros df_iter r Hr Hnone. destruct df_iter as [|c rest]; [done|].
    destruct (largest_settled LTuple ltac:(done) (c :: rest) r ltac:(done) Hr)
      as [[Hi _] [Hd _]].
    by destruct Hnone.
Qed.

(** ** [_calculate_missing_date_intervals] *)

Section GapInvariant.

Variable start_date : Z.

Lemma sorted_snoc (gaps : list interval) (lo hi bound : Z) :
  Forall (fun g : interval => start_date <= g.1 <= g.2 /\ g.2 < bound) gaps ->
  StronglySorted (fun a b : interval => a.2 < b.1) gaps ->
  bound <= lo ->
  StronglySorted (fun a b : interval => a.2 < b.1) (gaps ++ [(lo, hi)]).
Proof.
  intros Hb Hs Hlo. apply StronglySorted_app_2; [|done|repeat constructor].
  intros g1 g2 Hg1 ->%list_elem_of_singleton. rewrite Forall_forall in Hb.
  specialize (Hb _ Hg1). simpl. lia.
Qed.

Lemma exists_snoc d (gaps : list interval) lo hi :
  Exists (in_interval d) (gaps ++ [(lo, hi)])
  <-> Exists (in_interval d) gaps \/ lo <= d <= hi.
Proof.
  rewrite Exists_app, Exists_cons, Exists_nil. unfold in_interval at 2. simpl. tauto.
Qed.

Lemma scan_date_first d :
  start_date <= d ->
  exists gaps, scan_date start_date ([], None) d = (gaps, Some d)
               /\ covers_up_to start_date [d] gaps d.
Proof.
  intros Hd. unfold scan_date.
  destruct (start_date <? d) eqn:Hlt; [apply Z.ltb_lt in Hlt | apply Z.ltb_ge in Hlt];
    (eexists; split; [reflexivity|]); unfold covers_up_to.
  - split; [|split; [|split; [|split]]].
    + repeat constructor; simpl; lia.
    + repeat constructor.
    + intros x. rewrite (exists_snoc x [] start_date (d - 1)), Exists_nil.
      rewrite list_elem_of_singleton. lia.
    + by apply list_elem_of_singleton.
    + intros x ->%list_elem_of_singleton. lia.
  - split; [|split; [|split; [|split]]].
    + constructor.
    + constructor.
    + intros x. rewrite Exists_nil, list_elem_of_singleton. lia.
    + by apply list_elem_of_singleton.
    + intros x ->%list_elem_of_singleton. lia.
Qed.

Lemma scan_date_next pre gaps p d :
  covers_up_to start_date pre gaps p -> p < d ->
  exists gaps', scan_date start_date (gaps, Some p) d = (gaps', Some d)
                /\ covers_up_to start_date (pre ++ [d]) gaps' d.
Proof.
  intros (Hb & Hs & Hex & Hl & Hpre) Hpd. unfold scan_date.
  assert (Hsp : start_date <= p) by (apply Hpre in Hl; lia).
  assert (Hlate : forall x, p < x -> x ∉ pre) by (intros x Hx Hin; apply Hpre in Hin; lia).
  assert (Hbd : Forall (fun g : interval => start_date <= g.1 <= g.2 /\ g.2 < d) gaps).
  { eapply Forall_impl; [exact Hb|]. simpl. intros g ?. lia. }
  assert (Hin : d ∈ pre ++ [d]) by (apply elem_of_app; right; by apply list_elem_of_singleton).
  assert (Hall : forall x, x ∈ pre ++ [d] -> start_date <= x <= d).
  { intros x [Hx | ->%list_elem_of_singleton]%elem_of_app; [apply Hpre in Hx|]; lia. }
  destruct (p <? d - 1) eqn:Hgap; [apply Z.ltb_lt in Hgap | apply Z.ltb_ge in Hgap];
    (eexists; split; [reflexivity|]); unfold covers_up_to.
  - split; [|split; [|split; [|split]]]; [| |  |done|done].
    + apply Forall_app. split; [done|]. repeat constructor; simpl; lia.
    + eapply sorted_snoc; [exact Hb|done|lia].
    + intros x. rewrite exists_snoc, Hex, not_elem_of_app, list_elem_of_singleton.
      split.
      * intros [[Hx Hnx] | Hx]; (split; [lia|split; [|lia]]); [done | apply Hlate; lia].
      * intros (Hx & Hnx & Hne). destruct (decide (x <= p)); [left | right]; [|lia].
        split; [lia | done].
  - split; [|split; [|split; [|split]]]; [done|done| |done|done].
    intros x. rewrite Hex, not_elem_of_app, list_elem_of_singleton.
    split; [intros [Hx Hnx] | intros (Hx & Hnx & Hne)]; (split; [lia|]); [|done].
    split; [done | lia].
Qed.

Lemma scan_dates_rest dates pre gaps p :
  covers_up_to start_date pre gaps p -> StronglySorted Z.lt (p :: dates) ->
  exists gaps' p',
    fold_left (scan_date start_date) dates (gaps, Some p) = (gaps', Some p')
    /\ covers_up_to start_date (pre ++ dates) gaps' p'.
Proof.
  revert pre gaps p. induction dates as [|d dates IH]; intros pre gaps p Hinv Hsorted.
  - exists gaps, p. by rewrite app_nil_r.
  - apply StronglySorted_inv in Hsorted as [Hsorted Hp].
    apply Forall_cons in Hp as [Hpd _].
    destruct (scan_date_next pre gaps p d Hinv Hpd) as (gaps1 & E1 & Hinv1).
    destruct (IH _ _ _ Hinv1 Hsorted) as (gaps' & p' & E' & Hinv').
    exists gaps', p'. cbn [fold_left]. rewrite E1, E'. split; [done|].
    by rewrite (cons_middle d pre dates), app_assoc.
Qed.

(** From the initial state, a non-empty ascending run of dates. *)
Lemma scan_dates_all d dates :
  start_date <= d -> StronglySorted Z.lt (d :: dates) ->
  exists gaps p,
    fold_left (scan_date start_date) (d :: dates) ([], None) = (gaps, Some p)
    /\ covers_up_to start_date (d :: dates) gaps p.
Proof.
  intros Hd Hsorted. destruct (scan_date_first d Hd) as (gaps0 & E0 & Hinv0).
  destruct (scan_dates_rest dates [d] gaps0 d Hinv0 Hsorted) as (gaps & p & E & Hinv).
  exists gaps, p. cbn [fold_left]. by rewrite E0, E.
Qed.

End GapInvariant.

(** With non-empty chunks only, the early return is never taken: the chunks
    are scanned as one run of dates. *)
Lemma scan_chunks_nonempty start_date end_date chunks st :
  Forall (fun c : list Z => c <> []) chunks ->
  scan_chunks start_date end_date chunks st
  = scan_chunks start_date end_date []
      (fold_left (scan_date start_date) (concat chunks) st).
Proof.
  revert st. induction chunks as [|c rest IH]; intros st Hne; [done|].
  apply Forall_cons in Hne as [Hc Hrest].
  destruct c as [|d c]; [done|].
  cbn [scan_chunks concat]. rewrite fold_left_app. by apply IH.
Qed.

(** The code after the loop, from a state that covers the dates seen. *)
Lemma finish_exact start_date end_date covered gaps p :
  covers_up_to start_date covered gaps p -> p <= end_date ->
  exists gaps',
    scan_chunks start_date end_date [] (gaps, Some p) = Returns gaps'
    /\ exact_gaps start_date end_date covered gaps'.
Proof.
  intros (Hb & Hs & Hex & Hl & Hpre) Hpe. cbn [scan_chunks fst snd].
  assert (Hsp : start_date <= p) by (apply Hpre in Hl; lia).
  assert (Hwf : Forall (fun g : interval => g.1 <= g.2) gaps).
  { eapply Forall_impl; [exact Hb|]. simpl. intros g ?. lia. }
  destruct (p <? end_date) eqn:Hlt; [apply Z.ltb_lt in Hlt | apply Z.ltb_ge in Hlt];
    (eexists; split; [reflexivity|]); unfold exact_gaps, ascending_disjoint.
  - split; [split|split].
    + apply Forall_app. split; [done|]. repeat constructor; simpl; lia.
    + eapply sorted_snoc; [exact Hb|done|lia].
    + intros d Hd. rewrite exists_snoc, Hex. specialize (Hpre _ Hd).
      intros [[_ Hnd] | ?]; [done | lia].
    + intros d. rewrite exists_snoc, Hex. split.
      * intros Hd. destruct (decide (d ∈ covered)) as [|Hnd]; [by left|right].
        destruct (decide (d <= p)); [left | right]; [|lia]. split; [lia | done].
      * intros [Hd | [[Hd _] | Hd]]; [apply Hpre in Hd| |]; lia.
  - split; [split|split]; [done|done| |].
    + intros d Hd. rewrite Hex. by intros [_ Hnd].
    + intros d. rewrite Hex. split.
      * intros Hd. destruct (decide (d ∈ covered)) as [|Hnd]; [by left|right].
        split; [lia | done].
      * intros [Hd | [Hd _]]; [apply Hpre in Hd|]; lia.
Qed.

(** The gap calculator on the streams [pandas.read_sql] delivers: chunks that
    are not empty, or empty chunks only. *)
Lemma calculate_missing_exact start_date end_date chunks :
  start_date <= end_date ->
  chunks <> [] ->
  Forall (fun c : list Z => c <> []) chunks \/ concat chunks = [] ->
  StronglySorted Z.lt (concat chunks) ->
  Forall (fun d => start_date <= d <= end_date) (concat chunks) ->
  returns_exact_gaps start_date end_date chunks.
Proof.
  intros Hse Hne Hshape Hsorted Hrange. unfold returns_exact_gaps.
  destruct (decide (concat chunks = [])) as [Hnil | Hdates].
  - destruct chunks as [|c rest]; [done|].
    rewrite Hnil. apply concat_nil_Forall, Forall_cons in Hnil as [-> _].
    exists [(start_date, end_date)]. split; [done|].
    split; [split; repeat constructor; simpl; lia|]. split.
    + intros d Hd. by apply elem_of_nil in Hd.
    + intros d. rewrite Exists_cons, Exists_nil. unfold in_interval. simpl.
      rewrite elem_of_nil. tauto.
  - destruct Hshape as [Hshape | ?]; [|done].
    unfold _calculate_missing_date_intervals. rewrite scan_chunks_nonempty by done.
    destruct (concat chunks) as [|d dates] eqn:Hconcat; [done|].
    pose proof (Forall_inv Hrange) as Hd. simpl in Hd.
    destruct (scan_dates_all start_date d dates ltac:(lia) Hsorted)
      as (gaps & p & E & Hinv).
    rewrite E. apply finish_exact; [done|].
    destruct Hinv as (_ & _ & _ & Hp & _).
    rewrite Forall_forall in Hrange. apply Hrange in Hp. lia.
Qed.

(** The frames of [_select] hold the selected rows in order, and none of them
    is empty unless nothing was selected. *)
Lemma fetchmany_frames_rows {A : Type} (fuel chunksize : nat) (rows : list A) :
  (length rows <= fuel)%nat -> (0 < chunksize)%nat ->
  concat (fetchmany_frames fuel chunksize rows) = rows
  /\ Forall (fun c : list A => c <> []) (fetchmany_frames fuel chunksize rows).
Proof.
  intros Hfuel Hsize. revert rows Hfuel.
  induction fuel as [|fuel IH]; intros rows Hfuel.
  - destruct rows; [done | simpl in Hfuel; lia].
  - destruct rows as [|x rows]; [done|]. cbn [fetchmany_frames].
    destruct (IH (drop chunksize (x :: rows))) as [Hrows Hshape].
    { rewrite length_drop. simpl in *. lia. }
    split.
    + cbn [concat]. rewrite Hrows. apply take_drop.
    + constructor; [|done]. destruct chunksize; [lia | done].
Qed.

Lemma select_frames {A : Type} (rows : list A) :
  _select rows <> []
  /\ concat (_select rows) = rows
  /\ (Forall (fun c : list A => c <> []) (_select rows) \/ concat (_select rows) = []).
Proof.
  destruct rows as [|x rows]; [by repeat split; try right|].
  unfold _select.
  destruct (fetchmany_frames_rows (length (x :: rows)) 100 (x :: rows)) as [Hrows Hshape];
    [done | lia |].
  split; [|split; [done | by left]].
  intros E. by rewrite E in Hrows.
Qed.

(** On the frames [_select] returns for a coverage query, the gap calculator
    is exact. *)
Lemma calculate_missing_exact_on_select start_date end_date (dates : list Z) :
  start_date <= end_date ->
  StronglySorted Z.lt dates ->
  Forall (fun d => start_date <= d <= end_date) dates ->
  exists gaps,
    _calculate_missing_date_intervals start_date end_date (_select dates) = Returns gaps
    /\ exact_gaps start_date end_date dates gaps.
Proof.
  intros Hse Hsorted Hrange.
  destruct (select_frames dates) as (Hne & Hrows & Hshape).
  pose proof (calculate_missing_exact start_date end_date (_select dates) Hse Hne Hshape)
    as H.
  unfold returns_exact_gaps in H. rewrite Hrows in H. by apply H.
Qed.

(** C1: for a request [start_date <= end_date] and a coverage stream of
    ascending, distinct dates of the request, delivered in chunks that are not
    empty (or in empty chunks when no date is covered), the returned gaps are
    in ascending order, pairwise disjoint, free of covered dates, and make up
    the request together with the covered dates; so they are on the frames
    [_select] returns for any such dates; the coverage
    2025-01-04, -05, -08, -09 in 2025-01-01..2025-02-01 gives the three gaps
    01-01..01-03, 01-06..01-07 and 01-10..02-01. *)
Theorem C1_missing_intervals_exact :
  (forall start_date end_date dates_with_records_iter,
      start_date <= end_date ->
      dates_with_records_iter <> [] ->
      Forall (fun c : list Z => c <> []) dates_with_records_iter
        \/ concat dates_with_records_iter = [] ->
      StronglySorted Z.lt (concat dates_with_records_iter) ->
      Forall (fun d => start_date <= d <= end_date) (concat dates_with_records_iter) ->
      returns_exact_gaps start_date end_date dates_with_records_iter)
  /\ (forall start_date end_date (dates : list Z),
        start_date <= end_date ->
        StronglySorted Z.lt dates ->
        Forall (fun d => start_date <= d <= end_date) dates ->
        exists gaps,
          _calculate_missing_date_intervals start_date end_date (_select dates)
            = Returns gaps
          /\ exact_gaps start_date end_date dates gaps)
  /\ _calculate_missing_date_intervals (jan 1) (date_ordinal 2025 2 1)
        [[jan 4; jan 5; jan 8; jan 9]]
      = Returns [(jan 1, jan 3); (jan 6, jan 7); (jan 10, date_ordinal 2025 2 1)].
Proof.
  split; [exact calculate_missing_exact|].
  split; [exact calculate_missing_exact_on_select | reflexivity].
Qed.

(** C1, as stated for every delivery in one or more chunks, fails when an
    empty chunk follows the covered dates while no gap is recorded yet: the
    whole request is returned as missing although each of its days is
    covered. *)
Lemma C1_counterexample :
  _calculate_missing_date_intervals (jan 1) (jan 3) [[jan 1; jan 2; jan 3]; []]
    = Returns [(jan 1, jan 3)]
  /\ ~ returns_exact_gaps (jan 1) (jan 3) [[jan 1; jan 2; jan 3]; []].
Proof.
  split; [reflexivity|]. intros (gaps & Hret & _ & Hfree & _).
  injection Hret as <-. apply (Hfree (jan 2)).
  - simpl. apply elem_of_cons. right. apply elem_of_cons. by left.
  - apply Exists_cons. left. unfold in_interval. simpl. vm_compute. split; discriminate.
Qed.

(** C9, as stated, fails for the stream without chunks: the comparison of
    [prev_date = None] with [end_date] raises. *)
Lemma C9_counterexample :
  _calculate_missing_date_intervals (jan 1) (jan 3) [] = Raises TypeError
  /\ _calculate_missing_date_intervals (jan 1) (jan 3) [] <> Returns [(jan 1, jan 3)].
Proof. split; [reflexivity | discriminate]. Qed.

(** C9: when the coverage stream has at least one chunk and no covered date
    (its chunks are empty, as the single empty chunk of an empty query result),
    the whole request is returned as the one missing range. *)
Theorem C9_empty_coverage_whole_interval_missing
    (start_date end_date : Z) (dates_with_records_iter : list (list Z)) :
  dates_with_records_iter <> [] ->
  concat dates_with_records_iter = [] ->
  _calculate_missing_date_intervals start_date end_date dates_with_records_iter
    = Returns [(start_date, end_date)].
Proof.
  intros Hne Hnil. destruct dates_with_records_iter as [|c rest]; [done|].
  by apply concat_nil_Forall, Forall_cons in Hnil as [-> _].
Qed.

(** ** The range chunker of [split_into_chunks_and_send_requests] *)

Lemma ceil_div_multiple (k : Z) : ceil_div (max_len * k) max_len = k.
Proof.
  unfold ceil_div, max_len. replace (- (93 * k)) with ((- k) * 93) by lia.
  rewrite Z.div_mul by lia. lia.
Qed.

(** A range whose length in days is a multiple of [max_len], twice it or more,
    loses its last day: no chunk holds [end_date]. *)
Lemma date_chunks_drop_end_date (start_date k : Z) :
  2 <= k ->
  ~ Exists (in_interval (start_date + max_len * k))
           (date_chunks start_date (start_date + max_len * k)).
Proof.
  intros Hk. unfold date_chunks.
  replace (start_date + max_len * k - start_date) with (max_len * k) by lia.
  rewrite ceil_div_multiple.
  destruct (max_len * k <=? max_len) eqn:Hle;
    [apply Z.leb_le in Hle; unfold max_len in Hle; lia|].
  rewrite Exists_exists. intros (c & Hc & Hin).
  apply list_elem_of_In, in_map_iff in Hc as (i & <- & Hi).
  apply list_elem_of_In, elem_of_seqZ in Hi. unfold in_interval in Hin. simpl in Hin.
  unfold max_len in *.
  destruct (start_date + (93 * (i + 1) - 1) <? start_date + 93 * k) eqn:E;
    [apply Z.ltb_lt in E | apply Z.ltb_ge in E]; lia.
Qed.

Lemma ceil_div_not_multiple (a : Z) :
  a mod max_len <> 0 -> ceil_div a max_len = a / max_len + 1.
Proof. unfold ceil_div, max_len. intros H. Z.div_mod_to_equations. lia. Qed.

(** Any other range is cut exactly: its chunks hold the dates of the range
    and no other, none is inverted or spans more than [max_len] days, and each
    chunk starts on the day after the previous one ends. *)
Lemma date_chunks_exact (start_date end_date : Z) :
  start_date <= end_date ->
  end_date - start_date <= max_len \/ (end_date - start_date) mod max_len <> 0 ->
  (forall d, start_date <= d <= end_date
             <-> Exists (in_interval d) (date_chunks start_date end_date))
  /\ Forall (fun c : interval => c.1 <= c.2 /\ c.2 - c.1 <= max_len)
            (date_chunks start_date end_date)
  /\ (forall i c1 c2,
        date_chunks start_date end_date !! i = Some c1 ->
        date_chunks start_date end_date !! S i = Some c2 ->
        c2.1 = c1.2 + 1).
Proof.
  intros Hse Hshape. unfold date_chunks.
  destruct (end_date - start_date <=? max_len) eqn:Hle;
    [apply Z.leb_le in Hle | apply Z.leb_gt in Hle].
  { split; [|split].
    - intros d. rewrite Exists_cons, Exists_nil. unfold in_interval. simpl. tauto.
    - repeat constructor; simpl; lia.
    - intros i c1 c2 _ H2. by destruct i. }
  destruct Hshape as [?|Hmod]; [lia|].
  rewrite (ceil_div_not_multiple _ Hmod).
  set (n := (end_date - start_date) / max_len + 1).
  match goal with |- context [map ?f (seqZ 0 n)] =>
    set (chunk := f); change (map chunk (seqZ 0 n)) with (chunk <$> seqZ 0 n) end.
  assert (Hn : n = (end_date - start_date) / 93 + 1) by done.
  assert (Hchunk : forall i, 0 <= i < n ->
            (chunk i).1 = start_date + 93 * i
            /\ (chunk i).1 <= (chunk i).2 <= end_date
            /\ (chunk i).2 - (chunk i).1 <= 92
            /\ (i + 1 < n -> (chunk i).2 = start_date + 93 * i + 92)
            /\ (forall d, start_date + 93 * i <= d < start_date + 93 * (i + 1) ->
                 d <= end_date -> d <= (chunk i).2)).
  { intros i Hi. unfold chunk, max_len in *. simpl.
    destruct (start_date + (93 * (i + 1) - 1) <? end_date) eqn:E;
      [apply Z.ltb_lt in E | apply Z.ltb_ge in E];
      repeat split; intros; Z.div_mod_to_equations; lia. }
  split; [|split].
  - intros d. rewrite Exists_fmap, Exists_exists. split.
    + intros Hd. exists ((d - start_date) / 93).
      assert (Hi : 0 <= (d - start_date) / 93 < n).
      { unfold max_len in *. Z.div_mod_to_equations. lia. }
      split; [apply elem_of_seqZ; lia|].
      destruct (Hchunk _ Hi) as (H1 & H2 & _ & _ & Hup).
      unfold in_interval, compose. split.
      * rewrite H1. Z.div_mod_to_equations. lia.
      * apply Hup; [|lia]. Z.div_mod_to_equations. lia.
    + intros (i & Hi%elem_of_seqZ & Hin). unfold in_interval, compose in Hin.
      destruct (Hchunk i ltac:(lia)) as (H1 & H2 & _). lia.
  - apply Forall_fmap, Forall_forall. intros i Hi%elem_of_seqZ. unfold compose.
    destruct (Hchunk i ltac:(lia)) as (H1 & H2 & H3 & _). unfold max_len. lia.
  - intros i c1 c2. rewrite !list_lookup_fmap_Some.
    intros (i1 & -> & [-> Hi1]%lookup_seqZ) (i2 & -> & [-> Hi2]%lookup_seqZ).
    destruct (Hchunk (0 + Z.of_nat i) ltac:(lia)) as (_ & _ & _ & Hfull & _).
    destruct (Hchunk (0 + Z.of_nat (S i)) ltac:(lia)) as (H1 & _).
    rewrite H1, Hfull by lia. lia.
Qed.

(** C2 at 2025-01-01..2025-07-06, a range of twice 93 days: the two chunks
    requested end on 2025-07-05, and no chunk holds the end date.  A range of
    at most 93 days is requested as it is. *)
Theorem C2_chunks_drop_last_day :
  date_chunks (date_ordinal 2025 1 1) (date_ordinal 2025 7 6)
    = [(date_ordinal 2025 1 1, date_ordinal 2025 4 3);
       (date_ordinal 2025 4 4, date_ordinal 2025 7 5)]
  /\ ~ Exists (in_interval (date_ordinal 2025 7 6))
        (date_chunks (date_ordinal 2025 1 1) (date_ordinal 2025 7 6))
  /\ (forall start_date end_date,
        end_date - start_date <= max_len ->
        date_chunks start_date end_date = [(start_date, end_date)]).
Proof.
  split; [reflexivity|]. split.
  - exact (date_chunks_drop_end_date (date_ordinal 2025 1 1) 2 ltac:(lia)).
  - intros start_date end_date Hspan. unfold date_chunks.
    by apply Z.leb_le in Hspan as ->.
Qed.

(** ** Chunk boundaries in the analytics engine *)

(** The label of a group is a tuple and the carried label a string (or
    [None]): the carried rows are never put in front of a group. *)
Lemma carry_never_merged (last_chunk : curr_map (option frame)) (st : extrema) g :
  curr_code last_chunk = LNone \/ (exists name, curr_code last_chunk = LStr name) ->
  group_step LTuple last_chunk st g
  = group_step LTuple (mk_curr_map LNone None) st g.
Proof.
  intros Hlabel. unfold group_step.
  by destruct Hlabel as [-> | [name ->]].
Qed.

(** C3 at a series spread over three chunks: the unsplit series has the
    increase 9, the chunked one 0, as the group label [('USD',)] never equals
    the carried label ['USD']; were the labels of one kind, the carry would
    hold the previous chunk only and the increase would be 5.  The ten-day
    series split after its fifth day gives 4 instead of 9, and 300 days in
    chunks of 100 rows give 99 (199 with labels of one kind) instead of 299. *)
Theorem C3_carry_lost_across_chunks :
  _get_largest_exchange_rate_increase_and_decrease [usd_day1 ++ usd_day2 ++ usd_day3]
    = Returns (mk_curr_map (LTuple "USD") (Fin 9), mk_curr_map (LTuple "USD") (Fin 0))
  /\ _get_largest_exchange_rate_increase_and_decrease [usd_day1; usd_day2; usd_day3]
    = Returns (mk_curr_map (LTuple "USD") (Fin 0), mk_curr_map (LTuple "USD") (Fin 0))
  /\ largest_increase_and_decrease_with LStr [usd_day1; usd_day2; usd_day3]
    = Returns (mk_curr_map (LStr "USD") (Fin 5), mk_curr_map (LStr "USD") (Fin 0))
  /\ _get_largest_exchange_rate_increase_and_decrease
        [usd_days_1_to_5 ++ usd_days_6_to_10]
    = Returns (mk_curr_map (LTuple "USD") (Fin 9), mk_curr_map (LTuple "USD") (Fin 0))
  /\ _get_largest_exchange_rate_increase_and_decrease
        [usd_days_1_to_5; usd_days_6_to_10]
    = Returns (mk_curr_map (LTuple "USD") (Fin 4), mk_curr_map (LTuple "USD") (Fin 0))
  /\ _select (usd_rows (jan 1) 1 300) = usd_300_days_chunked
  /\ concat usd_300_days_chunked = concat usd_300_days_unsplit
  /\ _get_largest_exchange_rate_increase_and_decrease usd_300_days_unsplit
    = Returns (mk_curr_map (LTuple "USD") (Fin 299), mk_curr_map (LTuple "USD") (Fin 0))
  /\ _get_largest_exchange_rate_increase_and_decrease usd_300_days_chunked
    = Returns (mk_curr_map (LTuple "USD") (Fin 99), mk_curr_map (LTuple "USD") (Fin 0))
  /\ largest_increase_and_decrease_with LStr usd_300_days_chunked
    = Returns (mk_curr_map (LStr "USD") (Fin 199), mk_curr_map (LStr "USD") (Fin 0)).
Proof.
  repeat (split; [reflexivity|]).
  repeat (split; [by vm_compute|]). by vm_compute.
Qed.

(** ** [_DatabaseOp.insert] *)

Lemma insert_row_keeps (db : store) r k v :
  db !! k = Some v -> insert_row db r !! k = Some v.
Proof.
  intros Hk. unfold insert_row. destruct (db !! primary_key r) eqn:Hr; [done|].
  rewrite lookup_insert_ne; [done|]. intros <-. congruence.
Qed.

Lemma insert_keeps (rows : list ExchangeRates) (db : store) k v :
  db !! k = Some v -> fold_left insert_row rows db !! k = Some v.
Proof.
  revert db. induction rows as [|r rest IH]; intros db Hk; [done|].
  simpl. apply IH. by apply insert_row_keeps.
Qed.

Lemma insert_row_present (db : store) r :
  is_Some (db !! primary_key r) -> insert_row db r = db.
Proof. intros [v Hv]. unfold insert_row. by rewrite Hv. Qed.

Lemma insert_row_stores (db : store) r : is_Some (insert_row db r !! primary_key r).
Proof.
  unfold insert_row. destruct (db !! primary_key r) eqn:Hr.
  - by rewrite Hr.
  - rewrite lookup_insert_eq. by eexists.
Qed.

Lemma insert_all_present (rows : list ExchangeRates) (db : store) :
  Forall (fun r => is_Some (db !! primary_key r)) rows -> fold_left insert_row rows db = db.
Proof.
  induction 1 as [|r rest Hr _ IH]; [done|].
  simpl. by rewrite insert_row_present.
Qed.

Lemma insert_stores_all (rows : list ExchangeRates) (db : store) :
  Forall (fun r => is_Some (fold_left insert_row rows db !! primary_key r)) rows.
Proof.
  revert db. induction rows as [|r rest IH]; intros db; [constructor|].
  constructor.
  - destruct (insert_row_stores db r) as [v Hv]. exists v.
    cbn [fold_left]. by apply insert_keeps.
  - apply (IH (insert_row db r)).
Qed.

Lemma no_nan_rate (rows : list ExchangeRates) :
  existsb (fun r => is_nan (currency_rate r)) rows = false
  <-> Forall (fun r => currency_rate r <> NaN) rows.
Proof.
  induction rows as [|r rows IH]; simpl; [by split|].
  rewrite orb_false_iff, IH, Forall_cons.
  destruct (currency_rate r); simpl; intuition congruence.
Qed.

(** The statement goes through on the accepted batches and on no other. *)
Lemma insert_returns (input_data : list ExchangeRates) (db db' : store) :
  insert input_data db = Returns db'
  <-> accepted input_data /\ db' = fold_left insert_row input_data db.
Proof.
  unfold insert, accepted. destruct input_data as [|r rest].
  { split; [done | by intros [[? _] _]]. }
  destruct (Z.ltb_spec SQLITE_MAX_VARIABLE_NUMBER (3 * Z.of_nat (length (r :: rest)))).
  { split; [done | intros [(_ & ? & _) _]; lia]. }
  destruct (existsb _ (r :: rest)) eqn:Hnan.
  - split; [done|]. intros [(_ & _ & Hall%no_nan_rate) _]. congruence.
  - apply no_nan_rate in Hnan. split; [by intros [= <-] | by intros [_ ->]].
Qed.

Lemma insert_accepted (input_data : list ExchangeRates) (db : store) :
  accepted input_data ->
  insert input_data db = Returns (fold_left insert_row input_data db).
Proof. intros Hacc. by apply insert_returns. Qed.

(** C5, as stated for every list of records, fails on a rate that is a NaN
    and on the empty list: the record with the NaN raises although its key is
    in the table, and nothing is inserted once or twice without an error. *)
Lemma C5_counterexample :
  is_Some (({[ (jan 2, "USD"%string) := Fin 4 ]} : store)
             !! primary_key (mk_row (jan 2) "USD" NaN))
  /\ insert [mk_row (jan 2) "USD" NaN] {[ (jan 2, "USD"%string) := Fin 4 ]}
     = Raises IntegrityError
  /\ insert [] ∅ = Raises OperationalError.
Proof.
  split; [exists (Fin 4); apply lookup_singleton_eq|].
  split; [by vm_compute | reflexivity].
Qed.

(** C5: a batch with at least one row and without a NaN (within the
    parameters of one statement) is inserted without an error, and inserting
    it a second time leaves the table as the first insert did; a record whose
    key [(date, currency_code)] is in the table is ignored, and no stored rate
    is ever overwritten. *)
Theorem C5_insert_idempotent :
  (forall (input_data : list ExchangeRates) (db : store),
      accepted input_data ->
      exists db', insert input_data db = Returns db'
                  /\ insert input_data db' = Returns db')
  /\ (forall (r : ExchangeRates) (db : store),
        accepted [r] -> is_Some (db !! primary_key r) -> insert [r] db = Returns db)
  /\ (forall (input_data : list ExchangeRates) (db db' : store) k v,
        insert input_data db = Returns db' ->
        db !! k = Some v -> db' !! k = Some v).
Proof.
  split; [|split].
  - intros input_data db Hacc. exists (fold_left insert_row input_data db).
    rewrite !insert_accepted by done. split; [done|]. f_equal.
    apply insert_all_present, insert_stores_all.
  - intros r db Hacc Hr. rewrite insert_accepted by done. f_equal.
    apply insert_all_present. by constructor.
  - intros input_data db db' k v [_ ->]%insert_returns. apply insert_keeps.
Qed.

(** ** [_send_request_to_nbp_api] *)

(** C7, as stated, fails on a protocol error and on a response of unexpected
    shape: the answer 500 and a body that cannot be decoded both end in the
    empty result. *)
Lemma C7_counterexample :
  ~ propagates_other_failures server_error usd_request
  /\ ~ propagates_other_failures garbled_body usd_request
  /\ _send_request_to_nbp_api server_error usd_request = Returns []
  /\ _send_request_to_nbp_api garbled_body usd_request = Returns [].
Proof.
  split; [|split; [|split; reflexivity]].
  - intros H. by specialize (H (HTTPError 500) eq_refl).
  - intros H. by specialize (H JSONDecodeError eq_refl).
Qed.

(** What the [except] clauses make of a failed [try] block. *)
Lemma send_request_handlers
    (requests_get : nbp_uri -> outcome http_response) (uri : nbp_uri) :
  _send_request_to_nbp_api requests_get uri
  = match try_block requests_get uri with
    | Returns r => Returns r
    | Raises e => if isinstance e cRequestException then Returns [] else Raises e
    end.
Proof.
  unfold _send_request_to_nbp_api.
  destruct (try_block requests_get uri) as [r|e]; [done|]. by destruct e.
Qed.

(** C7: a request returns the decoded responses when it succeeds, and the
    empty result when it fails with an instance of [RequestException]: a
    timeout, a connection error, an HTTP error status of any code (404 and
    400 or 500 alike), a body that cannot be decoded; only a failure of
    [requests.get] outside that hierarchy reaches the caller. *)
Theorem C7_request_failures_absorbed
    (requests_get : nbp_uri -> outcome http_response) (uri : nbp_uri) :
  _send_request_to_nbp_api requests_get uri
  = match requests_get uri with
    | Raises e => if isinstance e cRequestException then Returns [] else Raises e
    | Returns response =>
        if (400 <=? status_code_of response) && (status_code_of response <? 600)
        then Returns []
        else match body response with
             | None => Returns []
             | Some (JDict d) => Returns [d]
             | Some (JList l) => Returns l
             end
    end.
Proof.
  rewrite send_request_handlers. unfold try_block.
  destruct (requests_get uri) as [response|e]; simpl; [|done].
  unfold raise_for_status.
  destruct ((400 <=? status_code_of response) && (status_code_of response <? 600));
    simpl; [done|].
  unfold json. by destruct (body response) as [[d|l]|].
Qed.

(** ** The analytical report *)

(** C8, as stated, fails: a zero change of a known currency and the missing
    extremum are written as the same entry, in the JSON and in the CSV
    report; the reports of a constant rate are those of a stream without
    rows. *)
Lemma C8_counterexample :
  json_entry "max_recorded_increase" (mk_curr_map (LTuple "USD") (Fin 0))
    = json_entry "max_recorded_increase" no_data
  /\ csv_entry "max_recorded_increase" (mk_curr_map (LTuple "USD") (Fin 0))
    = csv_entry "max_recorded_increase" no_data
  /\ json_entry "max_recorded_increase" (mk_curr_map (LTuple "USD") (Fin 0))
    = Returns [("max_recorded_increase"%string, SNone)]
  /\ _get_largest_exchange_rate_increase_and_decrease [usd_constant]
    = Returns (mk_curr_map (LTuple "USD") (Fin 0), mk_curr_map (LTuple "USD") (Fin 0))
  /\ (e ← _get_largest_exchange_rate_increase_and_decrease [usd_constant];
      _generate_json_report_with_analytical_data (analytical_data_of e))
    = _generate_json_report_with_analytical_data (analytical_data_of (no_data, no_data))
  /\ (e ← _get_largest_exchange_rate_increase_and_decrease [usd_constant];
      _generate_csv_report_with_analytical_data (analytical_data_of e))
    = _generate_csv_report_with_analytical_data (analytical_data_of (no_data, no_data)).
Proof. repeat split; reflexivity. Qed.

(** C8: an extremum with a value other than 0 and the code of a currency is
    written with that value and that code, unlike the missing extremum; an
    extremum with the value 0 is written as [None], as the missing one is. *)
Theorem C8_report_entries :
  (forall change_type code (v : pyfloat),
      float_truthy v = true ->
      json_entry change_type (mk_curr_map (LTuple code) v)
        = Returns [(change_type, SNum v); ("currency_code"%string, SStr code)]
      /\ csv_entry change_type (mk_curr_map (LTuple code) v)
        = Returns [Line change_type (SNum v); Line "currency_code" (SStr code); Blank]
      /\ json_entry change_type (mk_curr_map (LTuple code) v)
        <> json_entry change_type no_data
      /\ csv_entry change_type (mk_curr_map (LTuple code) v)
        <> csv_entry change_type no_data)
  /\ (forall change_type (c : curr_map pyfloat),
        float_truthy (value c) = false ->
        json_entry change_type c = json_entry change_type no_data
        /\ csv_entry change_type c = csv_entry change_type no_data)
  /\ (forall change_type,
        json_entry change_type no_data = Returns [(change_type, SNone)]
        /\ csv_entry change_type no_data = Returns [Line change_type SNone]).
Proof.
  split; [|split].
  - intros change_type code v Hv. unfold json_entry, csv_entry. simpl. rewrite Hv.
    simpl. by repeat split.
  - intros change_type c Hc. unfold json_entry, csv_entry. by rewrite Hc.
  - done.
Qed.

(** ** [gather_data_for_date_range] *)

Lemma for_each_raises {A S : Type} (body : S -> A -> outcome S) l s e :
  for_each body l s = Raises e -> exists s' x, body s' x = Raises e.
Proof.
  revert s. induction l as [|x l IH]; intros s; [done|].
  simpl. destruct (body s x) as [s1|e1] eqn:Hb; simpl.
  - apply IH.
  - intros [= <-]. by exists s, x.
Qed.

Lemma scan_chunks_raises start_date end_date chunks st e :
  scan_chunks start_date end_date chunks st = Raises e -> e = TypeError.
Proof.
  revert st. induction chunks as [|c rest IH]; intros st; simpl.
  - destruct (snd st) as [p|]; [by destruct (p <? end_date)|congruence].
  - destruct c, (fst st); try done; apply IH.
Qed.

Section Fetching.

Variable requests_get : nbp_uri -> outcome http_response.

(** What the fetcher lets through was raised by [requests.get] itself. *)
Lemma send_request_raises uri e :
  _send_request_to_nbp_api requests_get uri = Raises e -> requests_get uri = Raises e.
Proof.
  unfold _send_request_to_nbp_api, try_block.
  destruct (requests_get uri) as [response|e0]; simpl.
  - unfold raise_for_status.
    destruct ((400 <=? status_code_of response) && (status_code_of response <? 600));
      simpl; [done|].
    unfold json. destruct (body response) as [[d|l]|]; simpl; done.
  - by destruct e0; simpl; intros [= <-].
Qed.

Lemma split_raises dates_ranges currency e :
  split_into_chunks_and_send_requests requests_get dates_ranges currency = Raises e ->
  exists uri, requests_get uri = Raises e.
Proof.
  unfold split_into_chunks_and_send_requests.
  intros (acc & [start_date end_date] & H)%for_each_raises.
  apply for_each_raises in H as (acc' & [chunk_start_date chunk_end_date] & H).
  destruct (_send_request_to_nbp_api _ _) as [r|e0] eqn:Hsend; simpl in H; [done|].
  injection H as <-. eexists. by eapply send_request_raises.
Qed.

Lemma request_data_raises dates_ranges currency_codes e :
  request_data_from_nbp_database requests_get dates_ranges currency_codes = Raises e ->
  exists uri, requests_get uri = Raises e.
Proof.
  unfold request_data_from_nbp_database.
  destruct currency_codes as [[|code codes]|]; try apply split_raises.
  intros (acc & currency_code & H)%for_each_raises.
  destruct (split_into_chunks_and_send_requests _ _ _) as [r|e0] eqn:Hsplit;
    simpl in H; [done|].
  injection H as <-. by eapply split_raises.
Qed.

End Fetching.

(** ** [_collect_missing_data_from_nbp_api] *)

(** The errors of the loop body are those of the lookup of ['effectiveDate']
    and of the insert. *)
Lemma collect_step_raises st response e :
  collect_step st response = Raises e ->
  e = KeyError \/ e = OperationalError \/ e = IntegrityError.
Proof.
  unfold collect_step. destruct st as [b db].
  destruct (_align_json_data_with_database_model response) as [rows|e'] eqn:Ha; simpl.
  - unfold save_data_into_database, insert. destruct rows as [|r rows]; simpl.
    { intros [= <-]. auto. }
    destruct (_ <? _); simpl; [intros [= <-]; auto|].
    destruct (_ || _); simpl; [intros [= <-]; auto | done].
  - intros [= <-]. unfold _align_json_data_with_database_model in Ha.
    destruct response as [[|c code] rates|d rates]; simpl in Ha; simplify_eq; auto.
Qed.

Lemma collect_step_returns st response st' :
  collect_step st response = Returns st'
  <-> exists input_data,
        _align_json_data_with_database_model response = Returns input_data
        /\ accepted input_data
        /\ st' = (true, fold_left insert_row input_data st.2).
Proof.
  unfold collect_step. destruct st as [b db]. cbn [snd].
  destruct (_align_json_data_with_database_model response) as [rows|e'] eqn:Ha; simpl.
  - unfold save_data_into_database.
    destruct (insert rows db) as [db1|e] eqn:Hins; simpl.
    + apply insert_returns in Hins as [Hacc ->]. split.
      * intros [= <-]. by exists rows.
      * by intros (rows' & [= <-] & _ & ->).
    + split; [done|]. intros (rows' & [= <-] & Hacc & _).
      by rewrite insert_accepted in Hins.
  - split; [done | by intros (rows' & ? & _)].
Qed.

(** What the loop returns: [data_collected] is set by the first response, and
    the table has taken the batches of the responses, one after the other. *)
Lemma collected_returns (responses : list response_json) (st st' : bool * store) :
  for_each collect_step responses st = Returns st' ->
  st'.1 = match responses with [] => st.1 | _ => true end
  /\ exists batches,
       Forall2 (fun response input_data =>
                  _align_json_data_with_database_model response = Returns input_data
                  /\ accepted input_data) responses batches
       /\ st'.2 = fold_left insert_row (concat batches) st.2.
Proof.
  revert st. induction responses as [|r rest IH]; intros st.
  - intros [= <-]. split; [done|]. by exists [].
  - cbn [for_each]. destruct (collect_step st r) as [st1|e] eqn:Hstep; simpl; [|done].
    apply collect_step_returns in Hstep as (rows & Ha & Hacc & ->).
    intros (Hflag & batches & HF & Hdb)%IH. split.
    + rewrite Hflag. by destruct rest.
    + exists (rows :: batches). split; [by constructor|].
      by rewrite Hdb, concat_cons, fold_left_app.
Qed.

(** The loop returns on responses that are storable. *)
Lemma collected_storable (responses : list response_json) (st : bool * store) :
  Forall storable responses ->
  exists st', for_each collect_step responses st = Returns st'.
Proof.
  intros Hall. revert st. induction Hall as [|r rest (rows & Ha & Hacc) _ IH]; intros st.
  - by eexists.
  - cbn [for_each].
    assert (collect_step st r = Returns (true, fold_left insert_row rows st.2)) as ->.
    { apply collect_step_returns. by exists rows. }
    apply IH.
Qed.

(** C6, as stated, fails on a response that cannot be stored: with two days of
    the request in the table and an answer without rates to the requests for
    the other days, the call ends in the error of the insert. *)
Lemma C6_counterexample :
  _calculate_missing_date_intervals (jan 1) (jan 5)
    (get_dates_with_records usd_jan_2_to_3 (jan 1) (jan 5) (Some ["USD"%string]))
    = Returns [(jan 1, jan 1); (jan 4, jan 5)]
  /\ gather_data_for_date_range
       (fun _ => Returns (mk_response 200 (Some (JDict (CurrencyRates "USD" [])))))
       get_dates_with_records (jan 1) (jan 5) (Some ["USD"%string]) usd_jan_2_to_3
     = Raises OperationalError.
Proof. split; by vm_compute. Qed.

(** C6: the call ends in the [SystemExit] exactly when the missing ranges are
    the one range of the whole request and the fetch of it yields no
    response; with any other missing ranges, or with at least one response,
    it returns, provided that each response is storable (its rows make a
    batch with a row and without a NaN); and a covered date in the table's
    answer rules out that the whole request is missing. *)
Theorem C6_gather_aborts_only_on_total_failure
    (requests_get : nbp_uri -> outcome http_response)
    (get_dates_with_records : store -> Z -> Z -> option (list string) -> list (list Z))
    (start_date end_date : Z) (currency_codes : option (list string)) (db : store) :
  (forall uri msg, requests_get uri <> Raises (SystemExit msg)) ->
  let coverage := get_dates_with_records db start_date end_date currency_codes in
  let result :=
    gather_data_for_date_range requests_get get_dates_with_records
      start_date end_date currency_codes db in
  ((exists msg, result = Raises (SystemExit msg))
   <-> _calculate_missing_date_intervals start_date end_date coverage
         = Returns [(start_date, end_date)]
       /\ request_data_from_nbp_database requests_get [(start_date, end_date)]
            currency_codes = Returns [])
  /\ (forall missing responses,
        _calculate_missing_date_intervals start_date end_date coverage = Returns missing ->
        request_data_from_nbp_database requests_get missing currency_codes
          = Returns responses ->
        Forall storable responses ->
        missing <> [(start_date, end_date)] \/ responses <> [] ->
        exists db', result = Returns db')
  /\ (forall missing,
        start_date <= end_date ->
        Forall (fun c : list Z => c <> []) coverage ->
        StronglySorted Z.lt (concat coverage) ->
        Forall (fun d => start_date <= d <= end_date) (concat coverage) ->
        concat coverage <> [] ->
        _calculate_missing_date_intervals start_date end_date coverage = Returns missing ->
        missing <> [(start_date, end_date)]).
Proof.
  intros Hget coverage result. subst result.
  unfold gather_data_for_date_range. fold coverage.
  split; [|split].
  - destruct (_calculate_missing_date_intervals start_date end_date coverage)
      as [missing|e] eqn:Hcalc; simpl.
    2:{ apply scan_chunks_raises in Hcalc as ->. split; [by intros [msg ?]|by intros [? _]]. }
    destruct missing as [|g missing]; [split; [by intros [msg ?]|by intros [? _]]|].
    unfold _collect_missing_data_from_nbp_api.
    destruct (request_data_from_nbp_database requests_get (g :: missing) currency_codes)
      as [responses|e] eqn:Hreq; simpl.
    2:{ split.
        - intros [msg [= ->]]. apply request_data_raises in Hreq as [uri Huri].
          by destruct (Hget uri msg).
        - intros [[= -> ->] Hreq']. by pose proof (eq_trans (eq_sym Hreq) Hreq'). }
    destruct (for_each collect_step responses (false, db))
      as [[is_data_collected db']|e] eqn:Hloop; simpl.
    2:{ split.
        - intros [msg [= ->]]. apply for_each_raises in Hloop as (st & response & Hstep).
          apply collect_step_raises in Hstep as [|[|]]; done.
        - intros [[= -> ->] Hreq'].
          pose proof (eq_trans (eq_sym Hreq) Hreq') as [= ->]. by simpl in Hloop. }
    apply collected_returns in Hloop as [Hflag _].
    simpl in Hflag. subst is_data_collected.
    case_bool_decide as Hwhole; destruct responses as [|r responses]; simpl; split;
      try (by intros [msg ?]); try (by intros [? ?]).
    + intros _. by injection Hwhole as -> ->.
    + intros _. by eexists.
    + intros [_ Hreq']. injection Hwhole as -> ->.
      by pose proof (eq_trans (eq_sym Hreq) Hreq').
    + intros [[= -> ->] _]. by destruct Hwhole.
    + intros [[= -> ->] _]. by destruct Hwhole.
  - intros missing responses -> Hreq Hstorable Hsome. simpl.
    destruct missing as [|g missing]; [by eexists|].
    unfold _collect_missing_data_from_nbp_api. rewrite Hreq. simpl.
    destruct (collected_storable responses (false, db) Hstorable)
      as [[is_data_collected db'] Hloop].
    rewrite Hloop. simpl.
    apply collected_returns in Hloop as [Hflag _].
    simpl in Hflag. subst is_data_collected.
    case_bool_decide as Hwhole; destruct responses as [|r responses]; simpl;
      try (by eexists).
    by destruct Hsome.
  - intros missing Hse Hshape Hsorted Hrange Hsome Hcalc ->.
    assert (Hne : coverage <> []) by (by intros E; rewrite E in Hsome).
    destruct (calculate_missing_exact start_date end_date coverage Hse Hne
                (or_introl Hshape) Hsorted Hrange) as (gaps & Hret & _ & Hfree & _).
    rewrite Hcalc in Hret. injection Hret as <-.
    destruct (concat coverage) as [|d dates] eqn:Hconcat; [done|].
    apply (Hfree d); [by left|]. apply Exists_cons. left.
    by apply Forall_inv in Hrange.
Qed.

(** ** Instances of the conditional statements *)

Lemma C1_witness :
  returns_exact_gaps (jan 1) (date_ordinal 2025 2 1) [[jan 4; jan 5; jan 8; jan 9]].
Proof.
  apply (proj1 C1_missing_intervals_exact).
  - by vm_compute.
  - done.
  - left. by repeat constructor.
  - repeat constructor; by vm_compute.
  - repeat constructor; by vm_compute.
Defined.

Lemma C5_witness :
  insert [mk_row (jan 2) "USD" (Fin 5)] {[ (jan 2, "USD"%string) := Fin 4 ]}
  = Returns {[ (jan 2, "USD"%string) := Fin 4 ]}.
Proof.
  apply (proj1 (proj2 C5_insert_idempotent)).
  - split; [done|]. split; [by vm_compute | by repeat constructor].
  - exists (Fin 4). apply lookup_singleton_eq.
Defined.

Lemma C6_witness :
  (exists msg,
      gather_data_for_date_range (fun _ => Raises ReadTimeout) (fun _ _ _ _ => [[]])
        (jan 1) (jan 3) None ∅ = Raises (SystemExit msg))
  /\ (exists db',
        gather_data_for_date_range
          (fun _ => Returns (mk_response 200
                               (Some (JDict (CurrencyRates "USD" [(jan 2, Fin 4)])))))
          (fun _ _ _ _ => [[]]) (jan 1) (jan 3) (Some ["USD"%string]) ∅
        = Returns db').
Proof.
  split.
  - apply (proj1 (C6_gather_aborts_only_on_total_failure
                    (fun _ => Raises ReadTimeout) (fun _ _ _ _ => [[]])
                    (jan 1) (jan 3) None ∅ ltac:(done))).
    split; reflexivity.
  - apply (proj1 (proj2 (C6_gather_aborts_only_on_total_failure
                           (fun _ => Returns (mk_response 200
                              (Some (JDict (CurrencyRates "USD" [(jan 2, Fin 4)])))))
                           (fun _ _ _ _ => [[]])
                           (jan 1) (jan 3) (Some ["USD"%string]) ∅ ltac:(done)))
             [(jan 1, jan 3)] [CurrencyRates "USD" [(jan 2, Fin 4)]]).
    + reflexivity.
    + reflexivity.
    + repeat constructor. eexists. split; [reflexivity|].
      split; [done|]. split; [by vm_compute | by repeat constructor].
    + by right.
Defined.

Lemma C8_witness :
  json_entry "max_recorded_increase" (mk_curr_map (LTuple "USD") (Fin 9))
  = Returns [("max_recorded_increase"%string, SNum (Fin 9));
             ("currency_code"%string, SStr "USD")].
Proof.
  apply (proj1 C8_report_entries "max_recorded_increase"%string "USD"%string (Fin 9)).
  reflexivity.
Defined.

Lemma C9_witness :
  _calculate_missing_date_intervals (jan 1) (jan 3) [[]] = Returns [(jan 1, jan 3)].
Proof.
  apply C9_empty_coverage_whole_interval_missing; [done | reflexivity].
Defined.

Lemma C10_witness : @nil frame = [] /\ concat (@nil frame) = [].
Proof.
  apply (proj1 (proj2 (proj2 C10_extrema_never_negative)) [] (no_data, no_data)).
  - reflexivity.
  - by left.
Defined.

(** * Further properties *)

(** ** The range chunker, on every range *)

Lemma ceil_div_bounds (a : Z) :
  max_len < a ->
  2 <= ceil_div a max_len
  /\ max_len * (ceil_div a max_len - 1) < a <= max_len * ceil_div a max_len.
Proof. unfold ceil_div, max_len. intros H. Z.div_mod_to_equations. lia. Qed.

Lemma date_chunks_shape (start_date end_date : Z) :
  start_date <= end_date ->
  (exists c rest, date_chunks start_date end_date = c :: rest /\ c.1 = start_date)
  /\ Forall (fun c : interval =>
               start_date <= c.1 <= c.2 /\ c.2 <= end_date /\ c.2 - c.1 <= max_len)
            (date_chunks start_date end_date)
  /\ (forall i c1 c2,
        date_chunks start_date end_date !! i = Some c1 ->
        date_chunks start_date end_date !! S i = Some c2 ->
        c2.1 = c1.2 + 1)
  /\ (exists c, last (date_chunks start_date end_date) = Some c /\ end_date - 1 <= c.2).
Proof.
  intros Hse. unfold date_chunks.
  destruct (end_date - start_date <=? max_len) eqn:Hle;
    [apply Z.leb_le in Hle | apply Z.leb_gt in Hle].
  { split; [by eexists _, _|]. split; [repeat constructor; simpl; lia|].
    split; [intros i c1 c2 _ H2; by destruct i|].
    eexists. split; [done|]. simpl. lia. }
  destruct (ceil_div_bounds _ Hle) as (Hn2 & Hlo & Hhi).
  set (n := ceil_div (end_date - start_date) max_len) in *.
  match goal with |- context [map ?f (seqZ 0 n)] =>
    set (chunk := f); change (map chunk (seqZ 0 n)) with (chunk <$> seqZ 0 n) end.
  assert (Hchunk : forall i, 0 <= i < n ->
            (chunk i).1 = start_date + 93 * i
            /\ (chunk i).1 <= (chunk i).2 <= end_date
            /\ (chunk i).2 - (chunk i).1 <= 92
            /\ (i + 1 < n -> (chunk i).2 = start_date + 93 * i + 92)
            /\ (i + 1 = n -> end_date - 1 <= (chunk i).2)).
  { intros i Hi. unfold chunk, max_len in *. simpl.
    destruct (start_date + (93 * (i + 1) - 1) <? end_date) eqn:E;
      [apply Z.ltb_lt in E | apply Z.ltb_ge in E]; repeat split; intros; lia. }
  split; [|split; [|split]].
  - rewrite (seqZ_cons 0 n) by lia. eexists _, _. split; [done|].
    destruct (Hchunk 0 ltac:(lia)) as (-> & _). lia.
  - apply Forall_fmap, Forall_forall. intros i Hi%elem_of_seqZ. unfold compose.
    destruct (Hchunk i ltac:(lia)) as (H1 & H2 & H3 & _). unfold max_len. lia.
  - intros i c1 c2. rewrite !list_lookup_fmap_Some.
    intros (i1 & -> & [-> Hi1]%lookup_seqZ) (i2 & -> & [-> Hi2]%lookup_seqZ).
    destruct (Hchunk (0 + Z.of_nat i) ltac:(lia)) as (_ & _ & _ & Hfull & _).
    destruct (Hchunk (0 + Z.of_nat (S i)) ltac:(lia)) as (H1 & _).
    rewrite H1, Hfull by lia. lia.
  - assert (Hs : seqZ 0 n = seqZ 0 (n - 1) ++ [n - 1]).
    { transitivity (seqZ 0 ((n - 1) + 1)); [f_equal; lia|].
      rewrite seqZ_app by lia. f_equal. }
    rewrite Hs, fmap_last, last_snoc. simpl. eexists. split; [done|].
    destruct (Hchunk (n - 1) ltac:(lia)) as (_ & _ & _ & _ & Hend).
    apply Hend. lia.
Qed.

(** X1: Whatever the range, the chunks start at [start_date], stay inside the
    range, are not inverted, span at most [max_len] days, follow one another
    without gap or overlap, and reach [end_date] or the day before it; they
    hold every date of the range when its length in days is at most [max_len]
    or no multiple of it. *)
Theorem date_chunks_within (start_date end_date : Z) :
  start_date <= end_date ->
  (exists c rest, date_chunks start_date end_date = c :: rest /\ c.1 = start_date)
  /\ Forall (fun c : interval =>
               start_date <= c.1 <= c.2 /\ c.2 <= end_date /\ c.2 - c.1 <= max_len)
            (date_chunks start_date end_date)
  /\ (forall i c1 c2,
        date_chunks start_date end_date !! i = Some c1 ->
        date_chunks start_date end_date !! S i = Some c2 ->
        c2.1 = c1.2 + 1)
  /\ (exists c, last (date_chunks start_date end_date) = Some c /\ end_date - 1 <= c.2)
  /\ (end_date - start_date <= max_len \/ (end_date - start_date) mod max_len <> 0 ->
      forall d, start_date <= d <= end_date
                <-> Exists (in_interval d) (date_chunks start_date end_date)).
Proof.
  intros Hse.
  destruct (date_chunks_shape start_date end_date Hse) as (H1 & H2 & H3 & H4).
  split; [done|]. split; [done|]. split; [done|]. split; [done|].
  intros Hshape. by destruct (date_chunks_exact start_date end_date Hse Hshape).
Qed.

Lemma date_chunks_within_witness :
  exists c, last (date_chunks (jan 1) (jan 1 + 186)) = Some c /\ jan 1 + 186 - 1 <= c.2.
Proof.
  apply (date_chunks_within (jan 1) (jan 1 + 186)). by vm_compute.
Defined.

(** ** The order of the requests *)

Lemma chain_all_app {A B : Type} (f : A -> outcome (list B)) l1 l2 :
  chain_all f (l1 ++ l2)
  = r1 ← chain_all f l1; r2 ← chain_all f l2; Returns (r1 ++ r2).
Proof.
  induction l1 as [|x l1 IH]; simpl.
  - by destruct (chain_all f l2).
  - destruct (f x) as [r|e]; simpl; [|done]. rewrite IH.
    destruct (chain_all f l1) as [r1|e]; simpl; [|done].
    destruct (chain_all f l2) as [r2|e]; simpl; [|done].
    by rewrite app_assoc.
Qed.

(** The loop over the chunks of one range. *)
Lemma chunk_requests_chain requests_get currency (chunks : list interval) acc :
  for_each (fun _response '(chunk_start_date, chunk_end_date) =>
              r ← _send_request_to_nbp_api requests_get
                    (mk_uri currency chunk_start_date chunk_end_date);
              Returns (_response ++ r)) chunks acc
  = rs ← chain_all (_send_request_to_nbp_api requests_get)
           (map (fun '(chunk_start_date, chunk_end_date) =>
                   mk_uri currency chunk_start_date chunk_end_date) chunks);
    Returns (acc ++ rs).
Proof.
  revert acc. induction chunks as [|[cs ce] chunks IH]; intros acc; simpl.
  - by rewrite app_nil_r.
  - destruct (_send_request_to_nbp_api _ _) as [r|e]; simpl; [|done].
    rewrite IH. destruct (chain_all _ _) as [rs|e]; simpl; [|done].
    by rewrite app_assoc.
Qed.

(** The loop over the ranges, from the responses [acc] on. *)
Lemma range_requests_chain requests_get currency (dates_ranges : list interval) acc :
  for_each (fun _response '(start_date, end_date) =>
    for_each (fun _response '(chunk_start_date, chunk_end_date) =>
        r ← _send_request_to_nbp_api requests_get
              (mk_uri currency chunk_start_date chunk_end_date);
        Returns (_response ++ r))
      (date_chunks start_date end_date) _response)
    dates_ranges acc
  = rs ← chain_all (_send_request_to_nbp_api requests_get)
           (endpoint_uris dates_ranges currency);
    Returns (acc ++ rs).
Proof.
  revert acc. induction dates_ranges as [|[start_date end_date] rest IH]; intros acc.
  - simpl. by rewrite app_nil_r.
  - cbn [for_each endpoint_uris flat_map]. rewrite chunk_requests_chain, chain_all_app.
    destruct (chain_all _ (map _ _)) as [r1|e]; simpl; [|done].
    rewrite IH. fold (endpoint_uris rest currency).
    destruct (chain_all _ (endpoint_uris rest currency)) as [r2|e]; simpl; [|done].
    by rewrite app_assoc.
Qed.

Lemma split_requests_chain requests_get dates_ranges currency :
  split_into_chunks_and_send_requests requests_get dates_ranges currency
  = chain_all (_send_request_to_nbp_api requests_get)
      (endpoint_uris dates_ranges currency).
Proof.
  unfold split_into_chunks_and_send_requests. rewrite range_requests_chain.
  by destruct (chain_all _ _).
Qed.

(** The loop over the currencies. *)
Lemma currency_requests_chain requests_get dates_ranges (codes : list string) acc :
  for_each (fun response currency_code =>
      r ← split_into_chunks_and_send_requests requests_get dates_ranges
            (Some currency_code);
      Returns (response ++ r))
    codes acc
  = rs ← chain_all (_send_request_to_nbp_api requests_get)
           (flat_map (fun currency_code =>
                        endpoint_uris dates_ranges (Some currency_code)) codes);
    Returns (acc ++ rs).
Proof.
  revert acc. induction codes as [|code codes IH]; intros acc.
  - simpl. by rewrite app_nil_r.
  - cbn [for_each flat_map]. rewrite split_requests_chain, chain_all_app.
    destruct (chain_all _ (endpoint_uris _ _)) as [r1|e]; simpl; [|done].
    rewrite IH. destruct (chain_all _ (flat_map _ _)) as [r2|e]; simpl; [|done].
    by rewrite app_assoc.
Qed.

Lemma request_data_chain requests_get dates_ranges currency_codes :
  request_data_from_nbp_database requests_get dates_ranges currency_codes
  = chain_all (_send_request_to_nbp_api requests_get)
      (request_uris dates_ranges currency_codes).
Proof.
  unfold request_data_from_nbp_database, request_uris.
  destruct currency_codes as [[|code codes]|]; try apply split_requests_chain.
  rewrite currency_requests_chain. by destruct (chain_all _ _).
Qed.

(** X2: The fetch asks the URIs of [request_uris] one after the other, currency
    after currency, range after range and chunk after chunk, and chains the
    answers in that order; the first failure that is not absorbed ends it.
    With an empty tuple of currencies it asks the tables endpoint. *)
Theorem request_data_in_order
    (requests_get : nbp_uri -> outcome http_response)
    (dates_ranges : list interval) (currency_codes : option (list string)) :
  request_data_from_nbp_database requests_get dates_ranges currency_codes
  = chain_all (_send_request_to_nbp_api requests_get)
      (request_uris dates_ranges currency_codes)
  /\ request_data_from_nbp_database requests_get dates_ranges (Some [])
     = request_data_from_nbp_database requests_get dates_ranges None.
Proof. split; [apply request_data_chain | done]. Qed.

(** ** A fetch during an outage *)

Lemma send_request_outage requests_get uri :
  outage requests_get -> _send_request_to_nbp_api requests_get uri = Returns [].
Proof.
  intros Hout. rewrite send_request_handlers.
  destruct (Hout uri) as [(e & Hget & He) | (response & Hget & Hstatus)].
  - assert (try_block requests_get uri = Raises e) as ->
      by (unfold try_block; by rewrite Hget).
    by rewrite He.
  - assert (try_block requests_get uri = Raises (HTTPError (status_code_of response)))
      as ->; [|done].
    unfold try_block. rewrite Hget. simpl. unfold raise_for_status.
    assert ((400 <=? status_code_of response) && (status_code_of response <? 600) = true)
      as -> by (apply andb_true_iff; split; [apply Z.leb_le | apply Z.ltb_lt]; lia).
    done.
Qed.

Lemma chain_all_nothing {A B : Type} (f : A -> outcome (list B)) l :
  (forall x, f x = Returns []) -> chain_all f l = Returns [].
Proof. intros H. induction l as [|x l IH]; simpl; [done|]. by rewrite H, IH. Qed.

Lemma request_data_outage_eq requests_get dates_ranges currency_codes :
  outage requests_get ->
  request_data_from_nbp_database requests_get dates_ranges currency_codes = Returns [].
Proof.
  intros Hout. rewrite request_data_chain. apply chain_all_nothing.
  intros uri. by apply send_request_outage.
Qed.

(** X3: During an outage a fetch raises nothing and yields no response, whatever
    the ranges and the currencies; so it does when every request is answered
    with an empty list. *)
Theorem request_data_outage
    (requests_get : nbp_uri -> outcome http_response)
    (dates_ranges : list interval) (currency_codes : option (list string)) :
  outage requests_get
  \/ (forall uri, exists status, requests_get uri
                                 = Returns (mk_response status (Some (JList []))))  ->
  request_data_from_nbp_database requests_get dates_ranges currency_codes = Returns [].
Proof.
  intros [Hout | Hempty]; [by apply request_data_outage_eq|].
  rewrite request_data_chain. apply chain_all_nothing. intros uri.
  destruct (Hempty uri) as [status Hget].
  rewrite send_request_handlers. unfold try_block. rewrite Hget. simpl.
  unfold raise_for_status. simpl. by destruct (_ && _).
Qed.

Lemma connection_refused_outage : outage (fun _ => Raises ConnectionError_).
Proof. intros uri. left. by eexists. Qed.

Lemma request_data_outage_witness :
  request_data_from_nbp_database (fun _ => Raises ConnectionError_)
    [(jan 1, jan 3)] (Some ["USD"%string; "EUR"%string]) = Returns [].
Proof. apply request_data_outage. left. apply connection_refused_outage. Defined.

(** ** What an insert stores *)

(** The row of [rows] that decides the rate of the key [k]: the first one
    with that key. *)
Lemma insert_lookup_first (rows : list ExchangeRates) (db : store) (k : Z * string) :
  fold_left insert_row rows db !! k
  = match db !! k with
    | Some v => Some v
    | None => currency_rate <$> head (filter (fun r => primary_key r = k) rows)
    end.
Proof.
  revert db. induction rows as [|r rows IH]; intros db.
  - simpl. by destruct (db !! k).
  - cbn [fold_left]. rewrite IH. unfold insert_row. rewrite filter_cons.
    destruct (db !! primary_key r) as [w|] eqn:Hr.
    + destruct (db !! k) as [v|] eqn:Hk; [done|].
      destruct (decide (primary_key r = k)) as [E|]; [congruence | done].
    + destruct (decide (primary_key r = k)) as [<-|Hne].
      * by rewrite lookup_insert_eq, Hr.
      * by rewrite lookup_insert_ne.
Qed.

Lemma head_filter_is_Some {A} (P : A -> Prop) `{!forall x, Decision (P x)} (l : list A) :
  is_Some (head (filter P l)) <-> exists x, x ∈ l /\ P x.
Proof.
  induction l as [|y l IH].
  - split; [by intros [? ?] | by intros (x & ?%elem_of_nil & _)].
  - rewrite filter_cons. destruct (decide (P y)) as [Hy|Hy].
    + split; [|by eexists]. intros _. exists y. split; [by left | done].
    + rewrite IH. split.
      * intros (x & Hx & HP). exists x. split; [by right | done].
      * intros (x & [->|Hx]%elem_of_cons & HP); [done | by exists x].
Qed.

(** X4: A batch with a row and without a NaN (within the parameters of one
    statement) is inserted without an error; after it a key holds the rate it
    held before, or else the rate of the first row of the batch with that key;
    the keys of the table are the old ones and those of the batch. *)
Theorem insert_first_wins (rows : list ExchangeRates) (db : store) :
  accepted rows ->
  exists db',
    insert rows db = Returns db'
    /\ (forall k,
          db' !! k
          = match db !! k with
            | Some v => Some v
            | None => currency_rate <$> head (filter (fun r => primary_key r = k) rows)
            end)
    /\ dom db' = dom db ∪ list_to_set (primary_key <$> rows).
Proof.
  intros Hacc. exists (fold_left insert_row rows db).
  split; [by apply insert_accepted|].
  split; [apply insert_lookup_first|].
  apply set_eq. intros k.
  rewrite elem_of_union, !elem_of_dom, elem_of_list_to_set, list_elem_of_fmap.
  rewrite insert_lookup_first. destruct (db !! k) as [v|] eqn:Hk.
  - split; [by left | by eexists].
  - rewrite fmap_is_Some, head_filter_is_Some. split.
    + intros (r & Hr & <-). right. by exists r.
    + intros [[? ?] | (r & -> & Hr)]; [done | by exists r].
Qed.

Lemma insert_first_wins_witness :
  exists db',
    insert [mk_row (jan 2) "USD" (Fin 5); mk_row (jan 3) "USD" (Fin 6);
            mk_row (jan 3) "USD" (Fin 7)]
           {[ (jan 2, "USD"%string) := Fin 4 ]} = Returns db'
    /\ db' !! (jan 2, "USD"%string) = Some (Fin 4)
    /\ db' !! (jan 3, "USD"%string) = Some (Fin 6).
Proof.
  destruct (insert_first_wins
              [mk_row (jan 2) "USD" (Fin 5); mk_row (jan 3) "USD" (Fin 6);
               mk_row (jan 3) "USD" (Fin 7)]
              {[ (jan 2, "USD"%string) := Fin 4 ]}) as (db' & Hret & Hlookup & _).
  - split; [done|]. split; [by vm_compute | by repeat constructor].
  - exists db'. split; [done|]. rewrite !Hlookup. split; by vm_compute.
Defined.

Lemma insert_rows_commute (rows1 rows2 : list ExchangeRates) (db : store) :
  (forall r1 r2, r1 ∈ rows1 -> r2 ∈ rows2 -> primary_key r1 <> primary_key r2) ->
  fold_left insert_row rows1 (fold_left insert_row rows2 db)
  = fold_left insert_row rows2 (fold_left insert_row rows1 db).
Proof.
  intros Hdisj. apply map_eq. intros k. rewrite !insert_lookup_first.
  destruct (db !! k) as [v|]; [done|].
  destruct (head (filter (fun r => primary_key r = k) rows1)) as [r1|] eqn:H1;
    destruct (head (filter (fun r => primary_key r = k) rows2)) as [r2|] eqn:H2;
    simpl; try done.
  exfalso.
  assert (is_Some (head (filter (fun r => primary_key r = k) rows1))) as Hs1 by (by eexists).
  assert (is_Some (head (filter (fun r => primary_key r = k) rows2))) as Hs2 by (by eexists).
  apply head_filter_is_Some in Hs1 as (x1 & Hx1 & E1).
  apply head_filter_is_Some in Hs2 as (x2 & Hx2 & E2).
  apply (Hdisj x1 x2 Hx1 Hx2). congruence.
Qed.

(** X5: Two batches that share no key, each with a row and without a NaN (and
    within the parameters of one statement), can be inserted in either order:
    both orders return, and with the same table. *)
Theorem insert_disjoint_batches_commute (rows1 rows2 : list ExchangeRates) (db : store) :
  accepted rows1 -> accepted rows2 ->
  (forall r1 r2, r1 ∈ rows1 -> r2 ∈ rows2 -> primary_key r1 <> primary_key r2) ->
  exists db',
    (db2 ← insert rows2 db; insert rows1 db2) = Returns db'
    /\ (db1 ← insert rows1 db; insert rows2 db1) = Returns db'.
Proof.
  intros Hacc1 Hacc2 Hdisj.
  exists (fold_left insert_row rows1 (fold_left insert_row rows2 db)).
  rewrite (insert_accepted rows2 db Hacc2), (insert_accepted rows1 db Hacc1).
  cbn [mbind outcome_bind].
  rewrite (insert_accepted rows1 _ Hacc1), (insert_accepted rows2 _ Hacc2).
  split; [done|]. by rewrite (insert_rows_commute rows1 rows2 db Hdisj).
Qed.

Lemma insert_disjoint_batches_commute_witness :
  exists db',
    (db2 ← insert [mk_row (jan 2) "EUR" (Fin 5)] ∅;
     insert [mk_row (jan 2) "USD" (Fin 4)] db2) = Returns db'
    /\ (db1 ← insert [mk_row (jan 2) "USD" (Fin 4)] ∅;
        insert [mk_row (jan 2) "EUR" (Fin 5)] db1) = Returns db'.
Proof.
  apply insert_disjoint_batches_commute.
  - split; [done|]. split; [by vm_compute | by repeat constructor].
  - split; [done|]. split; [by vm_compute | by repeat constructor].
  - intros r1 r2 ->%list_elem_of_singleton ->%list_elem_of_singleton. by vm_compute.
Defined.

(** ** From a response to the table and back *)

Lemma head_filter_NoDup {A B} `{EqDecision B} (f : A -> B) (l : list A) (x : A) :
  NoDup (f <$> l) -> x ∈ l -> head (filter (fun y => f y = f x) l) = Some x.
Proof.
  induction l as [|y l IH]; intros Hnd Hx; [by apply elem_of_nil in Hx|].
  rewrite fmap_cons in Hnd. apply NoDup_cons in Hnd as [Hy Hnd].
  rewrite filter_cons. apply elem_of_cons in Hx as [->|Hx].
  - by rewrite decide_True.
  - rewrite decide_False; [by apply IH|].
    intros E. apply Hy. rewrite E. by apply list_elem_of_fmap_2.
Qed.

Lemma align_storable (response : response_json) :
  storable response ->
  _align_json_data_with_database_model response
  = Returns match response with
            | CurrencyRates code rates =>
                map (fun '(effectiveDate, mid) => mk_row effectiveDate code mid) rates
            | TableRates effectiveDate rates =>
                map (fun '(code, mid) => mk_row effectiveDate code mid) rates
            end.
Proof.
  intros (rows & Ha & _). by destruct response as [[|c code] rates|d rates].
Qed.

(** X6: A response that is storable (of a currency with a code that is not
    empty, or the table of a day; with an entry, and without a NaN) is saved
    without an error; when its entries have distinct dates (distinct codes,
    for a table), it is read back from the table rate by rate, wherever the
    key was free before the save. *)
Theorem saved_response_read_back (db : store) :
  (forall code (rates : list (Z * pyfloat)) d mid,
      storable (CurrencyRates code rates) ->
      NoDup rates.*1 -> (d, mid) ∈ rates -> db !! (d, code) = None ->
      exists input_data db',
        _align_json_data_with_database_model (CurrencyRates code rates)
          = Returns input_data
        /\ save_data_into_database input_data db = Returns db'
        /\ db' !! (d, code) = Some mid)
  /\ (forall effectiveDate (rates : list (string * pyfloat)) code mid,
        storable (TableRates effectiveDate rates) ->
        NoDup rates.*1 -> (code, mid) ∈ rates -> db !! (effectiveDate, code) = None ->
        exists input_data db',
          _align_json_data_with_database_model (TableRates effectiveDate rates)
            = Returns input_data
          /\ save_data_into_database input_data db = Returns db'
          /\ db' !! (effectiveDate, code) = Some mid).
Proof.
  split.
  - intros code rates d mid Hst Hnd Hin Hfree.
    pose proof (align_storable _ Hst) as Ha. destruct Hst as (rows & Ha' & Hacc).
    rewrite Ha in Ha'. injection Ha' as <-.
    eexists _, _. split; [exact Ha|].
    split; [by apply insert_accepted|].
    rewrite insert_lookup_first, Hfree.
    change (map ?f rates) with (f <$> rates).
    set (mk := fun '(effectiveDate, mid) => mk_row effectiveDate code mid).
    assert (head (filter (fun r => primary_key r = (d, code)) (mk <$> rates))
            = Some (mk_row d code mid)) as ->; [|done].
    apply (head_filter_NoDup primary_key (mk <$> rates) (mk (d, mid))).
    + assert (primary_key <$> (mk <$> rates) = (fun d => (d, code)) <$> rates.*1) as ->.
      { rewrite <- !list_fmap_compose. apply list_fmap_ext. by intros i [??] _. }
      apply NoDup_fmap_2; [|done]. by intros ?? [= ->].
    + by apply list_elem_of_fmap_2.
  - intros effectiveDate rates code mid Hst Hnd Hin Hfree.
    pose proof (align_storable _ Hst) as Ha. destruct Hst as (rows & Ha' & Hacc).
    rewrite Ha in Ha'. injection Ha' as <-.
    eexists _, _. split; [exact Ha|].
    split; [by apply insert_accepted|].
    rewrite insert_lookup_first, Hfree.
    change (map ?f rates) with (f <$> rates).
    set (mk := fun '(code, mid) => mk_row effectiveDate code mid).
    assert (head (filter (fun r => primary_key r = (effectiveDate, code)) (mk <$> rates))
            = Some (mk_row effectiveDate code mid)) as ->; [|done].
    apply (head_filter_NoDup primary_key (mk <$> rates) (mk (code, mid))).
    + assert (primary_key <$> (mk <$> rates)
              = (fun c => (effectiveDate, c)) <$> rates.*1) as ->.
      { rewrite <- !list_fmap_compose. apply list_fmap_ext. by intros i [??] _. }
      apply NoDup_fmap_2; [|done]. by intros ?? [= ->].
    + by apply list_elem_of_fmap_2.
Qed.

Lemma saved_response_read_back_witness :
  exists input_data db',
    _align_json_data_with_database_model
      (CurrencyRates "USD" [(jan 2, Fin 4); (jan 3, Fin 5)]) = Returns input_data
    /\ save_data_into_database input_data ∅ = Returns db'
    /\ db' !! (jan 3, "USD"%string) = Some (Fin 5).
Proof.
  apply (proj1 (saved_response_read_back ∅)).
  - eexists. split; [reflexivity|].
    split; [done|]. split; [by vm_compute | by repeat constructor].
  - apply (bool_decide_unpack _). by vm_compute.
  - apply elem_of_cons. right. apply elem_of_cons. by left.
  - done.
Defined.

(** A response with the empty code, or with a NaN, or without an entry is not
    saved: the call ends in the error of the lookup or of the insert. *)
Lemma unstorable_responses (db : store) :
  (input_data ← _align_json_data_with_database_model (CurrencyRates "" [(jan 2, Fin 4)]);
   save_data_into_database input_data db) = Raises KeyError
  /\ (input_data ← _align_json_data_with_database_model
                     (CurrencyRates "USD" [(jan 2, NaN)]);
      save_data_into_database input_data db) = Raises IntegrityError
  /\ (input_data ← _align_json_data_with_database_model (CurrencyRates "USD" []);
      save_data_into_database input_data db) = Raises OperationalError.
Proof. by repeat split. Qed.

(** ** What a call of [gather_data_for_date_range] does to the table *)

(** What [gather_data_for_date_range] returns, in terms of the missing ranges
    and of the responses to their requests: the batches of the responses,
    inserted one after the other. *)
Lemma gather_returns (requests_get : nbp_uri -> outcome http_response)
    (get_dates_with_records : store -> Z -> Z -> option (list string) -> list (list Z))
    (start_date end_date : Z) (currency_codes : option (list string))
    (db db' : store) :
  gather_data_for_date_range requests_get get_dates_with_records
    start_date end_date currency_codes db = Returns db' ->
  exists missing,
    _calculate_missing_date_intervals start_date end_date
      (get_dates_with_records db start_date end_date currency_codes) = Returns missing
    /\ (missing = [] /\ db' = db
        \/ exists responses batches,
             request_data_from_nbp_database requests_get missing currency_codes
               = Returns responses
             /\ Forall2 (fun response input_data =>
                           _align_json_data_with_database_model response
                           = Returns input_data
                           /\ accepted input_data) responses batches
             /\ db' = fold_left insert_row (concat batches) db).
Proof.
  unfold gather_data_for_date_range.
  destruct (_calculate_missing_date_intervals _ _ _) as [missing|e]; simpl; [|done].
  intros H. exists missing. split; [done|].
  destruct missing as [|g missing]; [left; by injection H as <-|right].
  unfold _collect_missing_data_from_nbp_api in H.
  destruct (request_data_from_nbp_database _ _ _) as [responses|e]; simpl in H; [|done].
  destruct (for_each collect_step responses (false, db)) as [[collected db1]|e] eqn:Hloop;
    simpl in H; [|done].
  apply collected_returns in Hloop as (_ & batches & HF & Hdb). simpl in Hdb.
  exists responses, batches. split; [done|]. split; [done|].
  destruct (negb collected && _); [done|]. injection H as <-. done.
Qed.

(** X7: A call that returns has kept every row of the table with its rate, and
    every key it added is the key of a row of a response to one of its
    requests. *)
Theorem gather_only_adds_fetched_rows
    (requests_get : nbp_uri -> outcome http_response)
    (get_dates_with_records : store -> Z -> Z -> option (list string) -> list (list Z))
    (start_date end_date : Z) (currency_codes : option (list string)) (db db' : store) :
  gather_data_for_date_range requests_get get_dates_with_records
    start_date end_date currency_codes db = Returns db' ->
  db ⊆ db'
  /\ (forall k, db !! k = None -> is_Some (db' !! k) ->
      exists missing responses response input_data r,
        _calculate_missing_date_intervals start_date end_date
          (get_dates_with_records db start_date end_date currency_codes)
          = Returns missing
        /\ request_data_from_nbp_database requests_get missing currency_codes
           = Returns responses
        /\ response ∈ responses
        /\ _align_json_data_with_database_model response = Returns input_data
        /\ r ∈ input_data
        /\ primary_key r = k).
Proof.
  intros (missing & Hcalc & [[-> ->] | (responses & batches & Hreq & HF & ->)])%gather_returns.
  - split; [done|]. intros k Hk [v Hv]. congruence.
  - split.
    + apply map_subseteq_spec. intros k v Hk. by apply insert_keeps.
    + intros k Hk Hsome. rewrite insert_lookup_first, Hk in Hsome.
      apply fmap_is_Some, head_filter_is_Some in Hsome as (r & Hr & Hkey).
      apply list_elem_of_In, in_concat in Hr
        as (rows & Hrows%list_elem_of_In & Hr%list_elem_of_In).
      apply list_elem_of_lookup in Hrows as [i Hi].
      destruct (Forall2_lookup_r _ _ _ _ _ HF Hi) as (response & Hresp & Ha & _).
      exists missing, responses, response, rows, r.
      repeat split; try done. by eapply list_elem_of_lookup_2.
Qed.

Lemma gather_only_adds_fetched_rows_witness :
  (∅ : store) ⊆ {[ (jan 2, "USD"%string) := Fin 4 ]}.
Proof.
  apply (gather_only_adds_fetched_rows
           (fun _ => Returns (mk_response 200
                                (Some (JDict (CurrencyRates "USD" [(jan 2, Fin 4)])))))
           (fun _ _ _ _ => [[]])
           (jan 1) (jan 3) (Some ["USD"%string]) ∅).
  reflexivity.
Defined.

Lemma seqZ_sorted (m n : Z) : StronglySorted Z.lt (seqZ m n).
Proof.
  destruct (decide (n <= 0)); [rewrite seqZ_nil by lia; constructor|].
  replace n with (Z.of_nat (Z.to_nat n)) by lia.
  generalize (Z.to_nat n) as k. intros k. revert m.
  induction k as [|k IH]; intros m; [constructor|].
  rewrite seqZ_cons by lia. constructor.
  - replace (Z.pred (Z.of_nat (S k))) with (Z.of_nat k) by lia. apply IH.
  - apply Forall_seqZ. lia.
Qed.

(** Exact gaps of a range that is covered day by day: none. *)
Lemma exact_gaps_full_coverage start_date end_date gaps :
  exact_gaps start_date end_date (seqZ start_date (end_date - start_date + 1)) gaps ->
  gaps = [].
Proof.
  intros ([Hwf _] & Hfree & Hall). destruct gaps as [|g gaps]; [done|]. exfalso.
  apply Forall_inv in Hwf.
  assert (Hin : Exists (in_interval g.1) (g :: gaps)).
  { apply Exists_cons. left. unfold in_interval. lia. }
  apply (Hfree g.1); [|done]. apply elem_of_seqZ.
  assert (start_date <= g.1 <= end_date) by (apply Hall; by right). lia.
Qed.

(** When the coverage query answers with every day of the request, the call
    returns the table as it is: no request is sent. *)
Lemma gather_full_coverage
    (requests_get : nbp_uri -> outcome http_response)
    (get_dates_with_records : store -> Z -> Z -> option (list string) -> list (list Z))
    (start_date end_date : Z) (currency_codes : option (list string)) (db : store) :
  start_date <= end_date ->
  get_dates_with_records db start_date end_date currency_codes
    = _select (seqZ start_date (end_date - start_date + 1)) ->
  gather_data_for_date_range requests_get get_dates_with_records
    start_date end_date currency_codes db = Returns db.
Proof.
  intros Hse Hcov. unfold gather_data_for_date_range. rewrite Hcov.
  destruct (calculate_missing_exact_on_select start_date end_date
              (seqZ start_date (end_date - start_date + 1)) Hse)
    as (gaps & -> & Hexact).
  - apply seqZ_sorted.
  - apply Forall_forall. intros d Hd%elem_of_seqZ. lia.
  - by apply exact_gaps_full_coverage in Hexact as ->.
Qed.

(** X8: During an outage a call changes nothing: it ends in the [SystemExit] when
    the whole request is missing and returns the table as it is otherwise. *)
Theorem gather_during_outage
    (requests_get : nbp_uri -> outcome http_response)
    (get_dates_with_records : store -> Z -> Z -> option (list string) -> list (list Z))
    (start_date end_date : Z) (currency_codes : option (list string)) (db : store)
    (missing : list interval) :
  outage requests_get ->
  _calculate_missing_date_intervals start_date end_date
    (get_dates_with_records db start_date end_date currency_codes) = Returns missing ->
  gather_data_for_date_range requests_get get_dates_with_records
    start_date end_date currency_codes db
  = if bool_decide (missing = [(start_date, end_date)])
    then Raises (SystemExit no_data_msg) else Returns db.
Proof.
  intros Hout Hcalc. unfold gather_data_for_date_range. rewrite Hcalc. simpl.
  destruct missing as [|g missing]; [by rewrite bool_decide_eq_false_2|].
  unfold _collect_missing_data_from_nbp_api.
  rewrite (request_data_outage_eq requests_get _ _ Hout). simpl.
  repeat case_bool_decide; done.
Qed.

Lemma gather_during_outage_witness :
  gather_data_for_date_range (fun _ => Raises ConnectionError_)
    (fun _ _ _ _ => [[jan 2]]) (jan 1) (jan 3) None ∅ = Returns ∅.
Proof.
  apply (gather_during_outage (fun _ => Raises ConnectionError_)
           (fun _ _ _ _ => [[jan 2]]) (jan 1) (jan 3) None ∅
           [(jan 1, jan 1); (jan 3, jan 3)] connection_refused_outage).
  reflexivity.
Defined.

(** ** When the analytics return *)

Lemma chunk_step_empty iter_key st :
  chunk_step iter_key st [] = Raises IndexError.
Proof. by destruct st. Qed.

Lemma chunk_step_rows iter_key st (df_chunk : frame) :
  df_chunk <> [] -> exists st', chunk_step iter_key st df_chunk = Returns st'.
Proof.
  intros Hrows. unfold chunk_step. destruct st as [ext last_chunk].
  apply groupby_not_nil, last_is_Some in Hrows as [[name rows] ->]. by eexists.
Qed.

Lemma chunks_with_empty_frame iter_key (df_iter : list frame) st :
  Exists (fun c : frame => c = []) df_iter ->
  for_each (chunk_step iter_key) df_iter st = Raises IndexError.
Proof.
  intros Hempty. revert st. induction df_iter as [|c rest IH]; intros st.
  - by apply Exists_nil in Hempty.
  - cbn [for_each]. destruct c as [|r c].
    + by rewrite chunk_step_empty.
    + destruct (chunk_step_rows iter_key st (r :: c)) as [st' ->]; [done|].
      apply IH. by apply Exists_cons in Hempty as [?|?].
Qed.

(** X9: The analytics return exactly when every frame of the stream has rows; a
    frame without rows, as the one frame of an empty selection, makes them
    raise [IndexError]. *)
Theorem largest_returns_iff_rows (df_iter : list frame) :
  (Forall (fun c : frame => c <> []) df_iter
   /\ exists r, _get_largest_exchange_rate_increase_and_decrease df_iter = Returns r)
  \/ (Exists (fun c : frame => c = []) df_iter
      /\ _get_largest_exchange_rate_increase_and_decrease df_iter = Raises IndexError).
Proof.
  destruct (decide (Forall (fun c : frame => c <> []) df_iter)) as [Hrows|Hempty].
  - left. split; [done|]. by apply largest_returns.
  - right. apply not_Forall_Exists in Hempty; [|apply _].
    assert (Exists (fun c : frame => c = []) df_iter) as Hex.
    { eapply Exists_impl; [exact Hempty|]. simpl. intros c Hc.
      by destruct (decide (c = [])). }
    split; [done|].
    unfold _get_largest_exchange_rate_increase_and_decrease,
      largest_increase_and_decrease_with.
    by rewrite chunks_with_empty_frame.
Qed.

(** ** Rises and falls of special sequences *)

Lemma reverse_pair {A} (l : list A) i j x y :
  (i <= j)%nat -> reverse l !! i = Some x -> reverse l !! j = Some y ->
  exists i' j', (i' <= j')%nat /\ l !! i' = Some y /\ l !! j' = Some x.
Proof.
  intros Hij Hx Hy.
  pose proof (lookup_lt_Some _ _ _ Hx) as Hi. pose proof (lookup_lt_Some _ _ _ Hy) as Hj.
  rewrite length_reverse in Hi, Hj.
  rewrite reverse_lookup in Hx, Hy by done.
  eexists _, _. split; [|split; [exact Hy | exact Hx]]. lia.
Qed.

Lemma fsub_Fin_canonical (x y : Q) : canonical (fsub (Fin y) (Fin x)).
Proof.
  cbn [fsub]. unfold round_to_double, round_positive.
  destruct (Qcompare _ _); [done| |];
    destruct (Qle_bool _ _); simpl; try done; apply Qred_complete, Qred_correct.
Qed.

Lemma float_eq_canonical (a b : pyfloat) :
  float_eq a b -> canonical a -> canonical b -> a = b.
Proof.
  intros [Hab Hba] Ha Hb. destruct a as [| |p|], b as [| |q|]; simpl in *; try done.
  apply Qle_bool_iff in Hab, Hba. rewrite <- Ha, <- Hb. f_equal.
  apply Qred_complete. by apply Qle_antisym.
Qed.

Lemma largest_rise_unique (rates : list Q) (v w : pyfloat) :
  largest_rise rates v -> largest_rise rates w -> v = w.
Proof.
  intros (Hv0 & Hvb & Hva) (Hw0 & Hwb & Hwa).
  apply float_eq_canonical.
  - split.
    + destruct Hva as [-> | (i & j & x & y & Hij & Hx & Hy & ->)]; [done | by eapply Hwb].
    + destruct Hwa as [-> | (i & j & x & y & Hij & Hx & Hy & ->)]; [done | by eapply Hvb].
  - destruct Hva as [-> | (i & j & x & y & _ & _ & _ & ->)];
      [done | apply fsub_Fin_canonical].
  - destruct Hwa as [-> | (i & j & x & y & _ & _ & _ & ->)];
      [done | apply fsub_Fin_canonical].
Qed.

Lemma largest_fall_unique (rates : list Q) (v w : pyfloat) :
  largest_fall rates v -> largest_fall rates w -> v = w.
Proof.
  intros (Hv0 & Hvb & Hva) (Hw0 & Hwb & Hwa).
  apply float_eq_canonical.
  - split.
    + destruct Hva as [-> | (i & j & x & y & Hij & Hx & Hy & ->)]; [done | by eapply Hwb].
    + destruct Hwa as [-> | (i & j & x & y & Hij & Hx & Hy & ->)]; [done | by eapply Hvb].
  - destruct Hva as [-> | (i & j & x & y & _ & _ & _ & ->)];
      [done | apply fsub_Fin_canonical].
  - destruct Hwa as [-> | (i & j & x & y & _ & _ & _ & ->)];
      [done | apply fsub_Fin_canonical].
Qed.

Lemma largest_rise_reverse (rates : list Q) (v : pyfloat) :
  largest_rise (reverse rates) v -> largest_fall rates v.
Proof.
  intros (H0 & Hub & Hatt). split; [done|]. split.
  - intros i j x y Hij Hx Hy.
    rewrite <- (reverse_involutive rates) in Hx, Hy.
    destruct (reverse_pair _ i j x y Hij Hx Hy) as (i' & j' & Hij' & Hy' & Hx').
    exact (Hub _ _ _ _ Hij' Hy' Hx').
  - destruct Hatt as [-> | (i & j & x & y & Hij & Hx & Hy & ->)]; [by left|].
    destruct (reverse_pair rates i j x y Hij Hx Hy) as (i' & j' & Hij' & Hy' & Hx').
    right. by exists i', j', y, x.
Qed.

Lemma largest_fall_reverse (rates : list Q) (v : pyfloat) :
  largest_fall (reverse rates) v -> largest_rise rates v.
Proof.
  intros (H0 & Hub & Hatt). split; [done|]. split.
  - intros i j x y Hij Hx Hy.
    rewrite <- (reverse_involutive rates) in Hx, Hy.
    destruct (reverse_pair _ i j x y Hij Hx Hy) as (i' & j' & Hij' & Hy' & Hx').
    exact (Hub _ _ _ _ Hij' Hy' Hx').
  - destruct Hatt as [-> | (i & j & x & y & Hij & Hx & Hy & ->)]; [by left|].
    destruct (reverse_pair rates i j x y Hij Hx Hy) as (i' & j' & Hij' & Hy' & Hx').
    right. by exists i', j', y, x.
Qed.

(** X10: Read backwards, a sequence of rates has its largest increase and its
    largest decrease exchanged: the same two floats, the differences being
    rounded to binary64 as the code computes them. *)
Theorem find_largest_reverse (rates : list Q) :
  _find_largest_increase_and_decrease (map Fin (reverse rates))
  = ((_find_largest_increase_and_decrease (map Fin rates)).2,
     (_find_largest_increase_and_decrease (map Fin rates)).1).
Proof.
  destruct (find_largest_spec rates) as [Hmi Hmd].
  destruct (find_largest_spec (reverse rates)) as [Hmi' Hmd'].
  destruct (_find_largest_increase_and_decrease (map Fin (reverse rates))) as [mi' md'].
  destruct (_find_largest_increase_and_decrease (map Fin rates)) as [mi md].
  cbn [fst snd] in *. f_equal.
  - apply (largest_fall_unique rates); [by apply largest_rise_reverse | done].
  - apply (largest_rise_unique rates); [by apply largest_fall_reverse | done].
Qed.

(** X11: On rates that never fall the largest decrease is 0 and the largest
    increase is the float difference of the last rate and the first; on rates
    that never rise it is the other way round. *)
Theorem find_largest_monotone (first : Q) (rest : list Q) (final : Q) :
  last (first :: rest) = Some final ->
  ((forall i j x y, (i <= j)%nat -> (first :: rest) !! i = Some x ->
       (first :: rest) !! j = Some y -> (x <= y)%Q) ->
   _find_largest_increase_and_decrease (map Fin (first :: rest))
   = (fsub (Fin final) (Fin first), Fin 0))
  /\ ((forall i j x y, (i <= j)%nat -> (first :: rest) !! i = Some x ->
          (first :: rest) !! j = Some y -> (y <= x)%Q) ->
      _find_largest_increase_and_decrease (map Fin (first :: rest))
      = (Fin 0, fsub (Fin first) (Fin final))).
Proof.
  intros Hlast.
  destruct (find_largest_spec (first :: rest)) as [Hmi Hmd].
  destruct (_find_largest_increase_and_decrease (map Fin (first :: rest))) as [mi md].
  cbn [fst snd] in *.
  assert (Hfirst : (first :: rest) !! 0%nat = Some first) by done.
  assert (Hfinal : (first :: rest) !! (length (first :: rest) - 1)%nat = Some final).
  { rewrite last_lookup in Hlast. simpl in *. by rewrite Nat.sub_0_r. }
  assert (H0n : (0 <= length (first :: rest) - 1)%nat) by lia.
  assert (Hin : forall i x, (first :: rest) !! i = Some x ->
                  (0 <= i)%nat /\ (i <= length (first :: rest) - 1)%nat).
  { intros i x Hx. apply lookup_lt_Some in Hx. lia. }
  split; intros Hmono; f_equal.
  - apply (largest_rise_unique (first :: rest)); [done|].
    pose proof (Hmono _ _ _ _ H0n Hfirst Hfinal).
    split; [apply round_to_double_nonneg; lra|]. split.
    + intros i j x y Hij Hx Hy. apply fsub_Fin_mono.
      destruct (Hin _ _ Hx) as [Hi0 _], (Hin _ _ Hy) as [_ Hjn].
      pose proof (Hmono _ _ _ _ Hi0 Hfirst Hx). pose proof (Hmono _ _ _ _ Hjn Hy Hfinal).
      lra.
    + right. by exists 0%nat, (length (first :: rest) - 1)%nat, first, final.
  - apply (largest_fall_unique (first :: rest)); [done|].
    split; [done|]. split; [|by left].
    intros i j x y Hij Hx Hy. apply round_to_double_nonpos.
    pose proof (Hmono _ _ _ _ Hij Hx Hy). lra.
  - apply (largest_rise_unique (first :: rest)); [done|].
    split; [done|]. split; [|by left].
    intros i j x y Hij Hx Hy. apply round_to_double_nonpos.
    pose proof (Hmono _ _ _ _ Hij Hx Hy). lra.
  - apply (largest_fall_unique (first :: rest)); [done|].
    pose proof (Hmono _ _ _ _ H0n Hfirst Hfinal).
    split; [apply round_to_double_nonneg; lra|]. split.
    + intros i j x y Hij Hx Hy. apply fsub_Fin_mono.
      destruct (Hin _ _ Hx) as [Hi0 _], (Hin _ _ Hy) as [_ Hjn].
      pose proof (Hmono _ _ _ _ Hi0 Hfirst Hx). pose proof (Hmono _ _ _ _ Hjn Hy Hfinal).
      lra.
    + right. by exists 0%nat, (length (first :: rest) - 1)%nat, first, final.
Qed.

Lemma find_largest_monotone_witness :
  _find_largest_increase_and_decrease (map Fin [1; 1.25; 1.5; 1.75; 2]%Q)
  = (Fin 1, Fin 0).
Proof.
  destruct (find_largest_monotone 1 [1.25; 1.5; 1.75; 2]%Q 2 eq_refl) as [Hup _].
  rewrite Hup; [by vm_compute|].
  intros i j x y Hij Hi Hj.
  do 5 (destruct i as [|i];
        [do 5 (destruct j as [|j]; [simplify_eq/=; try lia; by vm_compute|]);
         by destruct j|]).
  by destruct i.
Defined.

(** ** What the analytics compute over a stream *)

(** The running extremum over the groups [groups], from [(None, -inf)] on:
    replaced on strict improvement only. *)
Lemma running_best (val : string * frame -> pyfloat) (groups : list (string * frame)) :
  groups <> [] ->
  Forall (fun g => fle (Fin 0) (val g) = true) groups ->
  exists g,
    fold_left (fun c g => if flt (value c) (val g)
                          then mk_curr_map (LTuple g.1) (val g) else c)
              groups no_data
    = mk_curr_map (LTuple g.1) (val g)
    /\ first_best val groups g.
Proof.
  induction groups as [|g groups IH] using rev_ind; intros Hne Hnn; [done|].
  apply Forall_app in Hnn as [Hnn Hg]. apply Forall_inv in Hg.
  rewrite fold_left_app. cbn [fold_left].
  destruct (decide (groups = [])) as [->|Hgroups].
  - exists g.
    assert (flt (value no_data) (val g) = true) as Hlt by (by destruct (val g)).
    cbn [fold_left]. rewrite Hlt.
    split; [done|]. exists [], []. split; [done|]. split; [constructor|].
    constructor; [|constructor]. by apply fle_refl_nonneg.
  - destruct (IH Hgroups Hnn) as (gb & -> & before & after & Hsplit & Hbefore & Hall).
    assert (Hgb : fle (Fin 0) (val gb) = true).
    { rewrite Forall_forall in Hnn. apply Hnn. rewrite Hsplit.
      apply elem_of_app. right. by left. }
    cbn [value]. destruct (flt (val gb) (val g)) eqn:Hlt.
    + exists g. split; [done|]. exists groups, []. split; [done|]. split.
      * eapply Forall_impl; [exact Hall|]. simpl. intros g' Hg'.
        by eapply fle_flt_trans.
      * apply Forall_app. split.
        -- eapply Forall_impl; [exact Hall|]. simpl. intros g' Hg'.
           eapply fle_trans; [exact Hg'|]. by apply flt_fle.
        -- constructor; [|constructor]. by apply fle_refl_nonneg.
    + exists gb. split; [done|]. exists before, (after ++ [g]). split.
      * rewrite Hsplit. by rewrite <- app_assoc.
      * split; [done|]. apply Forall_app. split; [done|].
        constructor; [|constructor]. by apply flt_false_fle.
Qed.

(** Without a carry, a group changes each running extremum on its own. *)
Lemma group_step_no_carry (st : extrema) (g : string * frame) :
  group_step LTuple (mk_curr_map LNone None) st g
  = (if flt (value st.1) (group_rise g)
     then mk_curr_map (LTuple g.1) (group_rise g) else st.1,
     if flt (value st.2) (group_fall g)
     then mk_curr_map (LTuple g.1) (group_fall g) else st.2).
Proof.
  destruct st as [inc dec]. unfold group_step, group_rise, group_fall. simpl.
  by destruct (_find_largest_increase_and_decrease _).
Qed.

Lemma groups_fold_no_carry (groups : list (string * frame)) (st : extrema) :
  fold_left (group_step LTuple (mk_curr_map LNone None)) groups st
  = (fold_left (fun c g => if flt (value c) (group_rise g)
                           then mk_curr_map (LTuple g.1) (group_rise g) else c)
               groups st.1,
     fold_left (fun c g => if flt (value c) (group_fall g)
                           then mk_curr_map (LTuple g.1) (group_fall g) else c)
               groups st.2).
Proof.
  revert st. induction groups as [|g groups IH]; intros st; [by destruct st|].
  cbn [fold_left]. by rewrite IH, group_step_no_carry.
Qed.

Lemma chunk_step_at iter_key ext last_chunk (df_chunk : frame) name rows :
  last (groupby df_chunk) = Some (name, rows) ->
  chunk_step iter_key (ext, last_chunk) df_chunk
  = Returns (fold_left (group_step iter_key last_chunk) (groupby df_chunk) ext,
             mk_curr_map (LStr name) (Some rows)).
Proof. intros Hlast. unfold chunk_step. by rewrite Hlast. Qed.

(** The loop over the frames, as one loop over the groups of all frames. *)
Lemma frames_as_groups (df_iter : list frame) (ext : extrema)
    (last_chunk : curr_map (option frame)) :
  Forall (fun c : frame => c <> []) df_iter ->
  curr_code last_chunk = LNone \/ (exists name, curr_code last_chunk = LStr name) ->
  exists last_chunk',
    for_each (chunk_step LTuple) df_iter (ext, last_chunk)
    = Returns (fold_left (group_step LTuple (mk_curr_map LNone None))
                         (flat_map groupby df_iter) ext, last_chunk').
Proof.
  intros Hrows. revert ext last_chunk.
  induction Hrows as [|c rest Hc _ IH]; intros ext last_chunk Hlabel.
  - by exists last_chunk.
  - cbn [for_each flat_map]. rewrite fold_left_app.
    apply groupby_not_nil, last_is_Some in Hc as [[name rows] Hlast].
    rewrite (chunk_step_at _ _ _ _ _ _ Hlast). cbn [mbind outcome_bind].
    assert (fold_left (group_step LTuple last_chunk) (groupby c) ext
            = fold_left (group_step LTuple (mk_curr_map LNone None)) (groupby c) ext)
      as ->.
    { generalize (groupby c) as groups. intros groups. revert ext.
      induction groups as [|g groups IHg]; intros ext; [done|].
      cbn [fold_left]. by rewrite IHg, (carry_never_merged last_chunk). }
    apply IH. right. by eexists.
Qed.

Lemma largest_first_best (df_iter : list frame) :
  df_iter <> [] ->
  Forall (fun c : frame => c <> []) df_iter ->
  exists gi gd,
    _get_largest_exchange_rate_increase_and_decrease df_iter
    = Returns (mk_curr_map (LTuple gi.1) (group_rise gi),
               mk_curr_map (LTuple gd.1) (group_fall gd))
    /\ first_best group_rise (flat_map groupby df_iter) gi
    /\ first_best group_fall (flat_map groupby df_iter) gd.
Proof.
  intros Hne Hrows.
  destruct (frames_as_groups df_iter (mk_curr_map LNone NInf, mk_curr_map LNone NInf)
              (mk_curr_map LNone None) Hrows)
    as [last_chunk' Hrun]; [by left|].
  unfold _get_largest_exchange_rate_increase_and_decrease,
    largest_increase_and_decrease_with.
  unfold extrema in *. rewrite Hrun. cbn [mbind outcome_bind fst].
  rewrite groups_fold_no_carry. cbn [fst snd]. fold no_data.
  assert (Hgroups : flat_map groupby df_iter <> []).
  { destruct Hrows as [|c rest Hc _]; [done|]. simpl.
    apply groupby_not_nil in Hc. by destruct (groupby c). }
  destruct (running_best group_rise _ Hgroups) as (gi & -> & Hgi).
  { apply Forall_forall. intros g _. apply find_nonneg. }
  destruct (running_best group_fall _ Hgroups) as (gd & -> & Hgd).
  { apply Forall_forall. intros g _. apply find_nonneg. }
  by exists gi, gd.
Qed.

(** X12: Over a stream whose frames all hold rows, the analytics return, for each
    direction, the first of the groups of all frames (frame after frame, the
    codes of a frame in ascending order) whose largest change is the
    greatest, with the code of that group and that change. *)
Theorem stream_extrema_are_first_best (df_iter : list frame) :
  df_iter <> [] ->
  Forall (fun c : frame => c <> []) df_iter ->
  exists gi gd,
    _get_largest_exchange_rate_increase_and_decrease df_iter
    = Returns (mk_curr_map (LTuple gi.1) (group_rise gi),
               mk_curr_map (LTuple gd.1) (group_fall gd))
    /\ first_best group_rise (flat_map groupby df_iter) gi
    /\ first_best group_fall (flat_map groupby df_iter) gd.
Proof. exact (largest_first_best df_iter). Qed.

Lemma stream_extrema_are_first_best_witness :
  exists gi gd,
    _get_largest_exchange_rate_increase_and_decrease usd_300_days_chunked
    = Returns (mk_curr_map (LTuple gi.1) (group_rise gi),
               mk_curr_map (LTuple gd.1) (group_fall gd))
    /\ first_best group_rise (flat_map groupby usd_300_days_chunked) gi
    /\ first_best group_fall (flat_map groupby usd_300_days_chunked) gd.
Proof.
  apply stream_extrema_are_first_best; [done|].
  repeat constructor; by vm_compute.
Defined.

(** ** Frames cut at the boundary of two currencies *)

Lemma code_lt_irrefl (k : string) : ~ code_lt k k.
Proof.
  unfold code_lt. intros Hlt. pose proof (String.compare_antisym k k) as Hanti.
  rewrite Hlt in Hanti. discriminate.
Qed.

Lemma insert_key_app (k : string) (l ks : list string) :
  Forall (code_lt k) ks -> insert_key k (l ++ ks) = insert_key k l ++ ks.
Proof.
  intros Hks. induction l as [|k' l IH]; simpl.
  - destruct Hks as [|k' ks Hk' _]; [done|]. simpl. by rewrite Hk'.
  - destruct (String.compare k k'); [done..|]. simpl. by rewrite IH.
Qed.

Lemma elem_of_insert_key (x k : string) (ks : list string) :
  x ∈ insert_key k ks <-> x = k \/ x ∈ ks.
Proof.
  induction ks as [|k' ks IH]; simpl.
  - rewrite list_elem_of_singleton, elem_of_nil. tauto.
  - destruct (String.compare k k') eqn:Hcmp.
    + apply String.compare_eq_iff in Hcmp as ->. rewrite elem_of_cons. tauto.
    + by rewrite elem_of_cons.
    + rewrite !elem_of_cons, IH. tauto.
Qed.

Lemma elem_of_group_keys (k : string) (df : frame) :
  k ∈ group_keys df <-> exists r, r ∈ df /\ currency_code r = k.
Proof.
  unfold group_keys. induction df as [|r df IH]; simpl.
  - split; [by intros ?%elem_of_nil | by intros (? & ?%elem_of_nil & _)].
  - rewrite elem_of_insert_key, IH. split.
    + intros [-> | (r' & Hr' & <-)]; [exists r | exists r']; split; auto; [by left | by right].
    + intros (r' & [-> | Hr']%elem_of_cons & <-); [by left|]. right. by exists r'.
Qed.

Lemma group_keys_app (a b : frame) :
  (forall r r', r ∈ a -> r' ∈ b -> code_lt (currency_code r) (currency_code r')) ->
  group_keys (a ++ b) = group_keys a ++ group_keys b.
Proof.
  intros Hlt. unfold group_keys. rewrite map_app, fold_right_app.
  fold (group_keys b). induction a as [|r a IH]; [done|]. simpl.
  rewrite IH by (intros; apply Hlt; [by right | done]).
  apply insert_key_app. apply Forall_forall. intros k (r' & Hr' & <-)%elem_of_group_keys.
  apply Hlt; [by left | done].
Qed.

Lemma get_group_app (a b : frame) (k : string) :
  get_group (a ++ b) k = get_group a k ++ get_group b k.
Proof. unfold get_group. apply List.filter_app. Qed.

Lemma get_group_absent (df : frame) (k : string) :
  (forall r, r ∈ df -> currency_code r <> k) -> get_group df k = [].
Proof.
  intros Habsent. unfold get_group. induction df as [|r df IH]; [done|]. simpl.
  destruct (String.eqb_spec (currency_code r) k) as [Heq|_].
  - by destruct (Habsent r); [left|].
  - apply IH. intros r' Hr'. apply Habsent. by right.
Qed.

Lemma groupby_app (a b : frame) :
  (forall r r', r ∈ a -> r' ∈ b -> code_lt (currency_code r) (currency_code r')) ->
  groupby (a ++ b) = groupby a ++ groupby b.
Proof.
  intros Hlt. unfold groupby. rewrite group_keys_app by done. rewrite map_app.
  f_equal; apply map_ext_in; intros k Hk; rewrite get_group_app; f_equal.
  - rewrite (get_group_absent b), app_nil_r; [done|].
    apply list_elem_of_In, elem_of_group_keys in Hk as (r & Hr & <-).
    intros r' Hr' Heq. apply (code_lt_irrefl (currency_code r)).
    rewrite <- Heq at 2. by apply Hlt.
  - rewrite (get_group_absent a); [done|].
    apply list_elem_of_In, elem_of_group_keys in Hk as (r' & Hr' & <-).
    intros r Hr Heq. apply (code_lt_irrefl (currency_code r')).
    rewrite <- Heq at 1. by apply Hlt.
Qed.

Lemma groupby_concat (df_iter : list frame) :
  frames_separated df_iter ->
  groupby (concat df_iter) = flat_map groupby df_iter.
Proof.
  induction df_iter as [|c rest IH]; intros Hsep; [done|]. simpl.
  rewrite groupby_app.
  - f_equal. apply IH. intros i j ci cj r r' Hij Hi Hj.
    apply (Hsep (S i) (S j)); [lia | done..].
  - intros r r' Hr (cj & Hcj & Hr')%list_elem_of_In%in_concat.
    apply list_elem_of_In, list_elem_of_lookup in Hcj as [j Hj].
    apply (Hsep 0%nat (S j) c cj); [lia | done | done | done | by apply list_elem_of_In].
Qed.

(** X13: Where no currency has rows in two frames of the stream (each frame ends
    where the rows of a currency end), the analytics of the stream are those
    of its rows taken as one frame. *)
Theorem aligned_frames_as_one (df_iter : list frame) :
  df_iter <> [] ->
  Forall (fun c : frame => c <> []) df_iter ->
  frames_separated df_iter ->
  _get_largest_exchange_rate_increase_and_decrease df_iter
  = _get_largest_exchange_rate_increase_and_decrease [concat df_iter].
Proof.
  intros Hne Hrows Hsep.
  assert (Hone : Forall (fun c : frame => c <> []) [concat df_iter]).
  { constructor; [|constructor]. destruct Hrows as [|c rest Hc _]; [done|].
    simpl. by destruct c. }
  destruct (frames_as_groups df_iter (mk_curr_map LNone NInf, mk_curr_map LNone NInf)
              (mk_curr_map LNone None) Hrows) as [last1 Hrun1]; [by left|].
  destruct (frames_as_groups [concat df_iter]
              (mk_curr_map LNone NInf, mk_curr_map LNone NInf)
              (mk_curr_map LNone None) Hone) as [last2 Hrun2]; [by left|].
  unfold _get_largest_exchange_rate_increase_and_decrease,
    largest_increase_and_decrease_with.
  unfold extrema in *. rewrite Hrun1, Hrun2. cbn [mbind outcome_bind fst flat_map].
  by rewrite app_nil_r, groupby_concat.
Qed.

Lemma aligned_frames_as_one_witness :
  _get_largest_exchange_rate_increase_and_decrease eur_then_usd
  = _get_largest_exchange_rate_increase_and_decrease [concat eur_then_usd].
Proof.
  apply aligned_frames_as_one; [done | by repeat constructor |].
  intros i j ci cj r r' Hij Hi Hj Hr Hr'.
  destruct i as [|[|i]], j as [|[|j]]; simplify_eq/=; try lia.
  apply elem_of_cons in Hr as [-> | Hr%elem_of_cons];
    apply elem_of_cons in Hr' as [-> | Hr'%elem_of_cons]; try done.
  all: repeat match goal with
         | H : _ \/ _ |- _ => destruct H as [-> | ?%elem_of_nil]
         end; done.
Defined.

(** ** The groups of a frame that is ordered by currency code *)

Lemma code_lt_trans (a b c : string) : code_lt a b -> code_lt b c -> code_lt a c.
Proof.
  unfold code_lt. intros Hab Hbc.
  apply OrderedTypeEx.String_as_OT.cmp_lt.
  eapply OrderedTypeEx.String_as_OT.lt_trans;
    by apply OrderedTypeEx.String_as_OT.cmp_lt.
Qed.

Lemma compare_refl (a : string) : String.compare a a = Eq.
Proof.
  pose proof (String.compare_antisym a a) as Hanti.
  by destruct (String.compare a a).
Qed.

Lemma code_lt_neq (a b : string) : code_lt a b -> a <> b.
Proof. intros Hlt ->. by apply code_lt_irrefl in Hlt. Qed.

(** The first key of a frame ordered by code is the code of its first row. *)
Lemma group_keys_head (r : ExchangeRates) (df : frame) :
  grouped_by_code (r :: df) ->
  exists ks, group_keys (r :: df) = currency_code r :: ks
             /\ Forall (code_lt (currency_code r)) ks
             /\ (match df with
                 | [] => ks = []
                 | r' :: _ =>
                     if String.eqb (currency_code r) (currency_code r')
                     then group_keys df = currency_code r :: ks
                     else group_keys df = ks
                 end).
Proof.
  revert r. induction df as [|r' df IH]; intros r Hsorted.
  - by exists [].
  - apply StronglySorted_inv in Hsorted as [Hdf Hr].
    destruct (IH r' Hdf) as (ks' & Hkeys & Hks' & _).
    apply Forall_inv in Hr.
    change (group_keys (r :: r' :: df))
      with (insert_key (currency_code r) (group_keys (r' :: df))).
    rewrite Hkeys. simpl.
    destruct (String.eqb_spec (currency_code r) (currency_code r')) as [Heq|Hne].
    + rewrite Heq, compare_refl. by exists ks'.
    + destruct Hr as [?|Hlt]; [done|]. rewrite Hlt.
      exists (currency_code r' :: ks'). split; [done|]. split; [|done].
      constructor; [done|]. eapply Forall_impl; [exact Hks'|].
      intros k Hk. by eapply code_lt_trans.
Qed.

Lemma get_group_cons_other (r : ExchangeRates) (df : frame) (k : string) :
  currency_code r <> k -> get_group (r :: df) k = get_group df k.
Proof.
  intros Hne. unfold get_group. simpl.
  by destruct (String.eqb_spec (currency_code r) k).
Qed.

Lemma get_group_cons_same (r : ExchangeRates) (df : frame) :
  get_group (r :: df) (currency_code r) = r :: get_group df (currency_code r).
Proof. unfold get_group. simpl. by rewrite String.eqb_refl. Qed.

Lemma groups_of_tail (r : ExchangeRates) (df : frame) (ks : list string) :
  Forall (code_lt (currency_code r)) ks ->
  map (fun k => (k, get_group (r :: df) k)) ks = map (fun k => (k, get_group df k)) ks.
Proof.
  intros Hks. apply map_ext_in. intros k Hk%list_elem_of_In.
  rewrite Forall_forall in Hks. rewrite get_group_cons_other; [done|].
  by apply code_lt_neq, Hks.
Qed.

(** A row put before a frame ordered by code joins the first group when it
    has its code, and is a group of its own before the others when not. *)
Lemma groupby_cons (r : ExchangeRates) (df : frame) :
  grouped_by_code (r :: df) ->
  groupby (r :: df)
  = match groupby df with
    | (k, rows) :: groups =>
        if String.eqb (currency_code r) k
        then (k, r :: rows) :: groups
        else (currency_code r, [r]) :: (k, rows) :: groups
    | [] => [(currency_code r, [r])]
    end.
Proof.
  intros Hsorted. destruct (group_keys_head r df Hsorted) as (ks & Hkeys & Hks & Hdf).
  unfold groupby. rewrite Hkeys. cbn [map]. rewrite get_group_cons_same.
  rewrite (groups_of_tail r df ks Hks).
  destruct df as [|r' df].
  - by subst ks.
  - apply StronglySorted_inv in Hsorted as [Hsorted' Hr].
    destruct (group_keys_head r' df Hsorted') as (ks' & Hkeys' & _).
    destruct (String.eqb_spec (currency_code r) (currency_code r')) as [Heq|Hne].
    + rewrite Hdf. cbn [map]. by rewrite String.eqb_refl.
    + assert (ks = currency_code r' :: ks') as -> by congruence.
      rewrite Hkeys'. cbn [map].
      destruct (String.eqb_spec (currency_code r) (currency_code r')); [done|].
      rewrite (get_group_absent (r' :: df)); [done|].
      intros r'' Hr''. apply not_eq_sym, code_lt_neq.
      apply Forall_inv in Hks.
      apply elem_of_cons in Hr'' as [->|Hr'']; [done|].
      apply Forall_inv_tail in Hr. rewrite Forall_forall in Hr.
      apply StronglySorted_inv in Hsorted' as [_ Hr'].
      rewrite Forall_forall in Hr'.
      destruct (Hr' r'' Hr'') as [<-|Hlt]; [done|]. by eapply code_lt_trans.
Qed.

(** ** The historical JSON report *)

Lemma StronglySorted_NoDup {A : Type} (R : A -> A -> Prop) (l : list A) :
  (forall x, ~ R x x) -> StronglySorted R l -> NoDup l.
Proof.
  intros Hirr. induction 1 as [|x l _ IH Hx]; constructor; [|done].
  intros Hin. rewrite Forall_forall in Hx. by apply (Hirr x), Hx.
Qed.

Lemma insert_key_sorted (k : string) (ks : list string) :
  StronglySorted code_lt ks -> StronglySorted code_lt (insert_key k ks).
Proof.
  induction 1 as [|k' ks Hks IH Hk']; simpl; [repeat constructor|].
  destruct (String.compare k k') eqn:Hcmp.
  - by constructor.
  - constructor; [by constructor|]. constructor; [done|].
    eapply Forall_impl; [exact Hk'|]. intros k'' Hk''. by eapply code_lt_trans.
  - constructor; [done|]. apply Forall_forall.
    intros x [->|Hx]%elem_of_insert_key.
    + unfold code_lt. rewrite String.compare_antisym, Hcmp. done.
    + rewrite Forall_forall in Hk'. by apply Hk'.
Qed.

Lemma group_keys_sorted (df : frame) : StronglySorted code_lt (group_keys df).
Proof.
  unfold group_keys. induction df as [|r df IH]; simpl; [constructor|].
  by apply insert_key_sorted.
Qed.

Lemma group_keys_NoDup (df : frame) : NoDup (group_keys df).
Proof.
  eapply StronglySorted_NoDup; [exact code_lt_irrefl | apply group_keys_sorted].
Qed.

Lemma count_NoDup (k : string) (ks : list string) :
  NoDup ks ->
  length (filter (fun k' => k' = k) ks) = if decide (k ∈ ks) then 1%nat else 0%nat.
Proof.
  induction 1 as [|k' ks Hk' _ IH]; [done|].
  rewrite filter_cons. destruct (decide (k' = k)) as [->|Hne].
  - simpl. rewrite IH. rewrite decide_False by done.
    by rewrite decide_True by (by left).
  - rewrite IH. destruct (decide (k ∈ ks)) as [Hin|Hnin].
    + by rewrite decide_True by (by right).
    + rewrite decide_False; [done|]. by intros [->|?]%elem_of_cons.
Qed.

(** With the 1-tuples pandas yields, a group is never merged into the last
    entry: every group adds its own. *)
Lemma historical_json_group_appends (json_report : list currency_report)
    (first_iter : bool) (g : string * frame) :
  historical_json_group_step LTuple (json_report, first_iter) g
  = Returns (json_report ++ [group_report g], false).
Proof.
  unfold historical_json_group_step. destruct first_iter; [|done].
  by destruct (last json_report).
Qed.

Lemma historical_json_groups (groups : list (string * frame))
    (json_report : list currency_report) (first_iter : bool) :
  exists first_iter',
    for_each (historical_json_group_step LTuple) groups (json_report, first_iter)
    = Returns (json_report ++ map group_report groups, first_iter').
Proof.
  revert json_report first_iter.
  induction groups as [|g groups IH]; intros json_report first_iter.
  - exists first_iter. by rewrite app_nil_r.
  - cbn [for_each]. rewrite historical_json_group_appends. cbn [mbind outcome_bind].
    destruct (IH (json_report ++ [group_report g]) false) as [first_iter' ->].
    exists first_iter'. by rewrite <- app_assoc.
Qed.

Lemma historical_json_entries (df_iter : list frame) :
  _generate_json_report_with_historical_data df_iter
  = Returns (map group_report (flat_map groupby df_iter)).
Proof.
  unfold _generate_json_report_with_historical_data, historical_json_report_with.
  change (map group_report (flat_map groupby df_iter))
    with ([] ++ map group_report (flat_map groupby df_iter)).
  generalize (@nil currency_report) as json_report.
  induction df_iter as [|c rest IH]; intros json_report.
  - by rewrite app_nil_r.
  - cbn [for_each flat_map].
    destruct (historical_json_groups (groupby c) json_report true) as [fi ->].
    cbn [mbind outcome_bind fst]. rewrite IH. by rewrite map_app, app_assoc.
Qed.

(** X14: The historical JSON report has one entry for every group of every frame,
    in the order of the stream: a currency has as many entries as there are
    frames that hold rows of it. *)
Theorem historical_json_entry_per_frame (df_iter : list frame) :
  exists json_report,
    _generate_json_report_with_historical_data df_iter = Returns json_report
    /\ json_report = map group_report (flat_map groupby df_iter)
    /\ forall code : string,
         length (filter (fun e => report_code e = code) json_report)
         = length (filter (Exists (fun r => currency_code r = code)) df_iter).
Proof.
  eexists. split; [apply historical_json_entries|]. split; [done|].
  intros code. induction df_iter as [|c rest IH]; [done|].
  cbn [flat_map]. rewrite map_app, filter_app, length_app, IH, filter_cons.
  assert (length (filter (fun e => report_code e = code) (map group_report (groupby c)))
          = if decide (Exists (fun r => currency_code r = code) c) then 1%nat else 0%nat)
    as ->; [|by destruct (decide _)].
  assert (filter (fun e => report_code e = code) (map group_report (groupby c))
          = map (fun k => group_report (k, get_group c k))
                (filter (fun k' => k' = code) (group_keys c))) as ->.
  { unfold groupby. induction (group_keys c) as [|k ks IHks]; [done|].
    cbn [map]. rewrite !filter_cons. cbn [group_report report_code fst].
    destruct (decide (k = code)); [cbn [map]|]; by rewrite IHks. }
  rewrite length_map, count_NoDup by apply group_keys_NoDup.
  destruct (decide (code ∈ group_keys c)) as [Hin|Hnin].
  - rewrite decide_True; [done|].
    apply elem_of_group_keys in Hin as (r & Hr & Hcode).
    apply Exists_exists. by exists r.
  - rewrite decide_False; [done|]. intros (r & Hr & Hcode)%Exists_exists.
    apply Hnin, elem_of_group_keys. by exists r.
Qed.

Lemma get_group_codes (df : frame) (k : string) :
  Forall (fun r => currency_code r = k) (get_group df k).
Proof.
  unfold get_group. apply Forall_forall. intros r Hr%list_elem_of_In.
  apply List.filter_In in Hr as [_ Hr]. by apply String.eqb_eq.
Qed.

Lemma report_rows_group (k : string) (rows : frame) :
  Forall (fun r => currency_code r = k) rows ->
  report_rows (group_report (k, rows)) = rows.
Proof.
  unfold report_rows, group_report. cbn [report_rates report_code fst snd].
  induction 1 as [|[d c rate] rows Hc _ IH]; [done|]. simpl in *. by rewrite IH, Hc.
Qed.

Lemma groups_concat (df : frame) :
  grouped_by_code df -> flat_map snd (groupby df) = df.
Proof.
  induction df as [|r df IH]; intros Hsorted; [done|].
  rewrite groupby_cons by done.
  apply StronglySorted_inv in Hsorted as [Hsorted _]. specialize (IH Hsorted).
  destruct (groupby df) as [|[k rows] groups] eqn:Hgroups.
  - destruct df; [done|]. by apply groupby_not_nil in Hgroups.
  - destruct (String.eqb (currency_code r) k); simpl in *; by rewrite IH.
Qed.

(** X15: Where every frame is ordered by currency code, as the query orders the
    rows, the entries of the historical JSON report hold the rows of the
    stream, each once and in the order of the stream. *)
Theorem historical_json_keeps_rows (df_iter : list frame) :
  Forall grouped_by_code df_iter ->
  exists json_report,
    _generate_json_report_with_historical_data df_iter = Returns json_report
    /\ flat_map report_rows json_report = concat df_iter.
Proof.
  intros Hsorted. eexists. split; [apply historical_json_entries|].
  induction Hsorted as [|c rest Hc _ IH]; [done|].
  cbn [flat_map concat]. rewrite map_app, flat_map_app, IH. f_equal.
  rewrite <- (groups_concat c Hc) at 2.
  unfold groupby. induction (group_keys c) as [|k ks IHks]; [done|].
  cbn [map flat_map snd]. rewrite IHks. f_equal.
  apply report_rows_group, get_group_codes.
Qed.

Lemma historical_json_keeps_rows_witness :
  exists json_report,
    _generate_json_report_with_historical_data eur_usd_cut = Returns json_report
    /\ flat_map report_rows json_report = concat eur_usd_cut.
Proof.
  apply historical_json_keeps_rows.
  repeat constructor; (by left) || (by right).
Defined.

(** ** The historical CSV report *)

Lemma historical_csv_group_rows (csv_report : option (list csv_write))
    (last_currency_code : label) (k : string) (r : ExchangeRates) (rows : frame) :
  currency_code r = k ->
  historical_csv_group_step LTuple (csv_report, last_currency_code) (k, r :: rows)
  = historical_csv_group_step LTuple
      (csv_row_step (csv_report, last_currency_code) r) (k, rows).
Proof.
  intros <-. unfold historical_csv_group_step, csv_row_step. cbn [fst snd].
  assert (label_eqb (LTuple (currency_code r)) (LTuple (currency_code r)) = true)
    as -> by apply String.eqb_refl.
  destruct (label_eqb (LTuple (currency_code r)) last_currency_code);
    cbn [negb label_item0 mbind outcome_bind map app default id];
    by rewrite <- ?app_assoc.
Qed.

Lemma historical_csv_group_row (st : option (list csv_write) * label)
    (r : ExchangeRates) :
  historical_csv_group_step LTuple st (currency_code r, [r])
  = Returns (csv_row_step st r).
Proof.
  destruct st as [csv_report last_currency_code].
  unfold historical_csv_group_step, csv_row_step. cbn [fst snd].
  by destruct (label_eqb (LTuple (currency_code r)) last_currency_code).
Qed.

(** Over a frame ordered by code, the writes of the group loop are those of
    its rows taken one by one. *)
Lemma historical_csv_frame_by_rows (df : frame) (st : option (list csv_write) * label) :
  grouped_by_code df ->
  for_each (historical_csv_group_step LTuple) (groupby df) st
  = Returns (fold_left csv_row_step df st).
Proof.
  revert st. induction df as [|r df IH]; intros st Hsorted; [done|].
  rewrite groupby_cons by done.
  apply StronglySorted_inv in Hsorted as [Hsorted _]. specialize (IH (csv_row_step st r) Hsorted).
  cbn [fold_left]. destruct (groupby df) as [|[k rows] groups] eqn:Hgroups.
  - destruct df; [|by apply groupby_not_nil in Hgroups].
    cbn [for_each]. by rewrite historical_csv_group_row.
  - destruct (String.eqb_spec (currency_code r) k) as [Hk|_].
    + rewrite <- IH. cbn [for_each]. destruct st as [csv_report last_currency_code].
      by rewrite historical_csv_group_rows.
    + rewrite <- IH. cbn [for_each]. by rewrite historical_csv_group_row.
Qed.

Lemma historical_csv_stream_by_rows (df_iter : list frame)
    (st : option (list csv_write) * label) :
  Forall grouped_by_code df_iter ->
  for_each (fun st df_chunk =>
              for_each (historical_csv_group_step LTuple) (groupby df_chunk) st)
           df_iter st
  = Returns (fold_left csv_row_step (concat df_iter) st).
Proof.
  intros Hsorted. revert st. induction Hsorted as [|c rest Hc _ IH]; intros st; [done|].
  cbn [for_each concat]. rewrite historical_csv_frame_by_rows by done.
  cbn [mbind outcome_bind]. by rewrite IH, fold_left_app.
Qed.

Lemma grouped_by_code_app (a b : frame) :
  grouped_by_code (a ++ b) -> grouped_by_code a /\ grouped_by_code b.
Proof.
  unfold grouped_by_code. induction a as [|r a IH]; simpl; intros Hsorted.
  - split; [constructor | done].
  - apply StronglySorted_inv in Hsorted as [Hsorted Hr].
    destruct (IH Hsorted) as [Ha Hb]. split; [|done].
    constructor; [done|]. by apply Forall_app in Hr as [Hr _].
Qed.

Lemma grouped_by_code_concat (df_iter : list frame) :
  grouped_by_code (concat df_iter) -> Forall grouped_by_code df_iter.
Proof.
  induction df_iter as [|c rest IH]; simpl; intros Hsorted; [constructor|].
  apply grouped_by_code_app in Hsorted as [Hc Hrest]. constructor; auto.
Qed.

(** X16: Where the rows of the stream are ordered by currency code, as the query
    orders them, the historical CSV report does not depend on where the
    stream is cut into frames: it is the report of the rows taken as one
    frame. *)
Theorem historical_csv_any_framing (df_iter : list frame)
    (csv_report : option (list csv_write)) :
  grouped_by_code (concat df_iter) ->
  _generate_csv_report_with_historical_data df_iter csv_report
  = _generate_csv_report_with_historical_data [concat df_iter] csv_report.
Proof.
  intros Hsorted.
  unfold _generate_csv_report_with_historical_data, historical_csv_report_with.
  rewrite (historical_csv_stream_by_rows df_iter)
    by by apply grouped_by_code_concat.
  rewrite (historical_csv_stream_by_rows [concat df_iter]).
  - cbn [concat]. by rewrite app_nil_r.
  - by repeat constructor.
Qed.

Lemma historical_csv_any_framing_witness :
  _generate_csv_report_with_historical_data eur_usd_cut None
  = _generate_csv_report_with_historical_data [concat eur_usd_cut] None.
Proof.
  apply historical_csv_any_framing.
  repeat constructor; (by left) || (by right).
Defined.

Lemma historical_csv_groups_append (groups : list (string * frame))
    (last_currency_code : label) :
  exists written last_currency_code',
    forall csv_report,
      for_each (historical_csv_group_step LTuple) groups
               (csv_report, last_currency_code)
      = Returns (match groups with
                 | [] => csv_report
                 | _ :: _ => Some (default [] csv_report ++ written)
                 end, last_currency_code').
Proof.
  revert last_currency_code.
  induction groups as [|g groups IH]; intros last_currency_code.
  - by exists [], last_currency_code.
  - destruct (IH (LTuple g.1)) as (written & last' & Hrest).
    set (heading :=
           if negb (label_eqb (LTuple g.1) last_currency_code)
           then (if label_truthy last_currency_code then [BlankLines] else [])
                ++ [CodeLine g.1; ColumnsLine]
           else []).
    set (lines := heading ++ map (fun r => RateLine (date r) (currency_rate r)) g.2).
    exists (match groups with [] => lines | _ :: _ => lines ++ written end), last'.
    intros csv_report. cbn [for_each].
    assert (historical_csv_group_step LTuple (csv_report, last_currency_code) g
            = Returns (Some (default [] csv_report ++ lines), LTuple g.1)) as ->.
    { unfold historical_csv_group_step, lines, heading.
      by destruct (negb (label_eqb (LTuple g.1) last_currency_code)). }
    cbn [mbind outcome_bind]. rewrite Hrest.
    destruct groups; [done|]. cbn [default id]. by rewrite <- app_assoc.
Qed.

Lemma historical_csv_written (df_iter : list frame) :
  exists written,
    forall csv_report,
      _generate_csv_report_with_historical_data df_iter csv_report
      = Returns (match concat df_iter with
                 | [] => csv_report
                 | _ :: _ => Some (default [] csv_report ++ written)
                 end).
Proof.
  unfold _generate_csv_report_with_historical_data, historical_csv_report_with.
  generalize (LStr "") as last_currency_code.
  induction df_iter as [|c rest IH]; intros last_currency_code.
  - by exists [].
  - destruct (historical_csv_groups_append (groupby c) last_currency_code)
      as (written & last' & Hc).
    destruct (IH last') as (written' & Hrest).
    exists (match c, concat rest with
            | [], _ => written'
            | _ :: _, [] => written
            | _ :: _, _ :: _ => written ++ written'
            end).
    intros csv_report. cbn [for_each concat]. rewrite Hc. cbn [mbind outcome_bind].
    destruct c as [|r c].
    + cbn [groupby group_keys map fold_right app]. apply Hrest.
    + pose proof (groupby_not_nil (r :: c) ltac:(done)) as Hgroups.
      destruct (groupby (r :: c)) as [|g groups]; [done|].
      rewrite Hrest. cbn [app]. destruct (concat rest); [done|].
      cbn [default id]. by rewrite <- app_assoc.
Qed.

(** X17: The historical CSV writer only appends: a stream without rows leaves the
    path as it is, without creating the file, and any other stream leaves the
    file with its previous content followed by lines that do not depend on
    that content. *)
Theorem historical_csv_appends (df_iter : list frame) :
  exists written,
    forall csv_report,
      _generate_csv_report_with_historical_data df_iter csv_report
      = Returns (match concat df_iter with
                 | [] => csv_report
                 | _ :: _ => Some (default [] csv_report ++ written)
                 end).
Proof. exact (historical_csv_written df_iter). Qed.

(** ** The queries on the table *)

Lemma elem_of_table_rows (db : store) (r : ExchangeRates) :
  r ∈ table_rows db <-> db !! (date r, currency_code r) = Some (currency_rate r).
Proof.
  unfold table_rows. change (map ?f ?l) with (f <$> l). rewrite list_elem_of_fmap. split.
  - intros ([[d c] rate] & -> & Hin). by apply elem_of_map_to_list in Hin.
  - intros Hlookup. exists ((date r, currency_code r), currency_rate r).
    split; [by destruct r|]. by apply elem_of_map_to_list.
Qed.

Lemma table_rows_keys (db : store) : NoDup (map primary_key (table_rows db)).
Proof.
  unfold table_rows. rewrite map_map.
  assert (map (fun kv : Z * string * pyfloat => primary_key (mk_row kv.1.1 kv.1.2 kv.2))
              (map_to_list db) = (map_to_list db).*1) as ->.
  { apply map_ext. by intros [[d c] rate]. }
  apply NoDup_fst_map_to_list.
Qed.

Lemma NoDup_map_filter {A B : Type} (f : A -> B) (P : A -> Prop)
    `{!forall x, Decision (P x)} (l : list A) :
  NoDup (map f l) -> NoDup (map f (filter P l)).
Proof.
  induction l as [|x l IH]; [done|]. simpl. intros [Hx Hl]%NoDup_cons.
  rewrite filter_cons. destruct (decide (P x)); [|by apply IH].
  simpl. apply NoDup_cons. split; [|by apply IH].
  intros Hin. apply Hx. change (map f ?l) with (f <$> l) in *.
  apply list_elem_of_fmap in Hin as (y & -> & Hy%list_elem_of_filter).
  apply list_elem_of_fmap. exists y. by destruct Hy.
Qed.

Lemma StronglySorted_filter {A : Type} (R : A -> A -> Prop) (P : A -> Prop)
    `{!forall x, Decision (P x)} (l : list A) :
  StronglySorted R l -> StronglySorted R (filter P l).
Proof.
  induction 1 as [|x l _ IH Hx]; [constructor|].
  rewrite filter_cons. destruct (decide (P x)); [|done].
  constructor; [done|]. apply Forall_forall. intros y [_ Hy]%list_elem_of_filter.
  rewrite Forall_forall in Hx. by apply Hx.
Qed.

Lemma sorted_distinct_ascending (l : list Z) :
  StronglySorted Z.le l -> NoDup l -> StronglySorted Z.lt l.
Proof.
  induction 1 as [|x l _ IH Hx]; intros Hnd; [constructor|].
  apply NoDup_cons in Hnd as [Hnin Hnd]. constructor; [by apply IH|].
  apply Forall_forall. intros y Hy. rewrite Forall_forall in Hx.
  specialize (Hx y Hy). assert (x <> y) by (by intros ->). lia.
Qed.

(** The dates a coverage query yields: ascending, each once, each the date of
    a selected row, each with at least [n] selected rows. *)
Lemma dates_having_count_sorted (n : nat) (rows : list ExchangeRates) :
  StronglySorted Z.lt (dates_having_count n rows).
Proof.
  unfold dates_having_count. apply StronglySorted_filter, sorted_distinct_ascending.
  - apply StronglySorted_merge_sort; apply _.
  - rewrite merge_sort_Permutation. apply NoDup_remove_dups.
Qed.

Lemma elem_of_dates_having_count (n : nat) (rows : list ExchangeRates) (d : Z) :
  d ∈ dates_having_count n rows
  <-> (exists r, r ∈ rows /\ date r = d)
      /\ (n <= length (filter (fun r => date r = d) rows))%nat.
Proof.
  unfold dates_having_count.
  rewrite list_elem_of_filter, merge_sort_Permutation, elem_of_remove_dups.
  assert (d ∈ map date rows <-> exists r, r ∈ rows /\ date r = d) as ->; [|tauto].
  change (map date rows) with (date <$> rows). rewrite list_elem_of_fmap.
  split; intros (r & H1 & H2); exists r; by split.
Qed.

Lemma get_dates_with_records_eq (db : store) (start_date end_date : Z)
    (currency_codes : option (list string)) :
  get_dates_with_records db start_date end_date currency_codes
  = _select (dates_having_count (coverage_count currency_codes)
               (coverage_rows db start_date end_date currency_codes)).
Proof. by destruct currency_codes as [[|c codes]|]. Qed.

Lemma elem_of_coverage_rows (db : store) (start_date end_date : Z)
    (currency_codes : option (list string)) (r : ExchangeRates) :
  r ∈ coverage_rows db start_date end_date currency_codes ->
  start_date <= date r <= end_date
  /\ db !! (date r, currency_code r) = Some (currency_rate r).
Proof.
  destruct currency_codes as [[|c codes]|]; simpl;
    rewrite ?list_elem_of_filter, elem_of_table_rows; unfold date_between; tauto.
Qed.

Lemma coverage_rows_keys (db : store) (start_date end_date : Z)
    (currency_codes : option (list string)) :
  NoDup (map primary_key (coverage_rows db start_date end_date currency_codes)).
Proof.
  destruct currency_codes as [[|c codes]|]; simpl;
    repeat apply NoDup_map_filter; apply table_rows_keys.
Qed.

(** The codes of the selected rows of one date: each once. *)
Lemma codes_on_date (rows : list ExchangeRates) (d : Z) :
  NoDup (map primary_key rows) ->
  NoDup (map currency_code (filter (fun r => date r = d) rows)).
Proof.
  induction rows as [|r rows IH]; [constructor|]. simpl.
  intros [Hr Hrows]%NoDup_cons. rewrite filter_cons.
  destruct (decide (date r = d)) as [Hd|_]; [|by apply IH].
  simpl. apply NoDup_cons. split; [|by apply IH].
  intros Hin. apply Hr. change (map ?f ?l) with (f <$> l) in *.
  apply list_elem_of_fmap in Hin as (r' & Hcode & [Hd' Hr']%list_elem_of_filter).
  apply list_elem_of_fmap. exists r'. split; [|done].
  unfold primary_key. by rewrite Hcode, Hd, Hd'.
Qed.

(** X18: The gap calculator is exact on the coverage of every table: for a
    request [start_date <= end_date] it returns the ranges, in ascending order
    and pairwise apart, that make up the days of the request the coverage
    query does not yield. *)
Theorem table_gaps_exact (db : store) (start_date end_date : Z)
    (currency_codes : option (list string)) :
  start_date <= end_date ->
  exists gaps,
    _calculate_missing_date_intervals start_date end_date
      (get_dates_with_records db start_date end_date currency_codes) = Returns gaps
    /\ exact_gaps start_date end_date
         (concat (get_dates_with_records db start_date end_date currency_codes)) gaps.
Proof.
  intros Hse. rewrite get_dates_with_records_eq.
  destruct (select_frames (dates_having_count (coverage_count currency_codes)
              (coverage_rows db start_date end_date currency_codes)))
    as (_ & -> & _).
  apply calculate_missing_exact_on_select; [done | apply dates_having_count_sorted |].
  apply Forall_forall. intros d [(r & Hr & <-) _]%elem_of_dates_having_count.
  by apply elem_of_coverage_rows in Hr as [? _].
Qed.

Lemma table_gaps_exact_witness :
  exists gaps,
    _calculate_missing_date_intervals (jan 1) (jan 5)
      (get_dates_with_records usd_jan_2_to_3 (jan 1) (jan 5) (Some ["USD"%string]))
    = Returns gaps
    /\ exact_gaps (jan 1) (jan 5)
         (concat (get_dates_with_records usd_jan_2_to_3 (jan 1) (jan 5)
                    (Some ["USD"%string]))) gaps.
Proof. apply table_gaps_exact. by vm_compute. Defined.

(** The codes the table holds on the date [d] among the selected rows. *)
Lemma elem_of_codes_on_date (db : store) (start_date end_date : Z)
    (c0 : string) (codes : list string) (d : Z) (c : string) :
  c ∈ map currency_code
        (filter (fun r => date r = d)
           (coverage_rows db start_date end_date (Some (c0 :: codes))))
  <-> c ∈ c0 :: codes /\ start_date <= d <= end_date /\ is_Some (db !! (d, c)).
Proof.
  change (map ?f ?l) with (f <$> l). rewrite list_elem_of_fmap. split.
  - intros (r & -> & [<- Hr]%list_elem_of_filter). cbn [coverage_rows] in Hr.
    apply list_elem_of_filter in Hr as [Hcode [Hdate Hr%elem_of_table_rows]%list_elem_of_filter].
    split; [exact Hcode|]. split; [exact Hdate|]. by eexists.
  - intros (Hcode & Hdate & [rate Hrate]). exists (mk_row d c rate). split; [done|].
    apply list_elem_of_filter. split; [done|]. cbn [coverage_rows].
    apply list_elem_of_filter. split; [done|].
    apply list_elem_of_filter. split; [done|]. by apply elem_of_table_rows.
Qed.

Lemma length_codes_on_date (rows : list ExchangeRates) (d : Z) :
  length (map currency_code (filter (fun r => date r = d) rows))
  = length (filter (fun r => date r = d) rows).
Proof. apply length_map. Qed.

(** With distinct codes, a date is covered when the table holds a rate of
    every code on it. *)
Lemma covered_by_codes (db : store) (start_date end_date : Z)
    (c0 : string) (codes : list string) (d : Z) :
  NoDup (c0 :: codes) ->
  d ∈ dates_having_count (length (c0 :: codes))
        (coverage_rows db start_date end_date (Some (c0 :: codes)))
  <-> start_date <= d <= end_date
      /\ forall c, c ∈ c0 :: codes -> is_Some (db !! (d, c)).
Proof.
  intros Hnd. rewrite elem_of_dates_having_count, <- length_codes_on_date.
  pose proof (codes_on_date _ d
                (coverage_rows_keys db start_date end_date (Some (c0 :: codes))))
    as Hcodes.
  split.
  - intros [(r & Hr & Hd) Hlen].
    apply elem_of_coverage_rows in Hr as [Hrange _]. rewrite Hd in Hrange.
    split; [done|]. intros c Hc.
    assert (Hperm : map currency_code
                      (filter (fun r => date r = d)
                         (coverage_rows db start_date end_date (Some (c0 :: codes))))
                    ≡ₚ c0 :: codes).
    { apply submseteq_length_Permutation; [|done].
      apply NoDup_submseteq; [done|].
      by intros c' (? & _)%elem_of_codes_on_date. }
    rewrite <- Hperm in Hc. by apply elem_of_codes_on_date in Hc as (_ & _ & ?).
  - intros [Hrange Hall].
    assert (Hsub : c0 :: codes
                   ⊆+ map currency_code
                        (filter (fun r => date r = d)
                           (coverage_rows db start_date end_date (Some (c0 :: codes))))).
    { apply NoDup_submseteq; [done|]. intros c Hc.
      apply elem_of_codes_on_date. auto. }
    split; [|by apply submseteq_length].
    destruct (Hall c0) as [rate Hrate]; [by left|].
    exists (mk_row d c0 rate). split; [|done]. cbn [coverage_rows].
    apply list_elem_of_filter. split; [by left|].
    apply list_elem_of_filter. split; [done|]. by apply elem_of_table_rows.
Qed.

(** X19: The meaning of the coverage: with distinct currency codes, the dates the
    query yields are the dates of the request on which the table holds a rate
    of every one of the codes; without codes, they are the dates of the
    request on which the table holds at least as many rows as there are
    available currencies, whatever their codes. *)
Theorem covered_dates (db : store) (start_date end_date : Z) (d : Z) :
  (forall codes, codes <> [] -> NoDup codes ->
     d ∈ concat (get_dates_with_records db start_date end_date (Some codes))
     <-> start_date <= d <= end_date
         /\ forall c, c ∈ codes -> is_Some (db !! (d, c)))
  /\ (d ∈ concat (get_dates_with_records db start_date end_date None)
      <-> start_date <= d <= end_date
          /\ (length AVAILABLE_CURRENCIES
              <= length (filter (fun r => date r = d) (table_rows db)))%nat).
Proof.
  split.
  - intros [|c0 codes] Hne Hnd; [done|]. rewrite get_dates_with_records_eq.
    destruct (select_frames (dates_having_count (coverage_count (Some (c0 :: codes)))
                (coverage_rows db start_date end_date (Some (c0 :: codes)))))
      as (_ & -> & _).
    by apply covered_by_codes.
  - rewrite get_dates_with_records_eq.
    destruct (select_frames (dates_having_count (coverage_count None)
                (coverage_rows db start_date end_date None))) as (_ & -> & _).
    rewrite elem_of_dates_having_count. cbn [coverage_rows coverage_count].
    rewrite list_filter_filter.
    assert (Hcount : start_date <= d <= end_date ->
              filter (fun r => date r = d /\ date_between start_date end_date r)
                     (table_rows db)
              = filter (fun r => date r = d) (table_rows db)).
    { intros Hrange. apply list_filter_iff. intros r. unfold date_between.
      split; [tauto|]. intros <-. done. }
    split.
    + intros [(r & [Hrange _]%list_elem_of_filter & Hd) Hlen].
      unfold date_between in Hrange. rewrite Hd in Hrange.
      split; [done|]. by rewrite <- Hcount.
    + intros [Hrange Hlen]. rewrite Hcount by done. split; [|done].
      destruct (filter (fun r => date r = d) (table_rows db)) as [|r rows] eqn:Hrows;
        [simpl in Hlen; lia|].
      assert (Hr : r ∈ filter (fun r => date r = d) (table_rows db))
        by (rewrite Hrows; by left).
      apply list_elem_of_filter in Hr as [Hd Hr]. exists r. split; [|done].
      apply list_elem_of_filter. unfold date_between. by rewrite Hd.
Qed.

(** A currency code given twice leaves every date uncovered. *)
Lemma repeated_code_dates (db : store) (start_date end_date : Z)
    (c0 : string) (codes : list string) :
  ~ NoDup (c0 :: codes) ->
  dates_having_count (length (c0 :: codes))
    (coverage_rows db start_date end_date (Some (c0 :: codes))) = [].
Proof.
  intros Hdup. apply elem_of_nil_inv. intros d.
  rewrite elem_of_dates_having_count, <- length_codes_on_date. intros [_ Hlen].
  apply Hdup.
  pose proof (codes_on_date _ d
                (coverage_rows_keys db start_date end_date (Some (c0 :: codes))))
    as Hcodes.
  assert (Hperm : map currency_code
                    (filter (fun r => date r = d)
                       (coverage_rows db start_date end_date (Some (c0 :: codes))))
                  ≡ₚ c0 :: codes).
  { apply submseteq_length_Permutation; [|done].
    apply NoDup_submseteq; [done|].
    by intros c' (? & _)%elem_of_codes_on_date. }
  by rewrite <- Hperm.
Qed.

(** X20: When a currency code is given more than once, no date counts as covered,
    whatever the table holds: the whole request is missing again on every
    call. *)
Theorem repeated_code_covers_nothing (db : store) (start_date end_date : Z)
    (currency_codes : list string) :
  ~ NoDup currency_codes ->
  get_dates_with_records db start_date end_date (Some currency_codes) = [[]]
  /\ _calculate_missing_date_intervals start_date end_date
       (get_dates_with_records db start_date end_date (Some currency_codes))
     = Returns [(start_date, end_date)].
Proof.
  intros Hdup. destruct currency_codes as [|c0 codes]; [destruct Hdup; constructor|].
  assert (get_dates_with_records db start_date end_date (Some (c0 :: codes)) = [[]])
    as ->; [|done].
  rewrite get_dates_with_records_eq. cbn [coverage_count].
  by rewrite repeated_code_dates.
Qed.

Lemma repeated_code_covers_nothing_witness :
  get_dates_with_records usd_jan_2_to_3 (jan 2) (jan 3) (Some ["USD"; "USD"]%string)
  = [[]]
  /\ _calculate_missing_date_intervals (jan 2) (jan 3)
       (get_dates_with_records usd_jan_2_to_3 (jan 2) (jan 3)
          (Some ["USD"; "USD"]%string))
     = Returns [(jan 2, jan 3)].
Proof.
  apply repeated_code_covers_nothing.
  apply (bool_decide_unpack _). by vm_compute.
Defined.

(** X21: A table that holds a rate of every requested currency on every day of
    the request makes the call a no-op: no request is sent, whatever the
    remote source would answer, and the table is returned as it is. *)
Theorem complete_table_needs_no_request
    (requests_get : nbp_uri -> outcome http_response) (db : store)
    (start_date end_date : Z) (currency_codes : list string) :
  start_date <= end_date ->
  currency_codes <> [] ->
  NoDup currency_codes ->
  (forall d c, start_date <= d <= end_date -> c ∈ currency_codes ->
               is_Some (db !! (d, c))) ->
  gather_data_for_date_range requests_get get_dates_with_records
    start_date end_date (Some currency_codes) db = Returns db.
Proof.
  intros Hse Hne Hnd Hall. destruct currency_codes as [|c0 codes]; [done|].
  apply gather_full_coverage; [done|]. rewrite get_dates_with_records_eq. f_equal.
  apply (StronglySorted_unique_strong Z.lt).
  - intros; lia.
  - apply dates_having_count_sorted.
  - apply seqZ_sorted.
  - apply NoDup_Permutation.
    + eapply StronglySorted_NoDup; [|apply dates_having_count_sorted]. intros; lia.
    + eapply StronglySorted_NoDup; [|apply seqZ_sorted]. intros; lia.
    + intros d. cbn [coverage_count]. rewrite covered_by_codes by done.
      rewrite elem_of_seqZ. split; [intros [? _]; lia|].
      intros Hd. split; [lia|]. intros c Hc. apply Hall; [lia | done].
Qed.

Lemma complete_table_needs_no_request_witness :
  gather_data_for_date_range (fun _ => Raises TypeError) get_dates_with_records
    (jan 2) (jan 3) (Some ["USD"%string]) usd_jan_2_to_3
  = Returns usd_jan_2_to_3.
Proof.
  apply complete_table_needs_no_request; [by vm_compute | done | | ].
  - apply (bool_decide_unpack _). by vm_compute.
  - intros d c Hd ->%list_elem_of_singleton.
    pose proof (eq_refl : jan 3 = jan 2 + 1) as Hnext.
    assert (d = jan 2 \/ d = jan 3) as [-> | ->] by lia;
      [exists (Fin 4) | exists (Fin 5)]; reflexivity.
Defined.

(** ** The data query *)

#[local] Instance by_code_and_date_total : Total by_code_and_date.
Proof.
  intros r1 r2. unfold by_code_and_date.
  pose proof (String.compare_antisym (currency_code r2) (currency_code r1)) as Hanti.
  destruct (String.compare (currency_code r1) (currency_code r2));
    rewrite Hanti; simpl; lia || tauto.
Qed.

#[local] Instance by_code_and_date_trans : Transitive by_code_and_date.
Proof.
  intros r1 r2 r3. unfold by_code_and_date.
  destruct (String.compare (currency_code r1) (currency_code r2)) eqn:H12; [| |done].
  - apply String.compare_eq_iff in H12. rewrite H12.
    destruct (String.compare (currency_code r2) (currency_code r3)); [lia|done..].
  - destruct (String.compare (currency_code r2) (currency_code r3)) eqn:H23; [| |done].
    + apply String.compare_eq_iff in H23. by rewrite <- H23, H12.
    + intros _ _. by rewrite (code_lt_trans _ _ _ H12 H23).
Qed.

Lemma by_code_and_date_grouped (rows : list ExchangeRates) :
  StronglySorted by_code_and_date rows -> grouped_by_code rows.
Proof.
  induction 1 as [|r rows _ IH Hr]; constructor; [done|].
  eapply Forall_impl; [exact Hr|]. intros r'. unfold by_code_and_date, code_lt.
  destruct (String.compare (currency_code r) (currency_code r')) eqn:Hcmp; [|auto|done].
  intros _. left. by apply String.compare_eq_iff.
Qed.

Lemma fetchmany_frames_length {A : Type} (fuel chunksize : nat) (rows : list A) :
  Forall (fun c : list A => (length c <= chunksize)%nat)
         (fetchmany_frames fuel chunksize rows).
Proof.
  revert rows. induction fuel as [|fuel IH]; intros rows; [constructor|].
  destruct rows as [|x rows]; [constructor|]. cbn [fetchmany_frames].
  constructor; [|apply IH]. rewrite length_take. lia.
Qed.

Lemma select_frames_length {A : Type} (rows : list A) :
  Forall (fun c : list A => (length c <= 100)%nat) (_select rows).
Proof.
  destruct rows as [|x rows]; [repeat constructor|]. apply fetchmany_frames_length.
Qed.

(** The rows a data query selects, as the query orders them. *)
Lemma data_query_eq (db : store) (start_date end_date : Z)
    (currency_codes : option (list string)) :
  get_exchange_rates_data_from_database db start_date end_date currency_codes
  = _select (merge_sort by_code_and_date
               (coverage_rows db start_date end_date currency_codes)).
Proof. by destruct currency_codes as [[|c codes]|]. Qed.

Lemma elem_of_selected_rows (db : store) (start_date end_date : Z)
    (currency_codes : option (list string)) (r : ExchangeRates) :
  r ∈ coverage_rows db start_date end_date currency_codes
  <-> db !! (date r, currency_code r) = Some (currency_rate r)
      /\ start_date <= date r <= end_date
      /\ code_selected currency_codes (currency_code r).
Proof.
  destruct currency_codes as [[|c codes]|]; simpl;
    rewrite ?list_elem_of_filter, elem_of_table_rows;
    unfold date_between, code_in; tauto.
Qed.

(** X22: The data query hands out the rows of the table that lie in the range and
    have one of the codes asked for, each once, ordered by code and, within a
    code, by date, in frames of at most 100 rows. *)
Theorem data_query_rows (db : store) (start_date end_date : Z)
    (currency_codes : option (list string)) :
  let df_iter :=
    get_exchange_rates_data_from_database db start_date end_date currency_codes in
  (forall r, r ∈ concat df_iter
             <-> db !! (date r, currency_code r) = Some (currency_rate r)
                 /\ start_date <= date r <= end_date
                 /\ code_selected currency_codes (currency_code r))
  /\ NoDup (map primary_key (concat df_iter))
  /\ StronglySorted by_code_and_date (concat df_iter)
  /\ grouped_by_code (concat df_iter)
  /\ Forall (fun c : frame => (length c <= 100)%nat) df_iter.
Proof.
  intros df_iter. subst df_iter. rewrite data_query_eq.
  destruct (select_frames (merge_sort by_code_and_date
              (coverage_rows db start_date end_date currency_codes)))
    as (_ & -> & _).
  assert (Hsorted : StronglySorted by_code_and_date
            (merge_sort by_code_and_date
               (coverage_rows db start_date end_date currency_codes)))
    by (apply StronglySorted_merge_sort; apply _).
  split; [|split; [|split; [|split]]].
  - intros r. rewrite merge_sort_Permutation. apply elem_of_selected_rows.
  - change (map ?f ?l) with (f <$> l). rewrite merge_sort_Permutation.
    apply coverage_rows_keys.
  - done.
  - by apply by_code_and_date_grouped.
  - apply select_frames_length.
Qed.

(** ** [generate_report] *)

Lemma analytical_entries_return (ki kd : string) (vi vd : pyfloat) :
  (exists json_report,
     _generate_json_report_with_analytical_data
       (analytical_data_of (mk_curr_map (LTuple ki) vi, mk_curr_map (LTuple kd) vd))
     = Returns json_report)
  /\ (exists csv_report,
        _generate_csv_report_with_analytical_data
          (analytical_data_of (mk_curr_map (LTuple ki) vi, mk_curr_map (LTuple kd) vd))
        = Returns csv_report).
Proof.
  unfold analytical_data_of.
  cbn [_generate_json_report_with_analytical_data
         _generate_csv_report_with_analytical_data fst snd].
  unfold json_entry, csv_entry. cbn [curr_code value label_truthy label_item0].
  split; destruct (float_truthy vi), (float_truthy vd); by eexists.
Qed.

Lemma historical_type_cases (report_type : string) :
  String.eqb report_type "h" || String.eqb report_type "historical" = true
  <-> historical report_type.
Proof.
  unfold historical. rewrite orb_true_iff, !String.eqb_eq. done.
Qed.

Lemma analytical_type_cases (report_type : string) :
  String.eqb report_type "a" || String.eqb report_type "analytical" = true
  <-> analytical report_type.
Proof.
  unfold analytical. rewrite orb_true_iff, !String.eqb_eq. done.
Qed.

Lemma historical_not_analytical (report_type : string) :
  historical report_type -> ~ analytical report_type.
Proof. by intros [-> | ->] [? | ?]. Qed.

(** X23: The outcomes of [generate_report]: it returns for a historical report
    with the extension [.json] or [.csv], and for an analytical report with
    one of these extensions over a selection that holds a row; an analytical
    report over a selection without rows ends in the [IndexError] of the
    analytics, whatever the extension; and the only report that returns
    without a file is the historical CSV report over a selection without
    rows. *)
Theorem generate_report_outcomes (report_type : string) (start_date end_date : Z)
    (currency_codes : option (list string)) (extension : string) (db : store) :
  let rows :=
    concat (get_exchange_rates_data_from_database db start_date end_date
              currency_codes) in
  let outcome_of_call :=
    generate_report report_type start_date end_date currency_codes extension db in
  ((exists report, outcome_of_call = Returns report)
   <-> supported_extension extension
       /\ (historical report_type \/ (analytical report_type /\ rows <> [])))
  /\ (outcome_of_call = Raises IndexError <-> analytical report_type /\ rows = [])
  /\ (outcome_of_call = Returns None
      <-> historical report_type /\ extension = ".csv"%string /\ rows = []).
Proof.
  intros rows outcome_of_call. subst rows outcome_of_call. unfold generate_report.
  rewrite data_query_eq.
  set (selected := merge_sort by_code_and_date
                     (coverage_rows db start_date end_date currency_codes)).
  destruct (select_frames selected) as (Hne & Hrows & Hshape). rewrite Hrows.
  pose proof (historical_type_cases report_type) as Hh.
  pose proof (analytical_type_cases report_type) as Ha.
  pose proof (historical_not_analytical report_type) as Hha.
  unfold supported_extension.
  assert (Hext : ".json"%string <> ".csv"%string) by done.
  destruct (String.eqb report_type "h" || String.eqb report_type "historical").
  - assert (Hhist : historical report_type) by by apply Hh.
    destruct (String.eqb_spec extension ".json") as [->|Hjson].
    + rewrite historical_json_entries. cbn [mbind outcome_bind].
      intuition (try discriminate; try congruence; eauto).
    + destruct (String.eqb_spec extension ".csv") as [->|Hcsv].
      * destruct (historical_csv_written (_select selected)) as [written Hwritten].
        rewrite Hwritten, Hrows. cbn [mbind outcome_bind].
        destruct selected; cbn [option_map];
          intuition (try discriminate; try congruence; eauto).
      * intuition (try discriminate; try congruence; eauto);
          match goal with H : ex _ |- _ => by destruct H end.
  - assert (Hnhist : ~ historical report_type) by (intros ?%Hh; done).
    destruct (String.eqb report_type "a" || String.eqb report_type "analytical").
    + assert (Hana : analytical report_type) by by apply Ha.
      destruct selected as [|r selected'] eqn:Hsel.
      * assert (_get_largest_exchange_rate_increase_and_decrease (_select [])
                = Raises IndexError) as -> by done.
        cbn [mbind outcome_bind].
        intuition (try discriminate; try congruence; eauto);
          match goal with H : ex _ |- _ => by destruct H end.
      * destruct Hshape as [Hshape|Hnil]; [|by rewrite Hrows in Hnil].
        destruct (largest_first_best _ Hne Hshape) as (gi & gd & -> & _).
        cbn [mbind outcome_bind].
        destruct (analytical_entries_return gi.1 gd.1 (group_rise gi) (group_fall gd))
          as [[json_report ->] [csv_report ->]].
        cbn [mbind outcome_bind].
        destruct (String.eqb_spec extension ".json") as [->|Hjson];
          [|destruct (String.eqb_spec extension ".csv") as [->|Hcsv]];
          intuition (try discriminate; try congruence; eauto);
          match goal with H : ex _ |- _ => by destruct H end.
    + assert (Hnana : ~ analytical report_type) by (intros ?%Ha; done).
      intuition (try discriminate; try congruence; eauto);
        match goal with H : ex _ |- _ => by destruct H end.
Qed.

(** ** The arguments of [main.py] *)








(** ** Requests that reach the services from [main.py] *)

Lemma filter_none {A : Type} (P : A -> Prop) `{!forall x, Decision (P x)} (l : list A) :
  (forall x, x ∈ l -> ~ P x) -> filter P l = [].
Proof.
  intros Hnone. apply elem_of_nil_inv. intros x [HP Hx]%list_elem_of_filter.
  by apply (Hnone x).
Qed.

Lemma inverted_range_rows (db : store) (start_date end_date : Z)
    (currency_codes : option (list string)) :
  end_date < start_date ->
  coverage_rows db start_date end_date currency_codes = [].
Proof.
  intros Hinv.
  assert (filter (date_between start_date end_date) (table_rows db) = []) as Hnone.
  { apply filter_none. intros r _. unfold date_between. lia. }
  destruct currency_codes as [[|c codes]|]; simpl; by rewrite Hnone.
Qed.

(** X26: A range with its start after its end, as the validation of the dates can
    hand it on, has no covered date; the whole of it is missing, it is asked of
    the remote source as it is, in one request for every currency, and during
    an outage the call ends in the [SystemExit] of a request without data. *)
Theorem inverted_range_is_requested
    (requests_get : nbp_uri -> outcome http_response) (db : store)
    (start_date end_date : Z) (currency_codes : option (list string)) :
  end_date < start_date ->
  _calculate_missing_date_intervals start_date end_date
    (get_dates_with_records db start_date end_date currency_codes)
  = Returns [(start_date, end_date)]
  /\ request_uris [(start_date, end_date)] currency_codes
     = match currency_codes with
       | Some ((_ :: _) as codes) =>
           map (fun c => mk_uri (Some c) start_date end_date) codes
       | _ => [mk_uri None start_date end_date]
       end
  /\ (outage requests_get ->
      gather_data_for_date_range requests_get get_dates_with_records
        start_date end_date currency_codes db
      = Raises (SystemExit no_data_msg)).
Proof.
  intros Hinv.
  assert (Hcov : get_dates_with_records db start_date end_date currency_codes = [[]]).
  { rewrite get_dates_with_records_eq. by rewrite inverted_range_rows. }
  assert (Hchunks : date_chunks start_date end_date = [(start_date, end_date)]).
  { unfold date_chunks, max_len.
    destruct (Z.leb_spec (end_date - start_date) 93); [done | lia]. }
  split; [by rewrite Hcov|]. split.
  - unfold request_uris, endpoint_uris. cbn [flat_map]. rewrite Hchunks.
    destruct currency_codes as [[|c codes]|]; [done | | done].
    generalize (c :: codes) as l. intros l.
    induction l as [|c' l IH]; [done|]. simpl in *. by rewrite IH.
  - intros Hout. unfold gather_data_for_date_range. rewrite Hcov.
    cbn [_calculate_missing_date_intervals scan_chunks fst mbind outcome_bind].
    unfold _collect_missing_data_from_nbp_api.
    rewrite (request_data_outage_eq requests_get _ _ Hout).
    cbn [mbind outcome_bind fold_left negb andb].
    by rewrite bool_decide_eq_true_2.
Qed.

Lemma inverted_range_is_requested_witness :
  gather_data_for_date_range (fun _ => Returns (mk_response 400 None))
    get_dates_with_records (jan 3) (jan 2) (Some ["USD"%string]) usd_jan_2_to_3
  = Raises (SystemExit no_data_msg).
Proof.
  apply (inverted_range_is_requested (fun _ => Returns (mk_response 400 None))
           usd_jan_2_to_3 (jan 3) (jan 2) (Some ["USD"%string])).
  - by vm_compute.
  - intros uri. right. eexists. split; [done|]. simpl. lia.
Defined.

(** ** The analytics of a selection that fits one frame *)

Lemma fetchmany_frames_nil {A : Type} (fuel chunksize : nat) :
  fetchmany_frames fuel chunksize (@nil A) = [].
Proof. by destruct fuel. Qed.

Lemma select_one_frame {A : Type} (rows : list A) :
  rows <> [] -> (length rows <= 100)%nat -> _select rows = [rows].
Proof.
  intros Hne Hlen. destruct rows as [|x rows]; [done|].
  unfold _select. cbn [length fetchmany_frames].
  rewrite take_ge, drop_ge by (simpl in *; lia).
  by rewrite fetchmany_frames_nil.
Qed.

(** X27: When the data query selects at least one row and at most 100, the rows
    come in one frame and the analytics are those of the whole series of
    every currency: for each direction the first currency, in the order of
    the codes, whose largest change over all its selected rates is the
    greatest. *)
Theorem small_selection_analytics (db : store) (start_date end_date : Z)
    (currency_codes : option (list string)) :
  let df_iter :=
    get_exchange_rates_data_from_database db start_date end_date currency_codes in
  concat df_iter <> [] ->
  (length (concat df_iter) <= 100)%nat ->
  exists gi gd,
    _get_largest_exchange_rate_increase_and_decrease df_iter
    = Returns (mk_curr_map (LTuple gi.1) (group_rise gi),
               mk_curr_map (LTuple gd.1) (group_fall gd))
    /\ first_best group_rise (groupby (concat df_iter)) gi
    /\ first_best group_fall (groupby (concat df_iter)) gd.
Proof.
  intros df_iter. subst df_iter. rewrite data_query_eq.
  set (selected := merge_sort by_code_and_date
                     (coverage_rows db start_date end_date currency_codes)).
  destruct (select_frames selected) as (_ & -> & _). intros Hne Hlen.
  rewrite (select_one_frame selected Hne Hlen).
  destruct (largest_first_best [selected]) as (gi & gd & Hcall & Hgi & Hgd);
    [done | by repeat constructor |].
  cbn [flat_map] in Hgi, Hgd. rewrite app_nil_r in Hgi, Hgd.
  by exists gi, gd.
Qed.

Lemma small_selection_analytics_witness :
  exists gi gd,
    _get_largest_exchange_rate_increase_and_decrease
      (get_exchange_rates_data_from_database usd_jan_2_to_3 (jan 1) (jan 5) None)
    = Returns (mk_curr_map (LTuple gi.1) (group_rise gi),
               mk_curr_map (LTuple gd.1) (group_fall gd))
    /\ first_best group_rise
         (groupby (concat (get_exchange_rates_data_from_database
                             usd_jan_2_to_3 (jan 1) (jan 5) None))) gi
    /\ first_best group_fall
         (groupby (concat (get_exchange_rates_data_from_database
                             usd_jan_2_to_3 (jan 1) (jan 5) None))) gd.
Proof.
  apply (small_selection_analytics usd_jan_2_to_3 (jan 1) (jan 5) None).
  - by vm_compute.
  - vm_compute. lia.
Defined.
